(** * The review merge engine of MERGER.py

    A shallow embedding of [WalmartReviewMerger] (src/MERGER.py): the
    extraction of reviews from a parsed JSON document, the duplicate
    check, the sentiment filter, the rating sanity check and the
    statistics of the combined document, followed by the properties the
    specification states about them.

    Modelling conventions.
    - A parsed JSON document is a value of [json]; a Python [dict] is an
      association list in insertion order, read at the first entry of a
      key, and [d[k] = v] overwrites that entry or appends a new one.
    - Text is ASCII: [strip], [lower], [upper] and [title] act on the
      ASCII white space and letters, characters above 127 are left alone.
    - A Python [float] is a binary64 value (the kernel's [float]).
    - A Python exception is the [Raise] case of [result]; the merge
      catches some of them and lets the others end the run.
    - Reading a file is outside the model: a file is its path and what
      [load_json_file] returned for it ([None] when it caught an error). *)

From Stdlib Require Import ZArith Ascii String DecimalString.
From Stdlib Require Import Floats.PrimFloat Floats.SpecFloat Floats.FloatOps Floats.FloatAxioms.
From stdpp Require Import base tactics option list gmap strings.

Local Open Scope string_scope.
Local Open Scope list_scope.

(** ** Python strings (ASCII) *)

Module PyStr.

Definition code (c : ascii) : nat := nat_of_ascii c.

(** [str.isspace] on ASCII: TAB..CR, FS..US and the space. *)
Definition is_space (c : ascii) : bool :=
  let n := code c in
  ((9 <=? n)%nat && (n <=? 13)%nat) || ((28 <=? n)%nat && (n <=? 32)%nat).

Definition is_digit (c : ascii) : bool :=
  let n := code c in (48 <=? n)%nat && (n <=? 57)%nat.

Definition is_upper (c : ascii) : bool :=
  let n := code c in (65 <=? n)%nat && (n <=? 90)%nat.

Definition is_lower (c : ascii) : bool :=
  let n := code c in (97 <=? n)%nat && (n <=? 122)%nat.

Definition is_alpha (c : ascii) : bool := is_upper c || is_lower c.

Definition lower_char (c : ascii) : ascii :=
  if is_upper c then ascii_of_nat (code c + 32) else c.

Definition upper_char (c : ascii) : ascii :=
  if is_lower c then ascii_of_nat (code c - 32) else c.

Fixpoint map_chars (f : ascii -> ascii) (s : string) : string :=
  match s with
  | EmptyString => EmptyString
  | String c r => String (f c) (map_chars f r)
  end.

(** [s.lower()] and [s.upper()]. *)
Definition lower : string -> string := map_chars lower_char.
Definition upper : string -> string := map_chars upper_char.

(** [s.lstrip()]. *)
Fixpoint lstrip (s : string) : string :=
  match s with
  | EmptyString => EmptyString
  | String c r => if is_space c then lstrip r else s
  end.

(** [s.rstrip()]: a character is dropped when everything from it to the
    end of the string is white space. *)
Fixpoint rstrip (s : string) : string :=
  match s with
  | EmptyString => EmptyString
  | String c r =>
      match rstrip r with
      | EmptyString => if is_space c then EmptyString else String c EmptyString
      | r' => String c r'
      end
  end.

(** [s.strip()]. *)
Definition strip (s : string) : string := rstrip (lstrip s).

Fixpoint drop (n : nat) (s : string) : string :=
  match n, s with
  | O, _ => s
  | S k, EmptyString => EmptyString
  | S k, String _ r => drop k r
  end.

Fixpoint take (n : nat) (s : string) : string :=
  match n, s with
  | O, _ => EmptyString
  | S k, EmptyString => EmptyString
  | S k, String c r => String c (take k r)
  end.

(** [s.startswith(p)]. *)
Fixpoint starts_with (p s : string) : bool :=
  match p, s with
  | EmptyString, _ => true
  | String _ _, EmptyString => false
  | String a p', String b s' => Ascii.eqb a b && starts_with p' s'
  end.

(** [p in s] for two strings. *)
Fixpoint contains (p s : string) : bool :=
  starts_with p s ||
  match s with
  | EmptyString => false
  | String _ r => contains p r
  end.

(** [s.replace(a, b)] for single characters. *)
Definition replace_char (a b : ascii) : string -> string :=
  map_chars (fun c => if Ascii.eqb c a then b else c).

(** [s.title()]: a letter that follows a letter is lowered, any other
    letter is raised. *)
Fixpoint title_from (prev_cased : bool) (s : string) : string :=
  match s with
  | EmptyString => EmptyString
  | String c r =>
      let c' := if prev_cased then lower_char c else upper_char c in
      String c' (title_from (is_alpha c) r)
  end.

Definition title : string -> string := title_from false.

(** The characters of a string, as Python iterates over it. *)
Fixpoint chars (s : string) : list string :=
  match s with
  | EmptyString => []
  | String c r => String c EmptyString :: chars r
  end.

(** The longest run of digits at the head of a string. *)
Fixpoint digits_prefix (s : string) : string :=
  match s with
  | String c r => if is_digit c then String c (digits_prefix r) else EmptyString
  | EmptyString => EmptyString
  end.

(** Exactly [n] digits at the head of [s]: the rest of [s] after them. *)
Fixpoint eat_digits (n : nat) (s : string) : option string :=
  match n, s with
  | O, _ => Some s
  | S k, String c r => if is_digit c then eat_digits k r else None
  | S _, EmptyString => None
  end.

End PyStr.

(** ** os.path (POSIX flavour) *)

Module OsPath.

(** [os.path.basename]: what follows the last slash. *)
Fixpoint basename (p : string) : string :=
  match p with
  | EmptyString => EmptyString
  | String c r => if PyStr.contains "/" r then basename r else
                    if Ascii.eqb c "/" then r else p
  end.

(** Index of the last dot of [s], counted from [i]. *)
Fixpoint rfind_dot (i : nat) (s : string) : option nat :=
  match s with
  | EmptyString => None
  | String c r =>
      match rfind_dot (S i) r with
      | Some j => Some j
      | None => if Ascii.eqb c "." then Some i else None
      end
  end.

Fixpoint all_dots (s : string) : bool :=
  match s with
  | EmptyString => true
  | String c r => Ascii.eqb c "." && all_dots r
  end.

(** [os.path.splitext(name)[0]] for a name without a slash: the name is
    cut at its last dot unless only dots stand before it. *)
Definition splitext_root (name : string) : string :=
  match rfind_dot 0 name with
  | Some d => if all_dots (PyStr.take d name) then name else PyStr.take d name
  | None => name
  end.

End OsPath.


(** ** Parsed JSON documents *)

Inductive json : Type :=
| JNull
| JBool (b : bool)
| JInt (z : Z)
| JFloat (f : float)
| JStr (s : string)
| JList (l : list json)
| JDict (d : list (string * json)).

(** The exceptions the merge can meet. *)
Inductive exn : Type :=
| TypeError | ValueError | AttributeError | KeyError | OverflowError.

Inductive result (A : Type) : Type :=
| Ok (a : A)
| Raise (e : exn).
Arguments Ok {A} a.
Arguments Raise {A} e.

(** Sequencing: an exception ends the computation. *)
Definition bind {A B : Type} (m : result A) (f : A -> result B) : result B :=
  match m with
  | Ok a => f a
  | Raise e => Raise e
  end.

Notation "x <- m ;; k" := (bind m (fun x => k))
  (at level 20, m at level 99, k at level 200, only parsing).
Notation "' p <- m ;; k" := (bind m (fun x => let 'p := x in k))
  (at level 20, p pattern, m at level 99, k at level 200, only parsing).

(** [for x in l: acc = f(acc, x)], stopping at the first exception. *)
Fixpoint foldM {A S : Type} (f : S -> A -> result S) (l : list A) (s : S) : result S :=
  match l with
  | [] => Ok s
  | x :: r => s' <- f s x;; foldM f r s'
  end.

(** [[f(x) for x in l]], stopping at the first exception. *)
Fixpoint traverse {A B : Type} (f : A -> result B) (l : list A) : result (list B) :=
  match l with
  | [] => Ok []
  | x :: r => y <- f x;; ys <- traverse f r;; Ok (y :: ys)
  end.

Module Dict.

(** [d.get(k)]. *)
Fixpoint get (k : string) (d : list (string * json)) : option json :=
  match d with
  | [] => None
  | (k', v) :: r => if String.eqb k k' then Some v else get k r
  end.

(** [k in d]. *)
Definition has (k : string) (d : list (string * json)) : bool :=
  match get k d with Some _ => true | None => false end.

(** [d[k] = v]. *)
Fixpoint set (k : string) (v : json) (d : list (string * json)) : list (string * json) :=
  match d with
  | [] => [(k, v)]
  | (k', v') :: r => if String.eqb k k' then (k, v) :: r else (k', v') :: set k v r
  end.

Definition keys (d : list (string * json)) : list string := map fst d.

End Dict.

(** [bool(v)]: [None], [False], zero, and the empty string, list and dict
    are false. *)
Definition truthy (v : json) : bool :=
  match v with
  | JNull => false
  | JBool b => b
  | JInt z => negb (z =? 0)%Z
  | JFloat f => negb (PrimFloat.eqb f 0)
  | JStr s => negb (String.eqb s "")
  | JList l => match l with [] => false | _ => true end
  | JDict d => match d with [] => false | _ => true end
  end.

(** [v is None]. *)
Definition is_null (v : json) : bool := match v with JNull => true | _ => false end.

(** [k in v] for a string [k]: a key of a dict, an element of a list, a
    substring of a string; the other values are not containers. *)
Definition py_in (k : string) (v : json) : result bool :=
  match v with
  | JDict d => Ok (Dict.has k d)
  | JList l => Ok (existsb (fun x => match x with JStr s => String.eqb k s | _ => false end) l)
  | JStr s => Ok (PyStr.contains k s)
  | _ => Raise TypeError
  end.

(** [v[k]] for a string [k]. *)
Definition getitem (v : json) (k : string) : result json :=
  match v with
  | JDict d => match Dict.get k d with Some x => Ok x | None => Raise KeyError end
  | _ => Raise TypeError
  end.

(** [v[k] = x] for a string [k]: the object after the assignment. *)
Definition setitem (v : json) (k : string) (x : json) : result json :=
  match v with
  | JDict d => Ok (JDict (Dict.set k x d))
  | _ => Raise TypeError
  end.

(** [v.get(k, dflt)]: a method of dicts only. *)
Definition py_get (v : json) (k : string) (dflt : json) : result json :=
  match v with
  | JDict d => Ok (match Dict.get k d with Some x => x | None => dflt end)
  | _ => Raise AttributeError
  end.

(** [v.lower()]: a method of strings only. *)
Definition py_lower (v : json) : result string :=
  match v with
  | JStr s => Ok (PyStr.lower s)
  | _ => Raise AttributeError
  end.

(** What [list.extend(v)] appends: the elements of a list, the
    characters of a string, the keys of a dict. *)
Definition py_iter (v : json) : result (list json) :=
  match v with
  | JList l => Ok l
  | JStr s => Ok (map JStr (PyStr.chars s))
  | JDict d => Ok (map JStr (Dict.keys d))
  | _ => Raise TypeError
  end.

(** ** The interpreter's builtins

    Three builtins are kept abstract: the text [str] gives for a float, a
    list or a dict, the parsing of a float literal by [float], and
    [round(x, n)]. *)
Record builtins : Type := {
  repr : json -> string;
  float_of_string : string -> option float;
  round_to : float -> Z -> float
}.

(** The builtins as far as the sample inputs need them: these print no
    float, list or dict, hold no number in a string, and round only floats
    with at most one decimal, which [round] returns as they are. *)
Definition plain : builtins :=
  {| repr := fun _ => "<object>";
     float_of_string := fun _ => None;
     round_to := fun x _ => x |}.

(** [float(z)] for an integer: rounded to the nearest binary64 value,
    [OverflowError] when that is out of range. *)
Definition float_of_Z (z : Z) : result float :=
  match binary_normalize prec emax z 0 false with
  | S754_infinity _ => Raise OverflowError
  | sf => Ok (SF2Prim sf)
  end.

Section Merger.

Variable py : builtins.

(** [str(v)]. *)
Definition py_str (v : json) : string :=
  match v with
  | JStr s => s
  | JNull => "None"
  | JBool true => "True"
  | JBool false => "False"
  | JInt z => NilZero.string_of_int (Z.to_int z)
  | _ => repr py v
  end.

(** [float(v)]. *)
Definition py_float (v : json) : result float :=
  match v with
  | JFloat f => Ok f
  | JInt z => float_of_Z z
  | JBool b => Ok (if b then 1 else 0)%float
  | JStr s => match float_of_string py s with
              | Some f => Ok f
              | None => Raise ValueError
              end
  | JNull | JList _ | JDict _ => Raise TypeError
  end.



(** ** The regular expressions of [extract_reviews_from_json] *)

(** [re.search(r'_(\d{8,})_', s)]: group 1 of the leftmost match. At an
    underscore the digits that follow are taken greedily; the match needs
    at least eight of them and an underscore right after the run (a
    shorter run is followed by a digit, so backtracking finds nothing). *)
Fixpoint search_id (s : string) : option string :=
  match s with
  | EmptyString => None
  | String c r =>
      if Ascii.eqb c "_" then
        let ds := PyStr.digits_prefix r in
        if (8 <=? String.length ds)%nat
           && PyStr.starts_with "_" (PyStr.drop (String.length ds) r)
        then Some ds
        else search_id r
      else search_id r
  end.

(** [re.sub(r'walmart_reviews_?', '', s)]: every occurrence of the tag,
    with the underscore after it when there is one, is removed; [skip]
    counts the characters of a match still to drop. *)
Fixpoint sub_tag (skip : nat) (s : string) : string :=
  match s with
  | EmptyString => EmptyString
  | String c r =>
      match skip with
      | S k => sub_tag k r
      | O =>
          if PyStr.starts_with "walmart_reviews_" s then sub_tag 15 r
          else if PyStr.starts_with "walmart_reviews" s then sub_tag 14 r
          else String c (sub_tag 0 r)
      end
  end.

Definition newline : string := String (ascii_of_nat 10) EmptyString.

(** A match of [_\d{8}_\d{6}$] at the head of [s]: what is left of [s]
    after it ([$] also matches before a final newline). *)
Definition timestamp_here (s : string) : option string :=
  match s with
  | String c r =>
      if Ascii.eqb c "_" then
        match PyStr.eat_digits 8 r with
        | Some (String c2 r2) =>
            if Ascii.eqb c2 "_" then
              match PyStr.eat_digits 6 r2 with
              | Some rest =>
                  if String.eqb rest "" then Some ""
                  else if String.eqb rest newline then Some newline
                  else None
              | None => None
              end
            else None
        | _ => None
        end
      else None
  | EmptyString => None
  end.

(** [re.sub(r'_\d{8}_\d{6}$', '', s)]. *)
Fixpoint sub_timestamp (s : string) : string :=
  match s with
  | EmptyString => EmptyString
  | String c r =>
      match timestamp_here s with
      | Some rest => rest
      | None => String c (sub_timestamp r)
      end
  end.

(** ** extract_reviews_from_json *)

(** The [product_info] dict: its four keys are always present;
    [product_id] holds [None] or a string, the two others any value. *)
Record product_info : Type := {
  pi_product_id : option string;
  pi_product_name : json;
  pi_product_url : json;
  pi_source_file : string
}.

(** [not product_info['product_id']]. *)
Definition no_id (o : option string) : bool :=
  match o with
  | None => true
  | Some s => String.eqb s ""
  end.

(** The product-level metadata read from the document. *)
Definition document_info (data : json) (source_file : string) : product_info :=
  let d := match data with JDict d => d | _ => [] end in
  {| pi_product_id := option_map py_str (Dict.get "product_id" d);
     pi_product_name := default JNull (Dict.get "product_name" d);
     pi_product_url := default JNull (Dict.get "product_url" d);
     pi_source_file := OsPath.basename source_file |}.

(** [if k not in review and k in product: review[k] = product[k]]. *)
Definition inherit_field (k : string) (product review : json) : result json :=
  b <- py_in k review;;
  if b then Ok review
  else
    c <- py_in k product;;
    if c then (v <- getitem product k;; setitem review k v) else Ok review.

(** The body of [for product in data['products']]: the reviews one
    product adds. *)
Definition product_reviews (product : json) : result (list json) :=
  b <- py_in "reviews" product;;
  if b then
    rs <- getitem product "reviews";;
    match rs with
    | JList l =>
        traverse (fun review =>
                    r <- inherit_field "product_id" product review;;
                    inherit_field "product_name" product r) l
    | _ => Ok []
    end
  else Ok [].

(** [reviews.extend(group[k])] when [k] is a key of the grouped reviews. *)
Definition extend_group (g : list (string * json)) (acc : list json) (k : string)
  : result (list json) :=
  match Dict.get k g with
  | Some v => vs <- py_iter v;; Ok (acc ++ vs)
  | None => Ok acc
  end.

(** The three cases of the document's shape, first match wins. *)
Definition collect_reviews (data : json) : result (list json) :=
  match data with
  | JDict d =>
      match Dict.get "products" d with
      | Some (JList ps) => rss <- traverse product_reviews ps;; Ok (concat rss)
      | _ =>
          match Dict.get "reviews" d with
          | Some (JList l) => Ok l
          | Some (JDict g) =>
              foldM (extend_group g) ["positive"; "negative"; "neutral"; "all"] []
          | _ => Ok []
          end
      end
  | JList l => Ok l
  | _ => Ok []
  end.

(** The body of the post-processing loop: the review gets its
    [source_file], and the first review with a true [product_id] gives
    the document its id when it has none yet. *)
Definition stamp_review (base : string) (acc : list json * option string) (review : json)
  : result (list json * option string) :=
  match review with
  | JDict d =>
      let d' := Dict.set "source_file" (JStr base) d in
      let pid :=
        match Dict.get "product_id" d' with
        | Some v => if truthy v && no_id (snd acc) then Some (py_str v) else snd acc
        | None => snd acc
        end in
      Ok (fst acc ++ [JDict d'], pid)
  | _ => Raise TypeError
  end.

(** The name of a file without the tag and the time stamp. *)
Definition clean_name (source_file : string) : string :=
  sub_timestamp (sub_tag 0 (OsPath.splitext_root (OsPath.basename source_file))).

(** The fallback for a document that still has no id: an id found in
    the file name, else a group id made of the file name. *)
Definition resolve_identity (source_file : string) (info : product_info) : product_info :=
  if no_id (pi_product_id info) then
    match search_id source_file with
    | Some ds =>
        {| pi_product_id := Some ds;
           pi_product_name := pi_product_name info;
           pi_product_url := pi_product_url info;
           pi_source_file := pi_source_file info |}
    | None =>
        let name := clean_name source_file in
        {| pi_product_id := Some (String.append "GROUP_" name);
           pi_product_name :=
             if truthy (pi_product_name info) then pi_product_name info
             else JStr (PyStr.title (PyStr.replace_char "_" " " name));
           pi_product_url := pi_product_url info;
           pi_source_file := pi_source_file info |}
    end
  else info.

Definition extract_reviews_from_json (data : json) (source_file : string)
  : result (list json * product_info) :=
  let info := document_info data source_file in
  raw <- collect_reviews data;;
  '(reviews, pid) <- foldM (stamp_review (OsPath.basename source_file)) raw
                      ([], pi_product_id info);;
  Ok (reviews,
      resolve_identity source_file
        {| pi_product_id := pid;
           pi_product_name := pi_product_name info;
           pi_product_url := pi_product_url info;
           pi_source_file := pi_source_file info |}).

(** ** The merger *)

(** An entry of [product_map]. *)
Record product : Type := {
  product_id : option string;
  product_name : json;
  product_url : json;
  source_files : list string;
  reviews : list json
}.

(** The attributes of a [WalmartReviewMerger], and the three totals
    [merge_files] keeps in local variables while it runs. *)
Record merger : Type := {
  all_reviews : list json;
  all_products : list product;
  seen_review_texts : gset string;
  product_map : list (option string * product);
  total_reviews_loaded : nat;
  total_duplicates_removed : nat;
  total_filtered_out : nat
}.

(** [__init__]. *)
Definition init : merger :=
  {| all_reviews := [];
     all_products := [];
     seen_review_texts := ∅;
     product_map := [];
     total_reviews_loaded := 0;
     total_duplicates_removed := 0;
     total_filtered_out := 0 |}.

(** The key under which a review text is remembered. *)
Definition normalize (review_text : json) : string :=
  PyStr.lower (PyStr.strip (py_str review_text)).

(** The first test of [is_duplicate_review]. *)
Definition too_short (review_text : json) : bool :=
  negb (truthy review_text) || (String.length (py_str review_text) <? 10)%nat.

(** [is_duplicate_review]: the answer and the set of seen texts after
    the call. *)
Definition is_duplicate_review (seen : gset string) (review_text : json)
  : bool * gset string :=
  if too_short review_text then (true, seen)
  else if bool_decide (normalize review_text ∈ seen) then (true, seen)
  else (false, {[normalize review_text]} ∪ seen).

(** [if filter_sentiment:] the filter counts when it is a non-empty string. *)
Definition active_filter (filter_sentiment : option string) : option string :=
  match filter_sentiment with
  | Some s => if String.eqb s "" then None else Some s
  | None => None
  end.

(** The sentiment test: [true] when the review is kept. *)
Definition passes_filter (filter_sentiment : option string) (review : json) : result bool :=
  match active_filter filter_sentiment with
  | Some s =>
      v <- py_get review "sentiment" (JStr "");;
      review_sentiment <- py_lower v;;
      Ok (String.eqb review_sentiment (PyStr.lower s))
  | None => Ok true
  end.

(** The rating sanity check: the review after it. [float] failing with
    [ValueError] or [TypeError] is caught, any other exception is not. *)
Definition sanitize_rating (review : json) : result json :=
  match review with
  | JDict d =>
      match Dict.get "rating" d with
      | None | Some JNull => Ok review
      | Some v =>
          match py_float v with
          | Ok r_val =>
              if PrimFloat.ltb 5 r_val
              then Ok (JDict (Dict.set "rating" JNull d))
              else Ok (JDict (Dict.set "rating" (JFloat r_val) d))
          | Raise ValueError | Raise TypeError =>
              Ok (JDict (Dict.set "rating" JNull d))
          | Raise e => Raise e
          end
      end
  | _ => Raise TypeError
  end.

Definition same_id (a b : option string) : bool := bool_decide (a = b).

(** [product_id in self.product_map]. *)
Definition pm_has (pid : option string) (pm : list (option string * product)) : bool :=
  existsb (fun e => same_id (fst e) pid) pm.

(** [self.product_map[pid]], changed by [f]. *)
Fixpoint pm_update (pid : option string) (f : product -> product)
         (pm : list (option string * product)) : result (list (option string * product)) :=
  match pm with
  | [] => Raise KeyError
  | (k, p) :: r =>
      if same_id k pid then Ok ((k, f p) :: r)
      else r' <- pm_update pid f r;; Ok ((k, p) :: r')
  end.

Definition add_source (source_file : string) (p : product) : product :=
  {| product_id := product_id p;
     product_name := product_name p;
     product_url := product_url p;
     source_files :=
       if existsb (String.eqb source_file) (source_files p) then source_files p
       else source_files p ++ [source_file];
     reviews := reviews p |}.

Definition add_review (review : json) (p : product) : product :=
  {| product_id := product_id p;
     product_name := product_name p;
     product_url := product_url p;
     source_files := source_files p;
     reviews := reviews p ++ [review] |}.

Definition new_product (info : product_info) : product :=
  {| product_id := pi_product_id info;
     product_name := pi_product_name info;
     product_url := pi_product_url info;
     source_files := [];
     reviews := [] |}.

(** The body of [for review in reviews]. *)
Definition process_review (filter_sentiment : option string) (pid : option string)
           (self : merger) (review : json) : result merger :=
  review_text <- py_get review "review_text" (JStr "");;
  let (dup, seen) := is_duplicate_review (seen_review_texts self) review_text in
  if dup then
    Ok {| all_reviews := all_reviews self;
          all_products := all_products self;
          seen_review_texts := seen;
          product_map := product_map self;
          total_reviews_loaded := total_reviews_loaded self;
          total_duplicates_removed := S (total_duplicates_removed self);
          total_filtered_out := total_filtered_out self |}
  else
    keep <- passes_filter filter_sentiment review;;
    if keep then
      review' <- sanitize_rating review;;
      pm <- pm_update pid (add_review review') (product_map self);;
      Ok {| all_reviews := all_reviews self ++ [review'];
            all_products := all_products self;
            seen_review_texts := seen;
            product_map := pm;
            total_reviews_loaded := total_reviews_loaded self;
            total_duplicates_removed := total_duplicates_removed self;
            total_filtered_out := total_filtered_out self |}
    else
      Ok {| all_reviews := all_reviews self;
            all_products := all_products self;
            seen_review_texts := seen;
            product_map := product_map self;
            total_reviews_loaded := total_reviews_loaded self;
            total_duplicates_removed := total_duplicates_removed self;
            total_filtered_out := S (total_filtered_out self) |}.

(** The product of the file is entered in [product_map] and gets the
    file among its [source_files]. *)
Definition track_product (info : product_info) (n : nat) (self : merger) : result merger :=
  let pid := pi_product_id info in
  let pm := if pm_has pid (product_map self) then product_map self
            else product_map self ++ [(pid, new_product info)] in
  pm' <- pm_update pid (add_source (pi_source_file info)) pm;;
  Ok {| all_reviews := all_reviews self;
        all_products := all_products self;
        seen_review_texts := seen_review_texts self;
        product_map := pm';
        total_reviews_loaded := total_reviews_loaded self + n;
        total_duplicates_removed := total_duplicates_removed self;
        total_filtered_out := total_filtered_out self |}.

(** A file as the loop sees it: its path and what [load_json_file]
    returned, [None] when loading failed and the error was printed. *)
Definition file : Type := string * option json.

(** The body of [for i, filepath in enumerate(json_files, 1)]. *)
Definition process_file (filter_sentiment : option string) (self : merger) (f : file)
  : result merger :=
  match snd f with
  | None => Ok self
  | Some data =>
      if truthy data then
        '(revs, info) <- extract_reviews_from_json data (fst f);;
        match revs with
        | [] => Ok self
        | _ =>
            self' <- track_product info (length revs) self;;
            foldM (process_review filter_sentiment (pi_product_id info)) revs self'
        end
      else Ok self
  end.

(** ** build_combined_data *)

Record statistics : Type := {
  sentiment_distribution : list (string * nat);
  average_rating : option float;
  average_confidence : option float;
  average_score : option float;
  verified_purchases : nat;
  verified_percentage : json
}.

(** The combined document; [merged_at], the time of the call, is left out. *)
Record combined_data : Type := {
  total_files_merged : nat;
  total_products : nat;
  total_reviews : nat;
  stats : statistics;
  filter_label : option string;
  products : list product
}.

(** [sentiments[k] = sentiments.get(k, 0) + 1]. *)
Fixpoint count_up (k : string) (d : list (string * nat)) : list (string * nat) :=
  match d with
  | [] => [(k, 1)]
  | (k', n) :: r => if String.eqb k k' then (k', S n) :: r else (k', n) :: count_up k r
  end.

(** The sentiment under which a review is counted. *)
Definition counted_sentiment (review : json) : result string :=
  v <- py_get review "sentiment" (JStr "unknown");;
  py_lower (if truthy v then v else JStr "unknown").

(** [ratings]: the ratings that are not [None]. *)
Definition ratings_of (revs : list json) : result (list json) :=
  rs <- traverse (fun r => py_get r "rating" JNull) revs;;
  Ok (List.filter (fun v => negb (is_null v)) rs).

(** [confidences] and [scores]: the values of the field that are not
    [None] and that [float] accepts. *)
Definition floats_of (k : string) (revs : list json) : result (list float) :=
  rs <- traverse (fun r => py_get r k JNull) revs;;
  Ok (omap (fun v => match v with
                    | JNull => None
                    | _ => match py_float v with Ok x => Some x | Raise _ => None end
                    end) rs).

(** [sum] of a list of floats, added from the left to the integer 0. *)
Definition fsum (l : list float) : float := fold_left PrimFloat.add l 0%float.

(** [float(n)] for a length. *)
Definition float_of_nat (n : nat) : float :=
  SF2Prim (binary_normalize prec emax (Z.of_nat n) 0 false).

(** [sum(l) / len(l) if l else None]. *)
Definition mean (l : list float) : option float :=
  match l with
  | [] => None
  | _ => Some (PrimFloat.div (fsum l) (float_of_nat (length l)))
  end.

(** [round(avg, n) if avg else None]: a float is true unless it is zero. *)
Definition rounded (n : Z) (avg : option float) : option float :=
  match avg with
  | Some x => if truthy (JFloat x) then Some (round_to py x n) else None
  | None => None
  end.

(** The ratings as numbers: after [merge_files] a rating that is not
    [None] is a float; [sum] refuses what is not a number. *)
Definition rating_value (v : json) : result float :=
  match v with
  | JFloat x => Ok x
  | JInt z => float_of_Z z
  | JBool b => Ok (if b then 1 else 0)%float
  | _ => Raise TypeError
  end.

Definition build_combined_data (self : merger) (filter_sentiment : option string)
  : result combined_data :=
  names <- traverse counted_sentiment (all_reviews self);;
  ratings <- ratings_of (all_reviews self);;
  confidences <- floats_of "confidence" (all_reviews self);;
  scores <- floats_of "score" (all_reviews self);;
  verified <- traverse (fun r => py_get r "verified_purchase" JNull) (all_reviews self);;
  rating_values <- traverse rating_value ratings;;
  let verified_count := length (List.filter truthy verified) in
  let n := length (all_reviews self) in
  Ok {| total_files_merged := length (product_map self);
        total_products := length (all_products self);
        total_reviews := n;
        stats :=
          {| sentiment_distribution :=
               fold_left (fun d k => count_up k d) names
                 [("positive", 0); ("negative", 0); ("neutral", 0); ("unknown", 0)];
             average_rating := rounded 2 (mean rating_values);
             average_confidence := rounded 4 (mean confidences);
             average_score := rounded 4 (mean scores);
             verified_purchases := verified_count;
             verified_percentage :=
               match all_reviews self with
               | [] => JInt 0
               | _ => JFloat (round_to py
                                (PrimFloat.mul
                                   (PrimFloat.div (float_of_nat verified_count)
                                                  (float_of_nat n)) 100) 2)
               end |};
        filter_label :=
          match active_filter filter_sentiment with
          | Some s => Some (String.append (PyStr.upper s) "_ONLY")
          | None => None
          end;
        products := all_products self |}.

(** [merge_files]: the merger after the run and the document returned. *)
Definition merge_files (json_files : list file) (filter_sentiment : option string)
  : result (merger * combined_data) :=
  self <- foldM (process_file filter_sentiment) json_files init;;
  let self' :=
    {| all_reviews := all_reviews self;
       all_products := map snd (product_map self);
       seen_review_texts := seen_review_texts self;
       product_map := product_map self;
       total_reviews_loaded := total_reviews_loaded self;
       total_duplicates_removed := total_duplicates_removed self;
       total_filtered_out := total_filtered_out self |} in
  out <- build_combined_data self' filter_sentiment;;
  Ok (self', out).

(** ** What the properties speak about *)

(** [review.get('review_text', '')], the text the duplicate check sees. *)
Definition text_of (review : json) : json :=
  match review with
  | JDict d => default (JStr "") (Dict.get "review_text" d)
  | _ => JStr ""
  end.

(** The normalized text of a review. *)
Definition review_key (review : json) : string := normalize (text_of review).

(** [review.get('rating')]. *)
Definition rating_of (review : json) : json :=
  match review with
  | JDict d => default JNull (Dict.get "rating" d)
  | _ => JNull
  end.

(** [review.get('sentiment', '')]. *)
Definition sentiment_of (review : json) : json :=
  match review with
  | JDict d => default (JStr "") (Dict.get "sentiment" d)
  | _ => JStr ""
  end.

(** The reviews of the document returned, product after product. *)
Definition output_reviews (out : combined_data) : list json :=
  concat (map reviews (products out)).

(** The reviews held by a product map. *)
Definition pm_reviews (pm : list (option string * product)) : list json :=
  concat (map (fun e => reviews (snd e)) pm).

(** One turn of the review loop, as seen from outside: the review is
    dropped as a duplicate, counted as filtered out, or kept. *)
Inductive review_step (filter_sentiment : option string) (pid : option string)
          (self : merger) (review : json) (self' : merger) : Prop :=
| step_duplicate :
    too_short (text_of review) = true \/ review_key review ∈ seen_review_texts self ->
    all_reviews self' = all_reviews self ->
    seen_review_texts self' = seen_review_texts self ->
    product_map self' = product_map self ->
    total_duplicates_removed self' = S (total_duplicates_removed self) ->
    total_filtered_out self' = total_filtered_out self ->
    review_step filter_sentiment pid self review self'
| step_filtered :
    too_short (text_of review) = false ->
    review_key review ∉ seen_review_texts self ->
    passes_filter filter_sentiment review = Ok false ->
    all_reviews self' = all_reviews self ->
    seen_review_texts self' = {[review_key review]} ∪ seen_review_texts self ->
    product_map self' = product_map self ->
    total_duplicates_removed self' = total_duplicates_removed self ->
    total_filtered_out self' = S (total_filtered_out self) ->
    review_step filter_sentiment pid self review self'
| step_kept (review' : json) :
    too_short (text_of review) = false ->
    review_key review ∉ seen_review_texts self ->
    passes_filter filter_sentiment review = Ok true ->
    sanitize_rating review = Ok review' ->
    all_reviews self' = all_reviews self ++ [review'] ->
    seen_review_texts self' = {[review_key review]} ∪ seen_review_texts self ->
    pm_update pid (add_review review') (product_map self) = Ok (product_map self') ->
    total_duplicates_removed self' = total_duplicates_removed self ->
    total_filtered_out self' = total_filtered_out self ->
    review_step filter_sentiment pid self review self'.

(** ** Notions used by the proofs *)

(** The map [track_product] updates: the old one, with an entry for the
    product added at its end when it had none. *)
Definition with_product (info : product_info) (pm : list (option string * product))
  : list (option string * product) :=
  if pm_has (pi_product_id info) pm then pm
  else pm ++ [(pi_product_id info, new_product info)].

(** The accepted reviews have pairwise distinct normalized texts, all
    of them remembered as seen. *)
Definition dedup_inv (self : merger) : Prop :=
  NoDup (map review_key (all_reviews self)) /\
  forall r, In r (all_reviews self) -> review_key r ∈ seen_review_texts self.

(** The keys of the product map are distinct, none is [None], and every
    entry carries its key as [product_id]. *)
Definition keyed (pm : list (option string * product)) : Prop :=
  NoDup (map fst pm) /\
  Forall (fun e => product_id (snd e) = fst e /\ is_Some (fst e)) pm.

(** The sentiment of the review is a string, equal to [wanted] when both
    are put in lowercase. *)
Definition has_sentiment (wanted : string) (r : json) : Prop :=
  exists s, sentiment_of r = JStr s /\ PyStr.lower s = PyStr.lower wanted.

(** The review after the rating check, from the review before it. *)
Definition rating_rule (r r' : json) : Prop :=
  exists d, r = JDict d /\
    (rating_of r = JNull -> r' = r) /\
    (forall e, rating_of r <> JNull -> py_float (rating_of r) = Raise e ->
               r' = JDict (Dict.set "rating" JNull d)) /\
    (forall x, rating_of r <> JNull -> py_float (rating_of r) = Ok x ->
               PrimFloat.ltb 5 x = true -> r' = JDict (Dict.set "rating" JNull d)) /\
    (forall x, rating_of r <> JNull -> py_float (rating_of r) = Ok x ->
               PrimFloat.ltb 5 x = false -> r' = JDict (Dict.set "rating" (JFloat x) d)) /\
    (forall x, rating_of r <> JNull -> py_float (rating_of r) = Ok x ->
               PrimFloat.leb x 5 = true -> r' = JDict (Dict.set "rating" (JFloat x) d)).

(** An accepted review comes from a candidate extracted from a file. *)
Definition accepted_from (files : list file) (r' : json) : Prop :=
  exists path data revs info r,
    In (path, Some data) files /\
    extract_reviews_from_json data path = Ok (revs, info) /\
    In r revs /\
    sanitize_rating r = Ok r' /\
    rating_rule r r'.

(** ** Sample inputs *)

(** A document without any [product_id], in a file named with the tag, a
    name and a time stamp. *)
Definition kitchen_file : file :=
  ("walmart_reviews_kitchen_20240101_120000.json",
   Some (JDict [("reviews",
                 JList [JDict [("review_text", JStr "A sturdy pan, heats evenly")]])])).

(** A review whose rating, confidence and score are zero. *)
Definition zero_file : file :=
  ("reviews_12345678_a.json",
   Some (JList [JDict [("review_text", JStr "Broke on the first day");
                       ("rating", JInt 0);
                       ("confidence", JFloat 0);
                       ("score", JFloat 0)]])).

(** Two reviews with the same text up to case and outer blanks, the first
    negative and the second positive. *)
Definition negative_first : json :=
  JDict [("review_text", JStr "Great blender, works well");
         ("sentiment", JStr "negative")].

Definition positive_second : json :=
  JDict [("review_text", JStr "  great blender, works WELL ");
         ("sentiment", JStr "positive")].

Definition blender_file (revs : list json) : file :=
  ("reviews_12345678_b.json", Some (JList revs)).

(** A review whose sentiment is null. *)
Definition null_sentiment_file : file :=
  ("reviews_12345678_f.json",
   Some (JList [JDict [("review_text", JStr "Arrived on time, works fine");
                       ("sentiment", JNull)]])).

(** A review whose text is two letters followed by eight blanks. *)
Definition padded_file : file :=
  ("reviews_12345678_c.json",
   Some (JList [JDict [("review_text", JStr "ok        ")]])).

(** An array that holds a number where a review is expected. *)
Definition number_file : file :=
  ("reviews_12345678_d.json", Some (JList [JInt 1])).

(** A product with three reviews, the last one too short; a group file
    whose second review repeats the first review of the product in another
    case and with outer blanks; and a file that could not be loaded. *)
Definition sample_files : list file :=
  [("reviews_12345678_a.json",
    Some (JDict [("product_name", JStr "Blender");
                 ("reviews",
                  JList [JDict [("review_text", JStr "Great blender, works well");
                                ("sentiment", JStr "Positive");
                                ("rating", JFloat 1060)];
                         JDict [("review_text", JStr "Stopped working after a week");
                                ("sentiment", JStr "negative");
                                ("rating", JInt 2)];
                         JDict [("review_text", JStr "Meh")]])]));
   ("walmart_reviews_kitchen.json",
    Some (JList [JDict [("review_text", JStr "Quiet and easy to clean");
                        ("sentiment", JStr "positive");
                        ("rating", JInt 5)];
                 JDict [("review_text", JStr "  GREAT blender, works well  ");
                        ("sentiment", JStr "positive")]]));
   ("missing.json", None)].

(** ** Well-typed documents *)

(** [sentiment] is absent or a string. *)
Definition sentiment_ok (d : list (string * json)) : bool :=
  match Dict.get "sentiment" d with
  | None | Some (JStr _) => true
  | Some _ => false
  end.

(** [rating] is not an integer too large for a float. *)
Definition rating_ok (d : list (string * json)) : bool :=
  match Dict.get "rating" d with
  | Some (JInt z) => match float_of_Z z with Ok _ => true | Raise _ => false end
  | _ => true
  end.

(** A review is an object, with such a sentiment and such a rating. *)
Definition well_typed_review (r : json) : bool :=
  match r with
  | JDict d => sentiment_ok d && rating_ok d
  | _ => false
  end.

(** A product is an object; its [reviews], when an array, holds
    well-typed reviews. *)
Definition well_typed_product (p : json) : bool :=
  match p with
  | JDict pd =>
      match Dict.get "reviews" pd with
      | Some (JList l) => forallb well_typed_review l
      | _ => true
      end
  | _ => false
  end.

(** A sentiment group, when present, is an array of well-typed reviews. *)
Definition well_typed_group (g : list (string * json)) (k : string) : bool :=
  match Dict.get k g with
  | Some (JList l) => forallb well_typed_review l
  | Some _ => false
  | None => true
  end.

(** The elements of the recognized shapes are well typed; a document of
    another shape holds no review. *)
Definition well_typed_document (data : json) : bool :=
  match data with
  | JDict d =>
      match Dict.get "products" d with
      | Some (JList ps) => forallb well_typed_product ps
      | _ =>
          match Dict.get "reviews" d with
          | Some (JList l) => forallb well_typed_review l
          | Some (JDict g) =>
              forallb (well_typed_group g) ["positive"; "negative"; "neutral"; "all"]
          | _ => true
          end
      end
  | JList l => forallb well_typed_review l
  | _ => true
  end.

(** A file that could not be loaded is skipped whatever it holds. *)
Definition well_typed_file (f : file) : bool :=
  match snd f with
  | Some data => well_typed_document data
  | None => true
  end.

(** An accepted review: its rating is absent, null or a float. *)
Definition accepted_ok (r : json) : bool :=
  match r with
  | JDict d =>
      sentiment_ok d &&
      match Dict.get "rating" d with
      | None | Some JNull | Some (JFloat _) => true
      | Some _ => false
      end
  | _ => false
  end.

(** What the file loop keeps while no exception is raised. *)
Definition sound (pid : option string) (self : merger) : Prop :=
  In pid (map fst (product_map self)) /\
  Forall (fun r => accepted_ok r = true) (all_reviews self).

(** ** A file given twice *)

(** The result of a computation, changed by [g] when there is one. *)
Definition rmap {A B : Type} (g : A -> B) (m : result A) : result B :=
  match m with
  | Ok a => Ok (g a)
  | Raise e => Raise e
  end.

(** The merger with [n] more candidates loaded, all of them duplicates. *)
Definition more_duplicates (n : nat) (self : merger) : merger :=
  {| all_reviews := all_reviews self;
     all_products := all_products self;
     seen_review_texts := seen_review_texts self;
     product_map := product_map self;
     total_reviews_loaded := total_reviews_loaded self + n;
     total_duplicates_removed := total_duplicates_removed self + n;
     total_filtered_out := total_filtered_out self |}.

(** The number of candidates a file brings to the review loop. *)
Definition candidates (f : file) : nat :=
  match snd f with
  | Some data =>
      if truthy data then
        match extract_reviews_from_json data (fst f) with
        | Ok (revs, _) => length revs
        | Raise _ => 0
        end
      else 0
  | None => 0
  end.

(** [self.product_map[pid]], when there is such a key. *)
Fixpoint pm_lookup (pid : option string) (pm : list (option string * product))
  : option product :=
  match pm with
  | [] => None
  | (k, p) :: r => if same_id k pid then Some p else pm_lookup pid r
  end.

(** The product [pid] is in the map and has the file among its sources. *)
Definition recorded (pid : option string) (source_file : string)
           (pm : list (option string * product)) : Prop :=
  exists p, pm_lookup pid pm = Some p /\
            existsb (String.eqb source_file) (source_files p) = true.

(** The candidate would be dropped by the duplicate check. *)
Definition known (self : merger) (r : json) : Prop :=
  (exists d, r = JDict d) /\
  (too_short (text_of r) = true \/ review_key r ∈ seen_review_texts self).

(** Nothing seen or recorded in [s] is forgotten in [s']. *)
Definition covers (s s' : merger) : Prop :=
  seen_review_texts s ⊆ seen_review_texts s' /\
  forall pid source_file,
    recorded pid source_file (product_map s) ->
    recorded pid source_file (product_map s').

(** The file has been merged: its product is recorded with the file as a
    source and its candidates are known. *)
Definition absorbed (f : file) (s : merger) : Prop :=
  match snd f with
  | Some data =>
      if truthy data then
        exists revs info,
          extract_reviews_from_json data (fst f) = Ok (revs, info) /\
          (revs = [] \/
           (recorded (pi_product_id info) (pi_source_file info) (product_map s) /\
            Forall (known s) revs))
      else True
  | None => True
  end.

(** ** Further notions: provenance *)

(** [review.get('source_file')]. *)
Definition source_of (review : json) : option json :=
  match review with
  | JDict d => Dict.get "source_file" d
  | _ => None
  end.

(** A candidate of the run: a review extracted from one of the files that
    were loaded. *)
Definition candidate (files : list file) (r : json) : Prop :=
  exists path data revs info,
    In (path, Some data) files /\
    truthy data = true /\
    extract_reviews_from_json data path = Ok (revs, info) /\
    In r revs.

(** The name of a file of the run, as the reviews and products record it. *)
Definition input_name (files : list file) (name : string) : Prop :=
  exists path data, In (path, Some data) files /\ name = OsPath.basename path.

(** The source files of a product: names of input files, none twice. *)
Definition sources_ok (files : list file) (p : product) : Prop :=
  NoDup (source_files p) /\ Forall (input_name files) (source_files p).

(** Every review of a product names a source file of the product. *)
Definition reviews_sourced (p : product) : Prop :=
  Forall (fun r => exists name, source_of r = Some (JStr name) /\ In name (source_files p))
         (reviews p).

(** What a run keeps about the sources of a product. *)
Definition sourced (files : list file) (p : product) : Prop :=
  source_files p <> [] /\ sources_ok files p /\ reviews_sourced p.

(** The rating of a review of the output: null, or a float not above 5. *)
Definition rating_in_range (r : json) : Prop :=
  rating_of r = JNull \/ exists x, rating_of r = JFloat x /\ PrimFloat.ltb 5 x = false.

(** [s'] continues [s]: reviews and products are added at the end, seen
    texts are kept, the totals do not decrease. *)
Definition extends (s s' : merger) : Prop :=
  (exists l, all_reviews s' = all_reviews s ++ l) /\
  (exists ks, map fst (product_map s') = map fst (product_map s) ++ ks) /\
  seen_review_texts s ⊆ seen_review_texts s' /\
  total_reviews_loaded s <= total_reviews_loaded s' /\
  total_duplicates_removed s <= total_duplicates_removed s' /\
  total_filtered_out s <= total_filtered_out s'.

(** ** Further notions: the filter against the unfiltered run *)

(** The sentiment test on a review whose sentiment is a string. *)
Definition matches_filter (wanted : string) (r : json) : bool :=
  match sentiment_of r with
  | JStr s => String.eqb (PyStr.lower s) (PyStr.lower wanted)
  | _ => false
  end.

(** The product [pf] is the product [pn] with its reviews filtered. *)
Definition product_filtered (wanted : string) (pf pn : product) : Prop :=
  product_id pf = product_id pn /\
  product_name pf = product_name pn /\
  product_url pf = product_url pn /\
  source_files pf = source_files pn /\
  reviews pf = List.filter (matches_filter wanted) (reviews pn).

(** The merger of the filtered run against the merger of the unfiltered
    run, at the same point of the two runs. *)
Definition filtered_of (wanted : string) (sf sn : merger) : Prop :=
  seen_review_texts sf = seen_review_texts sn /\
  all_reviews sf = List.filter (matches_filter wanted) (all_reviews sn) /\
  Forall2 (fun ef en => fst ef = fst en /\ product_filtered wanted (snd ef) (snd en))
          (product_map sf) (product_map sn) /\
  total_reviews_loaded sf = total_reviews_loaded sn /\
  total_duplicates_removed sf = total_duplicates_removed sn /\
  total_filtered_out sf + length (all_reviews sf) = length (all_reviews sn).

(** ** Further notions: the statistics *)

(** The name under which [build_combined_data] counts a review: its
    sentiment in lowercase, ["unknown"] when it has none or a false one. *)
Definition sentiment_name (r : json) : string :=
  match r with
  | JDict d =>
      match Dict.get "sentiment" d with
      | Some (JStr s) => if String.eqb s "" then "unknown" else PyStr.lower s
      | _ => "unknown"
      end
  | _ => "unknown"
  end.

(** [sentiments.get(k, 0)]. *)
Fixpoint count_of (k : string) (d : list (string * nat)) : nat :=
  match d with
  | [] => 0
  | (k', n) :: r => if String.eqb k k' then n else count_of k r
  end.

(** [sum(sentiments.values())]. *)
Definition total_count (d : list (string * nat)) : nat := list_sum (map snd d).

(** The ratings that enter the average rating. *)
Definition rating_values (revs : list json) : list float :=
  omap (fun r => match rating_of r with JFloat x => Some x | _ => None end) revs.

(** The values of [k] that enter an average: not null and accepted by
    [float]. *)
Definition float_values (k : string) (revs : list json) : list float :=
  omap (fun r => match r with
                 | JDict d =>
                     match Dict.get k d with
                     | None | Some JNull => None
                     | Some v => match py_float v with Ok x => Some x | Raise _ => None end
                     end
                 | _ => None
                 end) revs.

(** ** Further notions: texts and identities *)

(** The string holds white space only. *)
Fixpoint all_blank (s : string) : bool :=
  match s with
  | EmptyString => true
  | String c r => PyStr.is_space c && all_blank r
  end.

(** The string holds digits only. *)
Fixpoint all_digits (s : string) : bool :=
  match s with
  | EmptyString => true
  | String c r => PyStr.is_digit c && all_digits r
  end.

(** The id a review gives to its document: [str(review['product_id'])]
    when the review has a true [product_id] whose text is not empty. *)
Definition review_id (r : json) : option string :=
  match r with
  | JDict d =>
      match Dict.get "product_id" d with
      | Some v =>
          if truthy v && negb (String.eqb (py_str v) "") then Some (py_str v) else None
      | None => None
      end
  | _ => None
  end.

(** The id of the first review that gives one. *)
Fixpoint first_review_id (revs : list json) : option string :=
  match revs with
  | [] => None
  | r :: rest =>
      match review_id r with
      | Some i => Some i
      | None => first_review_id rest
      end
  end.

(** ** save_combined_csv: the columns and the rows

    What is written to the file, before the csv writer turns the cells into
    text. A Python [set] is iterated in an order the code does not choose:
    [set_order] gives the order in which the set of field names is read. *)

Definition preferred_order : list string :=
  ["product_id"; "product_name"; "product_url"; "reviewer_name";
   "rating"; "sentiment"; "confidence"; "score"; "roberta_label";
   "method"; "title"; "review_text"; "date"; "verified_purchase";
   "helpful_count"; "source_file"].

(** [review.keys()]. *)
Definition review_keys (r : json) : result (list string) :=
  match r with
  | JDict d => Ok (Dict.keys d)
  | _ => Raise AttributeError
  end.

(** [fieldnames], after [fieldnames.update(review.keys())] for every review. *)
Definition fieldnames_of (revs : list json) : result (gset string) :=
  foldM (fun (acc : gset string) r => ks <- review_keys r;; Ok (list_to_set ks ∪ acc))
        revs ∅.

(** [f in preferred_order]. *)
Definition preferred (f : string) : bool := existsb (String.eqb f) preferred_order.

(** [final_fields]: the preferred fields that are field names, then the
    field names that are not preferred, as the set gives them. *)
Definition final_fields (set_order : gset string -> list string) (fieldnames : gset string)
  : list string :=
  List.filter (fun f => bool_decide (f ∈ fieldnames)) preferred_order ++
  List.filter (fun f => negb (preferred f)) (set_order fieldnames).

(** The fields of the file; [None] when there is no review and nothing is
    written. *)
Definition csv_fields (set_order : gset string -> list string) (revs : list json)
  : result (option (list string)) :=
  match revs with
  | [] => Ok None
  | _ => fieldnames <- fieldnames_of revs;; Ok (Some (final_fields set_order fieldnames))
  end.

(** The cells of [writer.writerow(review)]: [review.get(f, '')] for every
    field, the writer's [restval] being the empty string. *)
Definition csv_row (fields : list string) (r : json) : result (list json) :=
  traverse (fun f => py_get r f (JStr "")) fields.

(** The header and the rows of the file. *)
Definition csv_table (set_order : gset string -> list string) (revs : list json)
  : result (option (list string * list (list json))) :=
  fields <- csv_fields set_order revs;;
  match fields with
  | None => Ok None
  | Some fs => rows <- traverse (csv_row fs) revs;; Ok (Some (fs, rows))
  end.

(** ** Further notions: what extraction returns *)

(** The review with its [source_file] set. *)
Definition stamped (base : string) (r : json) : json :=
  match r with
  | JDict d => JDict (Dict.set "source_file" (JStr base) d)
  | _ => r
  end.

(** The reviews of a sentiment group: those of the array under [k]. *)
Definition group (g : list (string * json)) (k : string) : list json :=
  match Dict.get k g with
  | Some (JList l) => l
  | _ => []
  end.

(** The document has no [products] array. *)
Definition no_products (d : list (string * json)) : Prop :=
  forall ps, Dict.get "products" d <> Some (JList ps).

(** The reviews of a product came from files resolved to its id. *)
Definition filed_by_file (files : list file) (p : product) : Prop :=
  Forall (fun r' => exists path data revs info r,
              In (path, Some data) files /\
              extract_reviews_from_json data path = Ok (revs, info) /\
              In r revs /\
              sanitize_rating r = Ok r' /\
              pi_product_id info = product_id p) (reviews p).

(** ** Further sample inputs *)

(** The second review of the group file of [sample_files], as extraction
    returns it. *)
Definition repeated_review : json :=
  JDict [("review_text", JStr "  GREAT blender, works well  ");
         ("sentiment", JStr "positive");
         ("source_file", JStr "walmart_reviews_kitchen.json")].

(** A document without id whose reviews come in sentiment groups, one of
    them under a name that is not read; the negative review names a product. *)
Definition grouped_reviews : list (string * json) :=
  [("negative", JList [JDict [("review_text", JStr "Leaks after a month");
                              ("product_id", JInt 555)]]);
   ("mixed", JList [JDict [("review_text", JStr "Good and bad at once")]]);
   ("positive", JList [JDict [("review_text", JStr "Keeps the coffee hot")]])].

Definition grouped_document : json :=
  JDict [("product_name", JStr ""); ("reviews", JDict grouped_reviews)].

(** A document whose only review is a text, not an object. *)
Definition text_document : json :=
  JDict [("reviews", JList [JStr "Nice mug, would buy it again"])].

(** Reviews with a key outside the preferred order. *)
Definition noted_reviews : list json :=
  [JDict [("review_text", JStr "Keeps the coffee hot"); ("note", JStr "gift");
          ("rating", JInt 5)];
   JDict [("zip", JStr "70112"); ("product_id", JStr "555")]].

(** ** Further notions: what a merge keeps, counts and refuses *)






(** [review.get('verified_purchase')] is true. *)
Definition is_verified (r : json) : bool :=
  match r with
  | JDict d => truthy (default JNull (Dict.get "verified_purchase" d))
  | _ => false
  end.

(** The file is read and gives reviews for the product [k]. *)
Definition introduces (k : option string) (f : file) : Prop :=
  exists data revs info,
    snd f = Some data /\ truthy data = true /\
    extract_reviews_from_json data (fst f) = Ok (revs, info) /\
    revs <> [] /\ pi_product_id info = k.

(** The name and the address of the product are those resolved for the
    first file that gives reviews for it. *)
Definition named_by_first (files : list file) (p : product) : Prop :=
  exists pre f post data revs info,
    files = pre ++ f :: post /\
    snd f = Some data /\ truthy data = true /\
    extract_reviews_from_json data (fst f) = Ok (revs, info) /\
    revs <> [] /\ pi_product_id info = product_id p /\
    product_name p = pi_product_name info /\
    product_url p = pi_product_url info /\
    Forall (fun g => ~ introduces (product_id p) g) pre.

(** The number of reviews extracted from a file, 0 for a file that is
    skipped. *)
Definition extracted_count (f : file) : nat :=
  match snd f with
  | Some data =>
      if truthy data then
        match extract_reviews_from_json data (fst f) with
        | Ok (revs, _) => length revs
        | Raise _ => 0
        end
      else 0
  | None => 0
  end.

Definition is_object (v : json) : bool :=
  match v with JDict _ => true | _ => false end.

(** ** Further notions: the reviews of a products document *)

(** [r'] is the review [r] in the context of its product [p]: a
    [product_id] and a [product_name] it lacks are those of the product,
    when the product has them; every other field is as in [r]. *)
Definition with_context (p : list (string * json)) (r r' : json) : Prop :=
  exists d d',
    r = JDict d /\ r' = JDict d' /\
    (forall k, k = "product_id" \/ k = "product_name" ->
               Dict.get k d' = match Dict.get k d with
                               | Some v => Some v
                               | None => Dict.get k p
                               end) /\
    (forall k, k <> "product_id" -> k <> "product_name" ->
               Dict.get k d' = Dict.get k d).

(** The reviews [l] are those of the product [p]: the elements of its
    [reviews] array, each in the context of the product; none for what is
    not an object with a [reviews] array. *)
Definition from_product (p : json) (l : list json) : Prop :=
  match p with
  | JDict pd =>
      match Dict.get "reviews" pd with
      | Some (JList rs) => Forall2 (with_context pd) rs l
      | _ => l = []
      end
  | _ => l = []
  end.

(** A products document: two products, the first review of the first
    one with an id of its own. *)
Definition listed_products : list json :=
  [JDict [("product_id", JStr "111"); ("product_name", JStr "Kettle");
          ("reviews",
           JList [JDict [("review_text", JStr "Boils water in a minute");
                         ("product_id", JStr "999")];
                  JDict [("review_text", JStr "The lid does not close")]])];
   JDict [("product_id", JStr "222"); ("reviews", JStr "none")]].

Definition products_document : json :=
  JDict [("products", JList listed_products)].

(** ** Sequencing *)

Lemma bind_Ok {A B : Type} (m : result A) (f : A -> result B) (b : B) :
  bind m f = Ok b -> exists a, m = Ok a /\ f a = Ok b.
Proof. destruct m as [a|e]; simpl; [eauto | discriminate]. Qed.

Ltac inv_bind H :=
  let a := fresh "a" in
  let Ha := fresh "Ha" in
  apply bind_Ok in H; destruct H as (a & Ha & H).

Lemma foldM_app {A S : Type} (f : S -> A -> result S) (l1 l2 : list A) (s : S) :
  foldM f (l1 ++ l2) s = bind (foldM f l1 s) (foldM f l2).
Proof.
  revert s; induction l1 as [|x l1 IH]; intros s; simpl; [reflexivity|].
  destruct (f s x) as [s1|e]; simpl; [apply IH | reflexivity].
Qed.

(** An invariant of the loop body is an invariant of the loop. *)
Lemma foldM_invariant {A S : Type} (P : S -> Prop) (f : S -> A -> result S) (l : list A) :
  (forall s x s', In x l -> P s -> f s x = Ok s' -> P s') ->
  forall s s', P s -> foldM f l s = Ok s' -> P s'.
Proof.
  induction l as [|x l IH]; intros Hstep s s' Hs Hrun; simpl in Hrun.
  - congruence.
  - inv_bind Hrun.
    apply (IH (fun s0 y s1 Hy => Hstep s0 y s1 (or_intror Hy)) a s'); [|exact Hrun].
    apply (Hstep s x a); [left; reflexivity | exact Hs | exact Ha].
Qed.

(** ** Dictionaries *)

Lemma get_set_same (k : string) (v : json) (d : list (string * json)) :
  Dict.get k (Dict.set k v d) = Some v.
Proof.
  induction d as [|[k' v'] d IH]; simpl.
  - rewrite String.eqb_refl; reflexivity.
  - destruct (String.eqb k k') eqn:E; simpl.
    + rewrite String.eqb_refl; reflexivity.
    + rewrite E; exact IH.
Qed.

Lemma get_set_other (k k' : string) (v : json) (d : list (string * json)) :
  k <> k' -> Dict.get k (Dict.set k' v d) = Dict.get k d.
Proof.
  intros Hne; induction d as [|[k0 v0] d IH]; simpl.
  - destruct (String.eqb_spec k k'); [contradiction | reflexivity].
  - destruct (String.eqb_spec k' k0) as [->|Hk]; simpl.
    + destruct (String.eqb_spec k k0); [contradiction | reflexivity].
    + destruct (String.eqb_spec k k0); [reflexivity | exact IH].
Qed.

(** ** The review loop *)

Lemma py_get_Ok (review : json) (k : string) (dflt v : json) :
  py_get review k dflt = Ok v ->
  exists d, review = JDict d /\ v = default dflt (Dict.get k d).
Proof.
  destruct review; simpl; try discriminate.
  intros [= <-]; eexists; split; [reflexivity|].
  destruct (Dict.get k d); reflexivity.
Qed.

Lemma sanitize_rating_Ok (review review' : json) :
  sanitize_rating review = Ok review' ->
  exists d, review = JDict d /\
    (review' = review \/ exists v, review' = JDict (Dict.set "rating" v d)).
Proof.
  destruct review; simpl; try discriminate.
  intros H; exists d; split; [reflexivity|].
  destruct (Dict.get "rating" d) as [v|]; [|left; congruence].
  destruct v; try (left; congruence);
    match type of H with
    | context [py_float ?v] => destruct (py_float v) as [x|[]]
    end; try discriminate;
    try (destruct (PrimFloat.ltb 5 x));
    injection H as <-; right; eexists; reflexivity.
Qed.

Lemma sanitize_keeps_field (k : string) (review review' : json) :
  k <> "rating" ->
  sanitize_rating review = Ok review' ->
  exists d d', review = JDict d /\ review' = JDict d' /\ Dict.get k d' = Dict.get k d.
Proof.
  intros Hk H; apply sanitize_rating_Ok in H as (d & -> & [-> | [v ->]]).
  - exists d, d; auto.
  - exists d, (Dict.set "rating" v d); repeat split.
    apply get_set_other; exact Hk.
Qed.

Lemma sanitize_keeps_text (review review' : json) :
  sanitize_rating review = Ok review' -> text_of review' = text_of review.
Proof.
  intros H; apply (sanitize_keeps_field "review_text") in H as (d & d' & -> & -> & E);
    [|discriminate].
  unfold text_of; rewrite E; reflexivity.
Qed.

Lemma sanitize_keeps_sentiment (review review' : json) :
  sanitize_rating review = Ok review' -> sentiment_of review' = sentiment_of review.
Proof.
  intros H; apply (sanitize_keeps_field "sentiment") in H as (d & d' & -> & -> & E);
    [|discriminate].
  unfold sentiment_of; rewrite E; reflexivity.
Qed.

(** What [process_review] does, case by case. *)
Lemma process_review_step flt pid self review self' :
  process_review flt pid self review = Ok self' ->
  (exists d, review = JDict d) /\
  total_reviews_loaded self' = total_reviews_loaded self /\
  all_products self' = all_products self /\
  review_step flt pid self review self'.
Proof.
  unfold process_review; intros H.
  inv_bind H. apply py_get_Ok in Ha as (d & -> & ->).
  split; [eauto|].
  change (default (JStr "") (Dict.get "review_text" d)) with (text_of (JDict d)) in H.
  unfold is_duplicate_review in H.
  destruct (too_short (text_of (JDict d))) eqn:Eshort.
  { injection H as <-; simpl; repeat split; apply step_duplicate; auto. }
  fold (review_key (JDict d)) in H.
  destruct (bool_decide (review_key (JDict d) ∈ seen_review_texts self)) eqn:Eseen.
  { apply bool_decide_eq_true in Eseen.
    injection H as <-; simpl; repeat split; apply step_duplicate; auto. }
  apply bool_decide_eq_false in Eseen.
  inv_bind H. destruct a as [|].
  - inv_bind H. rename a into review'. inv_bind H.
    injection H as <-; simpl; repeat split.
    apply (step_kept _ _ _ _ _ review'); auto.
  - injection H as <-; simpl; repeat split; apply step_filtered; auto.
Qed.


(** ** The product map *)

Lemma pm_update_keys pid f pm pm' :
  pm_update pid f pm = Ok pm' -> map fst pm' = map fst pm.
Proof.
  revert pm'; induction pm as [|[k p] pm IH]; intros pm' H; simpl in H; [discriminate|].
  destruct (same_id k pid).
  - injection H as <-; reflexivity.
  - inv_bind H. injection H as <-; simpl; f_equal; apply IH; exact Ha.
Qed.

(** [pm_update] changes one entry, by [f]. *)
Lemma pm_update_split pid f pm pm' :
  pm_update pid f pm = Ok pm' ->
  exists l p r, pm = l ++ (pid, p) :: r /\ pm' = l ++ (pid, f p) :: r.
Proof.
  revert pm'; induction pm as [|[k p] pm IH]; intros pm' H; simpl in H; [discriminate|].
  destruct (same_id k pid) eqn:E.
  - apply bool_decide_eq_true in E as ->. injection H as <-.
    exists [], p, pm; split; reflexivity.
  - inv_bind H. injection H as <-.
    destruct (IH _ Ha) as (l & p0 & r & -> & ->).
    exists ((k, p) :: l), p0, r; split; reflexivity.
Qed.

Lemma pm_update_present pid f pm :
  In pid (map fst pm) -> exists pm', pm_update pid f pm = Ok pm'.
Proof.
  induction pm as [|[k p] pm IH]; simpl; [tauto|].
  intros [-> | Hin].
  - unfold same_id; rewrite bool_decide_eq_true_2 by reflexivity; eauto.
  - destruct (same_id k pid); [eauto|].
    destruct (IH Hin) as [pm' ->]; simpl; eauto.
Qed.

Lemma pm_has_In pid pm : pm_has pid pm = true <-> In pid (map fst pm).
Proof.
  unfold pm_has; rewrite existsb_exists, in_map_iff; split.
  - intros (e & He & Heq). apply bool_decide_eq_true in Heq. eauto.
  - intros (e & Heq & He). exists e; split; [exact He|].
    apply bool_decide_eq_true; exact Heq.
Qed.

Lemma track_product_Ok info n self self1 :
  track_product info n self = Ok self1 ->
  all_reviews self1 = all_reviews self /\
  all_products self1 = all_products self /\
  seen_review_texts self1 = seen_review_texts self /\
  pm_update (pi_product_id info) (add_source (pi_source_file info))
    (with_product info (product_map self)) = Ok (product_map self1) /\
  total_reviews_loaded self1 = total_reviews_loaded self + n /\
  total_duplicates_removed self1 = total_duplicates_removed self /\
  total_filtered_out self1 = total_filtered_out self.
Proof.
  unfold track_product; intros H. inv_bind H. injection H as <-; simpl.
  repeat split; exact Ha.
Qed.

Lemma with_product_has info pm : In (pi_product_id info) (map fst (with_product info pm)).
Proof.
  unfold with_product; destruct (pm_has (pi_product_id info) pm) eqn:E.
  - apply pm_has_In; exact E.
  - rewrite map_app, in_app_iff; right; left; reflexivity.
Qed.

Lemma track_product_total info n self :
  exists self1, track_product info n self = Ok self1.
Proof.
  unfold track_product.
  destruct (pm_update_present (pi_product_id info) (add_source (pi_source_file info))
              (with_product info (product_map self)) (with_product_has _ _)) as [pm' E].
  unfold with_product in E; rewrite E; simpl; eauto.
Qed.

(** ** The file loop *)

Lemma process_file_cases flt self f self' :
  process_file flt self f = Ok self' ->
  self' = self \/
  exists data revs info self1,
    snd f = Some data /\ truthy data = true /\
    extract_reviews_from_json data (fst f) = Ok (revs, info) /\
    revs <> [] /\
    track_product info (length revs) self = Ok self1 /\
    foldM (process_review flt (pi_product_id info)) revs self1 = Ok self'.
Proof.
  unfold process_file; intros H.
  destruct (snd f) as [data|] eqn:Edata; [|left; congruence].
  destruct (truthy data) eqn:Etruthy; [|left; congruence].
  inv_bind H. destruct a as [revs info].
  destruct revs as [|r revs]; [left; congruence|].
  inv_bind H. right. exists data, (r :: revs), info, a.
  repeat split; auto.
Qed.

(** A property of the merger is established by showing that the empty
    merger has it, that entering a product keeps it, and that one turn of
    the review loop keeps it. *)
Lemma run_invariant (P : merger -> Prop) flt files :
  P init ->
  (forall path data revs info self self1,
      In (path, Some data) files ->
      extract_reviews_from_json data path = Ok (revs, info) ->
      P self -> track_product info (length revs) self = Ok self1 -> P self1) ->
  (forall path data revs info self r self',
      In (path, Some data) files ->
      extract_reviews_from_json data path = Ok (revs, info) ->
      In r revs ->
      P self ->
      total_reviews_loaded self' = total_reviews_loaded self ->
      all_products self' = all_products self ->
      review_step flt (pi_product_id info) self r self' ->
      P self') ->
  forall self, foldM (process_file flt) files init = Ok self -> P self.
Proof.
  intros Hinit Htrack Hstep self Hrun.
  refine (foldM_invariant P (process_file flt) files _ init self Hinit Hrun).
  intros s f s' Hf Hs Hfile.
  apply process_file_cases in Hfile
    as [-> | (data & revs & info & s1 & Edata & _ & Eext & _ & Etrack & Hloop)];
    [exact Hs|].
  destruct f as [path content]; simpl in *; subst content.
  refine (foldM_invariant P _ revs _ s1 s' (Htrack _ _ _ _ _ _ Hf Eext Hs Etrack) Hloop).
  intros s2 r s3 Hr Hs2 Hrev.
  apply process_review_step in Hrev as (_ & Hloaded & Hprods & Hrev).
  exact (Hstep path data revs info s2 r s3 Hf Eext Hr Hs2 Hloaded Hprods Hrev).
Qed.

Lemma merge_files_Ok files flt self out :
  merge_files files flt = Ok (self, out) ->
  exists self0,
    foldM (process_file flt) files init = Ok self0 /\
    all_reviews self = all_reviews self0 /\
    seen_review_texts self = seen_review_texts self0 /\
    product_map self = product_map self0 /\
    all_products self = map snd (product_map self0) /\
    total_reviews_loaded self = total_reviews_loaded self0 /\
    total_duplicates_removed self = total_duplicates_removed self0 /\
    total_filtered_out self = total_filtered_out self0 /\
    build_combined_data self flt = Ok out.
Proof.
  unfold merge_files; intros H. inv_bind H. inv_bind H.
  injection H as <- <-. exists a; repeat split; auto.
Qed.

Lemma build_combined_data_products self flt out :
  build_combined_data self flt = Ok out ->
  products out = all_products self /\
  total_products out = length (all_products self) /\
  total_reviews out = length (all_reviews self) /\
  total_files_merged out = length (product_map self).
Proof.
  unfold build_combined_data; intros H.
  do 6 inv_bind H. injection H as <-; simpl; auto.
Qed.


(** ** Invariants of a run *)

Lemma sanitize_keeps_key (r review' : json) :
  sanitize_rating r = Ok review' -> review_key review' = review_key r.
Proof. intros H; unfold review_key; rewrite (sanitize_keeps_text _ _ H); reflexivity. Qed.

Lemma run_dedup flt files self :
  foldM (process_file flt) files init = Ok self -> dedup_inv self.
Proof.
  apply (run_invariant dedup_inv).
  - split; [constructor | intros r []].
  - intros path data revs info s s1 _ _ [Hnd Hseen] Ht.
    apply track_product_Ok in Ht as (Er & _ & Es & _).
    unfold dedup_inv; rewrite Er, Es; auto.
  - intros path data revs info s r s' _ _ _ [Hnd Hseen] _ _ Hstep.
    destruct Hstep as [_ Er Es _ _ _ | _ Hnew _ Er Es _ _ _ | r' _ Hnew _ Hsan Er Es _ _ _];
      unfold dedup_inv; rewrite Er, Es.
    + auto.
    + split; [exact Hnd|]. intros x Hx; apply elem_of_union_r; auto.
    + pose proof (sanitize_keeps_key r r' Hsan) as Ekey.
      split.
      * rewrite map_app; simpl. apply NoDup_app; repeat split.
        -- exact Hnd.
        -- intros k Hk Hk'. apply list_elem_of_In in Hk.
           apply list_elem_of_singleton in Hk'; subst k.
           apply in_map_iff in Hk as (x & Ex & Hx).
           apply Hnew. rewrite <- Ekey, <- Ex. auto.
        -- apply NoDup_singleton.
      * intros x Hx; apply in_app_iff in Hx as [Hx | [<- | []]].
        -- apply elem_of_union_r; auto.
        -- rewrite Ekey; apply elem_of_union_l, elem_of_singleton; reflexivity.
Qed.

(** The accepted reviews passed the length test of the duplicate check. *)
Lemma run_long_enough flt files self :
  foldM (process_file flt) files init = Ok self ->
  Forall (fun r => too_short (text_of r) = false) (all_reviews self).
Proof.
  apply (run_invariant (fun s => Forall (fun r => too_short (text_of r) = false)
                                   (all_reviews s))).
  - constructor.
  - intros path data revs info s s1 _ _ H Ht.
    apply track_product_Ok in Ht as (Er & _). rewrite Er; exact H.
  - intros path data revs info s r s' _ _ _ H _ _ Hstep.
    destruct Hstep as [_ Er _ _ _ _ | _ _ _ Er _ _ _ _ | r' Hlong _ _ Hsan Er _ _ _ _];
      rewrite Er; [exact H | exact H |].
    apply Forall_app; split; [exact H|]. constructor; [|constructor].
    rewrite (sanitize_keeps_text _ _ Hsan); exact Hlong.
Qed.

Lemma pm_reviews_app pm1 pm2 : pm_reviews (pm1 ++ pm2) = pm_reviews pm1 ++ pm_reviews pm2.
Proof. unfold pm_reviews; rewrite map_app, concat_app; reflexivity. Qed.

Lemma pm_reviews_cons e pm : pm_reviews (e :: pm) = reviews (snd e) ++ pm_reviews pm.
Proof. reflexivity. Qed.

Lemma pm_update_reviews pid f pm pm' :
  pm_update pid f pm = Ok pm' ->
  (forall p, exists extra, reviews (f p) = reviews p ++ extra /\
                           forall q, reviews (f q) = reviews q ++ extra) ->
  exists extra, (forall q, reviews (f q) = reviews q ++ extra) /\
                pm_reviews pm' ≡ₚ pm_reviews pm ++ extra.
Proof.
  intros H Hf. apply pm_update_split in H as (l & p & r & -> & ->).
  destruct (Hf p) as (extra & Ep & Eall). exists extra; split; [exact Eall|].
  rewrite !pm_reviews_app, !pm_reviews_cons. simpl. rewrite Ep, <- !app_assoc.
  do 2 apply Permutation_app_head. apply Permutation_app_comm.
Qed.

(** Every accepted review sits in the product map, once. *)
Lemma run_attributed flt files self :
  foldM (process_file flt) files init = Ok self ->
  all_reviews self ≡ₚ pm_reviews (product_map self).
Proof.
  apply (run_invariant (fun s => all_reviews s ≡ₚ pm_reviews (product_map s))).
  - reflexivity.
  - intros path data revs info s s1 _ _ H Ht.
    apply track_product_Ok in Ht as (Er & _ & _ & Epm & _). rewrite Er, H.
    apply pm_update_reviews in Epm as (extra & Eextra & Eperm).
    + specialize (Eextra (new_product info)); simpl in Eextra. subst extra.
      rewrite Eperm, app_nil_r. unfold with_product.
      destruct (pm_has (pi_product_id info) (product_map s)); [reflexivity|].
      rewrite pm_reviews_app, pm_reviews_cons; simpl.
      rewrite app_nil_r; reflexivity.
    + intros p; exists []; split; intros; simpl; rewrite app_nil_r; reflexivity.
  - intros path data revs info s r s' _ _ _ H _ _ Hstep.
    destruct Hstep as [_ Er _ Epm _ _ | _ _ _ Er _ Epm _ _ | r' _ _ _ _ Er _ Epm _ _].
    + rewrite Er, Epm; exact H.
    + rewrite Er, Epm; exact H.
    + rewrite Er. apply pm_update_reviews in Epm as (extra & Eextra & Eperm).
      * specialize (Eextra (new_product info)); simpl in Eextra. subst extra.
        rewrite Eperm, H; reflexivity.
      * intros p; exists [r']; split; intros; reflexivity.
Qed.

Lemma pm_update_keyed pid f pm pm' :
  (forall p, product_id (f p) = product_id p) ->
  pm_update pid f pm = Ok pm' -> keyed pm -> keyed pm'.
Proof.
  intros Hf H [Hnd Hall]. split.
  - rewrite (pm_update_keys _ _ _ _ H); exact Hnd.
  - apply pm_update_split in H as (l & p & r & -> & ->).
    apply Forall_app in Hall as (Hl & Hr). apply Forall_cons in Hr as (Hp & Hr).
    apply Forall_app; split; [exact Hl|]. apply Forall_cons; split; [|exact Hr].
    simpl in *. rewrite Hf; exact Hp.
Qed.

Lemma resolve_identity_Some source_file info :
  is_Some (pi_product_id (resolve_identity source_file info)).
Proof.
  unfold resolve_identity. destruct (no_id (pi_product_id info)) eqn:E.
  - destruct (search_id source_file); simpl; eauto.
  - destruct (pi_product_id info); [eauto | discriminate].
Qed.

(** The fallback leaves no document without an id. *)
Lemma extract_has_id data source_file revs info :
  extract_reviews_from_json data source_file = Ok (revs, info) ->
  is_Some (pi_product_id info).
Proof.
  unfold extract_reviews_from_json; intros H.
  inv_bind H. inv_bind H. destruct a0 as [rs pid].
  injection H as _ <-. apply resolve_identity_Some.
Qed.

Lemma run_keyed flt files self :
  foldM (process_file flt) files init = Ok self -> keyed (product_map self).
Proof.
  apply (run_invariant (fun s => keyed (product_map s))).
  - split; constructor.
  - intros path data revs info s s1 _ Hext H Ht.
    apply track_product_Ok in Ht as (_ & _ & _ & Epm & _).
    apply (pm_update_keyed _ (add_source (pi_source_file info)) _ _ (fun p => eq_refl) Epm).
    unfold with_product.
    destruct (pm_has (pi_product_id info) (product_map s)) eqn:Ehas; [exact H|].
    destruct H as [Hnd Hall]. split.
    + rewrite map_app; simpl. apply NoDup_app; repeat split.
      * exact Hnd.
      * intros k Hk Hk'. apply list_elem_of_singleton in Hk'; subst k.
        apply list_elem_of_In, pm_has_In in Hk. congruence.
      * apply NoDup_singleton.
    + apply Forall_app; split; [exact Hall|]. constructor; [|constructor].
      simpl; split; [reflexivity|]. exact (extract_has_id _ _ _ _ Hext).
  - intros path data revs info s r s' _ _ _ H _ _ Hstep.
    destruct Hstep as [_ _ _ Epm _ _ | _ _ _ _ _ Epm _ _ | r' _ _ _ _ _ _ Epm _ _].
    + rewrite Epm; exact H.
    + rewrite Epm; exact H.
    + exact (pm_update_keyed _ (add_review r') _ _ (fun p => eq_refl) Epm H).
Qed.


(** ** The document returned *)

Lemma merged_products files flt self out :
  merge_files files flt = Ok (self, out) ->
  exists self0,
    foldM (process_file flt) files init = Ok self0 /\
    all_reviews self = all_reviews self0 /\
    seen_review_texts self = seen_review_texts self0 /\
    products out = map snd (product_map self0) /\
    output_reviews out = pm_reviews (product_map self0).
Proof.
  intros H. apply merge_files_Ok in H
    as (self0 & Hrun & Er & Es & _ & Ep & _ & _ & _ & Hout).
  apply build_combined_data_products in Hout as (Eprods & _).
  exists self0; repeat split; auto; try congruence.
  unfold output_reviews, pm_reviews. rewrite Eprods, Ep, map_map; reflexivity.
Qed.

(** The reviews of the document are the accepted reviews. *)
Lemma output_reviews_accepted files flt self out :
  merge_files files flt = Ok (self, out) ->
  output_reviews out ≡ₚ all_reviews self.
Proof.
  intros H. apply merged_products in H as (self0 & Hrun & -> & _ & _ & ->).
  symmetry; exact (run_attributed _ _ _ Hrun).
Qed.

Lemma Forall_accepted (P : json -> Prop) files flt self out :
  merge_files files flt = Ok (self, out) ->
  Forall P (all_reviews self) -> Forall P (output_reviews out).
Proof.
  intros H HP. rewrite (output_reviews_accepted _ _ _ _ H); exact HP.
Qed.

Lemma in_one_list {A B : Type} (f : A -> list B) (l : list A) (x : B) (a b : A) :
  NoDup (concat (map f l)) ->
  In a l -> In b l -> In x (f a) -> In x (f b) -> a = b.
Proof.
  induction l as [|c l IH]; simpl; [tauto|].
  intros Hnd Ha Hb Hxa Hxb. apply NoDup_app in Hnd as (_ & Hdisj & Hnd).
  assert (Hin : forall d, In d l -> In x (f d) -> In x (f c) -> False).
  { intros d Hd Hxd Hxc. apply (Hdisj x); apply list_elem_of_In; [exact Hxc|].
    apply in_concat. exists (f d); split; [apply in_map; exact Hd | exact Hxd]. }
  destruct Ha as [<- | Ha], Hb as [<- | Hb].
  - reflexivity.
  - destruct (Hin b Hb Hxb Hxa).
  - destruct (Hin a Ha Hxa Hxb).
  - exact (IH Hnd Ha Hb Hxa Hxb).
Qed.


Lemma unique_keys files flt self out :
  merge_files files flt = Ok (self, out) ->
  NoDup (map review_key (all_reviews self)) /\
  NoDup (map review_key (output_reviews out)).
Proof.
  intros H. pose proof (output_reviews_accepted _ _ _ _ H) as Hperm.
  apply merged_products in H as (self0 & Hrun & Er & Es & _).
  destruct (run_dedup _ _ _ Hrun) as [Hnd _]. rewrite <- Er in Hnd.
  split; [exact Hnd|]. rewrite (Permutation_map review_key Hperm); exact Hnd.
Qed.

(** ** Uniqueness, length and identity *)

(** C1. For every merge run, no two reviews accepted into the output
    share the same normalized review text (lowered, trimmed). The texts
    are compared over the whole run, in the list of accepted reviews as
    in the products of the document returned, and not product by
    product: the normalized text of every accepted review is among the
    seen texts, and once the normalized text of a review is seen the
    duplicate check drops every candidate with that normalized text. *)
Theorem accepted_texts_unique files flt self out :
  merge_files files flt = Ok (self, out) ->
  NoDup (map review_key (all_reviews self)) /\
  NoDup (map review_key (output_reviews out)) /\
  (forall r, In r (all_reviews self) -> review_key r ∈ seen_review_texts self) /\
  (forall r seen candidate,
      review_key r ∈ seen ->
      normalize candidate = review_key r ->
      is_duplicate_review seen candidate = (true, seen)).
Proof.
  intros H. pose proof (output_reviews_accepted _ _ _ _ H) as Hperm.
  apply merged_products in H as (self0 & Hrun & Er & Es & _).
  destruct (run_dedup _ _ _ Hrun) as [Hnd Hseen]. rewrite <- Er in Hnd, Hseen.
  split; [exact Hnd|]. split; [|split].
  - rewrite (Permutation_map review_key Hperm); exact Hnd.
  - intros r Hr. rewrite Es. apply Hseen; exact Hr.
  - intros r seen candidate Hr Hkey. unfold is_duplicate_review.
    destruct (too_short candidate); [reflexivity|].
    rewrite bool_decide_eq_true_2; [reflexivity|].
    rewrite Hkey. exact Hr.
Qed.

(** C2, as the code has it. For every review accepted into the merge
    output, the review text is not empty and its text before trimming,
    as [str] gives it, has at least 10 characters; a candidate whose
    untrimmed text is shorter than 10 characters is dropped as a
    duplicate. The length of the normalized text is not tested. *)
Theorem accepted_raw_length files flt self out :
  merge_files files flt = Ok (self, out) ->
  Forall (fun r => truthy (text_of r) = true /\
                   10 <= String.length (py_str (text_of r)))
         (all_reviews self) /\
  Forall (fun r => truthy (text_of r) = true /\
                   10 <= String.length (py_str (text_of r)))
         (output_reviews out) /\
  (forall seen candidate,
      String.length (py_str candidate) < 10 ->
      is_duplicate_review seen candidate = (true, seen)).
Proof.
  intros H.
  assert (Hall : Forall (fun r => truthy (text_of r) = true /\
                                  10 <= String.length (py_str (text_of r)))
                        (all_reviews self)).
  { pose proof H as H0. apply merged_products in H0 as (self0 & Hrun & -> & _).
    eapply Forall_impl; [apply (run_long_enough _ _ _ Hrun)|].
    intros r Hr; simpl in Hr. unfold too_short in Hr.
    apply orb_false_elim in Hr as [Ht Hl].
    apply negb_false_iff in Ht. apply Nat.ltb_ge in Hl. auto. }
  split; [exact Hall|]. split; [exact (Forall_accepted _ _ _ _ _ H Hall)|].
  intros seen candidate Hlen. unfold is_duplicate_review, too_short.
  apply Nat.ltb_lt in Hlen. rewrite Hlen, orb_true_r; reflexivity.
Qed.

(** C9. In every merge output each product of the products array has a
    product id that is not null, the product ids are pairwise distinct,
    and every accepted review is attributed to exactly one product: it
    is in the reviews of one product of the array and of no other, and no
    review list holds it twice. No input file is left without an id by
    the extraction. *)
Theorem products_identified files flt self out :
  merge_files files flt = Ok (self, out) ->
  Forall (fun p => is_Some (product_id p)) (products out) /\
  NoDup (map product_id (products out)) /\
  NoDup (output_reviews out) /\
  (forall r, In r (all_reviews self) ->
     exists p, In p (products out) /\ In r (reviews p) /\
               forall q, In q (products out) -> In r (reviews q) -> q = p) /\
  (forall data source_file revs info,
      extract_reviews_from_json data source_file = Ok (revs, info) ->
      is_Some (pi_product_id info)).
Proof.
  intros H. pose proof (output_reviews_accepted _ _ _ _ H) as Hperm.
  destruct (unique_keys _ _ _ _ H) as [_ Hnd].
  apply (NoDup_fmap_1 review_key) in Hnd.
  apply merged_products in H as (self0 & Hrun & Er & _ & Ep & _).
  destruct (run_keyed _ _ _ Hrun) as [Hkeys Hall].
  assert (Eids : map product_id (products out) = map fst (product_map self0)).
  { rewrite Ep, map_map. apply map_ext_in. intros e He.
    rewrite Forall_forall in Hall. apply Hall, list_elem_of_In, He. }
  repeat split.
  - rewrite Ep. apply Forall_forall. intros p Hp.
    apply list_elem_of_In, in_map_iff in Hp as (e & <- & He).
    rewrite Forall_forall in Hall. destruct (Hall e) as [-> Hsome];
      [apply list_elem_of_In; exact He | exact Hsome].
  - rewrite Eids; exact Hkeys.
  - exact Hnd.
  - intros r Hr.
    assert (Hin : In r (output_reviews out)).
    { apply list_elem_of_In. rewrite Hperm. apply list_elem_of_In; exact Hr. }
    unfold output_reviews in Hin. apply in_concat in Hin as (l & Hl & Hrl).
    apply in_map_iff in Hl as (p & <- & Hp).
    exists p; repeat split; auto.
    intros q Hq Hrq. exact (in_one_list reviews (products out) r q p Hnd Hq Hp Hrq Hrl).
  - intros data source_file revs info Hext. exact (extract_has_id _ _ _ _ Hext).
Qed.


(** ** The sentiment filter *)

(** What a kept review looks like under a filter that counts. *)
Lemma passes_filter_true wanted review :
  wanted <> "" ->
  passes_filter (Some wanted) review = Ok true ->
  exists s, sentiment_of review = JStr s /\ PyStr.lower s = PyStr.lower wanted.
Proof.
  intros Hne H. unfold passes_filter, active_filter in H.
  destruct (String.eqb_spec wanted ""); [contradiction|].
  inv_bind H. apply py_get_Ok in Ha as (d & -> & ->).
  change (default (JStr "") (Dict.get "sentiment" d)) with (sentiment_of (JDict d)) in H.
  destruct (sentiment_of (JDict d)) as [| | | |s| |]; simpl in H; try discriminate.
  injection H as H. apply String.eqb_eq in H. eauto.
Qed.

Lemma run_filtered wanted files self :
  wanted <> "" ->
  foldM (process_file (Some wanted)) files init = Ok self ->
  Forall (has_sentiment wanted) (all_reviews self).
Proof.
  intros Hne.
  apply (run_invariant (fun s => Forall (has_sentiment wanted) (all_reviews s))).
  - constructor.
  - intros path data revs info s s1 _ _ H Ht.
    apply track_product_Ok in Ht as (Er & _). rewrite Er; exact H.
  - intros path data revs info s r s' _ _ _ H _ _ Hstep.
    destruct Hstep as [_ Er _ _ _ _ | _ _ _ Er _ _ _ _ | r' _ _ Hpass Hsan Er _ _ _ _];
      rewrite Er; [exact H | exact H |].
    apply Forall_app; split; [exact H|]. constructor; [|constructor].
    unfold has_sentiment. rewrite (sanitize_keeps_sentiment _ _ Hsan).
    exact (passes_filter_true _ _ Hne Hpass).
Qed.

(** A review with another sentiment, when it is no duplicate, is counted
    as filtered out and nothing is raised. *)
Lemma process_review_filtered wanted pid self d s :
  wanted <> "" ->
  sentiment_of (JDict d) = JStr s ->
  PyStr.lower s <> PyStr.lower wanted ->
  fst (is_duplicate_review (seen_review_texts self) (text_of (JDict d))) = false ->
  exists self',
    process_review (Some wanted) pid self (JDict d) = Ok self' /\
    all_reviews self' = all_reviews self /\
    product_map self' = product_map self /\
    total_duplicates_removed self' = total_duplicates_removed self /\
    total_filtered_out self' = S (total_filtered_out self).
Proof.
  intros Hne Hs Hother Hdup. unfold process_review; simpl.
  change (match Dict.get "review_text" d with Some x => x | None => JStr "" end)
    with (text_of (JDict d)).
  destruct (is_duplicate_review (seen_review_texts self) (text_of (JDict d)))
    as [dup seen]; simpl in Hdup; subst dup.
  unfold passes_filter, active_filter.
  destruct (String.eqb_spec wanted ""); [contradiction|]. simpl.
  change (match Dict.get "sentiment" d with Some x => x | None => JStr "" end)
    with (sentiment_of (JDict d)).
  rewrite Hs; simpl.
  destruct (String.eqb_spec (PyStr.lower s) (PyStr.lower wanted)); [contradiction|].
  eexists; split; [reflexivity|]. simpl; auto.
Qed.

(** ** The totals *)

Lemma review_loop_counts flt pid revs s s' :
  foldM (process_review flt pid) revs s = Ok s' ->
  total_reviews_loaded s' = total_reviews_loaded s /\
  length (all_reviews s') + total_duplicates_removed s' + total_filtered_out s' =
  length (all_reviews s) + total_duplicates_removed s + total_filtered_out s + length revs.
Proof.
  revert s; induction revs as [|r revs IH]; intros s H; simpl in H.
  - injection H as <-; simpl; lia.
  - inv_bind H. destruct (IH _ H) as [El Ec].
    apply process_review_step in Ha as (_ & El' & _ & Hstep).
    split; [congruence|]. rewrite Ec; simpl.
    destruct Hstep as [_ Er _ _ Ed Ef | _ _ _ Er _ _ Ed Ef | r' _ _ _ _ Er _ _ Ed Ef];
      rewrite Er, Ed, Ef; try rewrite length_app; simpl; lia.
Qed.

(** Every candidate loaded is accepted, dropped as a duplicate or
    counted as filtered out. *)
Lemma run_counts flt files self :
  foldM (process_file flt) files init = Ok self ->
  total_reviews_loaded self =
  length (all_reviews self) + total_duplicates_removed self + total_filtered_out self.
Proof.
  apply (foldM_invariant
           (fun s => total_reviews_loaded s =
                     length (all_reviews s) + total_duplicates_removed s +
                     total_filtered_out s) (process_file flt) files); [|reflexivity].
  intros s f s' _ Hs Hfile.
  apply process_file_cases in Hfile
    as [-> | (data & revs & info & s1 & _ & _ & _ & _ & Etrack & Hloop)]; [exact Hs|].
  apply track_product_Ok in Etrack as (Er & _ & _ & _ & El & Ed & Ef).
  apply review_loop_counts in Hloop as [El' Ec].
  rewrite El', El, Hs. rewrite Ec, Er, Ed, Ef. lia.
Qed.

(** C6, as the code has it. When a sentiment filter that is not empty
    is supplied to the merge, every review of the merge output, in the list
    of accepted reviews as in the products of the document, has a sentiment
    that is a string equal to the filter once both are put in lowercase:
    the comparison does not look at the case, and the sentiment stored is
    not put in lowercase. A candidate that is not a duplicate and whose
    sentiment is a string, or absent and read as the empty string, that
    differs from the filter once both are put in lowercase raises nothing
    and adds one to the count of filtered-out reviews, and the candidates
    loaded are exactly the accepted ones, the duplicates and the
    filtered-out ones. *)
Theorem filter_respected files wanted self out :
  wanted <> "" ->
  merge_files files (Some wanted) = Ok (self, out) ->
  Forall (has_sentiment wanted) (all_reviews self) /\
  Forall (has_sentiment wanted) (output_reviews out) /\
  total_reviews_loaded self =
    length (all_reviews self) + total_duplicates_removed self + total_filtered_out self /\
  (forall pid self0 d s,
      sentiment_of (JDict d) = JStr s ->
      PyStr.lower s <> PyStr.lower wanted ->
      fst (is_duplicate_review (seen_review_texts self0) (text_of (JDict d))) = false ->
      exists self1,
        process_review (Some wanted) pid self0 (JDict d) = Ok self1 /\
        all_reviews self1 = all_reviews self0 /\
        product_map self1 = product_map self0 /\
        total_duplicates_removed self1 = total_duplicates_removed self0 /\
        total_filtered_out self1 = S (total_filtered_out self0)).
Proof.
  intros Hne H.
  assert (Hall : Forall (has_sentiment wanted) (all_reviews self)).
  { pose proof H as H0. apply merged_products in H0 as (self0 & Hrun & -> & _).
    exact (run_filtered _ _ _ Hne Hrun). }
  split; [exact Hall|]. split; [exact (Forall_accepted _ _ _ _ _ H Hall)|]. split.
  - apply merge_files_Ok in H as (self0 & Hrun & -> & _ & _ & _ & -> & -> & -> & _).
    exact (run_counts _ _ _ Hrun).
  - intros pid self0 d s Hs Hother Hdup.
    exact (process_review_filtered _ pid self0 d s Hne Hs Hother Hdup).
Qed.


(** ** The rating check *)

Lemma SFcompare_swap (a b : spec_float) :
  SFcompare b a = option_map CompOpp (SFcompare a b).
Proof.
  destruct a as [[]|[]| |[] m1 e1], b as [[]|[]| |[] m2 e2]; simpl; try reflexivity;
    rewrite (Z.compare_antisym e1 e2); destruct (e1 ?= e2)%Z; simpl; try reflexivity.
  all: change (Pos.compare_cont Eq m2 m1) with (Pos.compare m2 m1);
       change (Pos.compare_cont Eq m1 m2) with (Pos.compare m1 m2);
       rewrite (Pos.compare_antisym m1 m2); destruct (m1 ?= m2)%positive; reflexivity.
Qed.

(** A float that is at most [y] is not above [y]. *)
Lemma leb_not_ltb (x y : float) : PrimFloat.leb x y = true -> PrimFloat.ltb y x = false.
Proof.
  rewrite FloatAxioms.leb_spec, FloatAxioms.ltb_spec. unfold SFleb, SFltb.
  rewrite (SFcompare_swap (Prim2SF x) (Prim2SF y)).
  destruct (SFcompare (Prim2SF x) (Prim2SF y)) as [[]|]; simpl; congruence.
Qed.

Lemma sanitize_rating_rule (r r' : json) :
  sanitize_rating r = Ok r' -> rating_rule r r'.
Proof.
  destruct r as [| | | | | |d]; simpl; try discriminate.
  intros H. exists d; split; [reflexivity|].
  unfold rating_of. destruct (Dict.get "rating" d) as [v|]; simpl.
  2:{ injection H as <-. repeat split; intros; congruence. }
  destruct (is_null v) eqn:Ev.
  { destruct v; try discriminate. injection H as <-.
    repeat split; intros; congruence. }
  assert (H' : match py_float v with
               | Ok r_val =>
                   if PrimFloat.ltb 5 r_val
                   then Ok (JDict (Dict.set "rating" JNull d))
                   else Ok (JDict (Dict.set "rating" (JFloat r_val) d))
               | Raise ValueError | Raise TypeError =>
                   Ok (JDict (Dict.set "rating" JNull d))
               | Raise e => Raise e
               end = Ok r') by (destruct v; try discriminate; exact H).
  clear H. destruct (py_float v) as [x|e] eqn:Ef.
  - destruct (PrimFloat.ltb 5 x) eqn:El; injection H' as <-;
      repeat split; intros; try congruence;
      repeat match goal with
             | Hx : Ok _ = Ok _ |- _ => injection Hx as <-
             | Hx : PrimFloat.leb _ _ = true |- _ => apply leb_not_ltb in Hx
             end; try congruence; subst v; discriminate.
  - destruct e; try discriminate; injection H' as <-;
      repeat split; intros; try (subst v; discriminate); congruence.
Qed.

Lemma run_sanitized flt files self :
  foldM (process_file flt) files init = Ok self ->
  Forall (accepted_from files) (all_reviews self).
Proof.
  apply (run_invariant (fun s => Forall (accepted_from files) (all_reviews s))).
  - constructor.
  - intros path data revs info s s1 _ _ H Ht.
    apply track_product_Ok in Ht as (Er & _). rewrite Er; exact H.
  - intros path data revs info s r s' Hf Hext Hr H _ _ Hstep.
    destruct Hstep as [_ Er _ _ _ _ | _ _ _ Er _ _ _ _ | r' _ _ _ Hsan Er _ _ _ _];
      rewrite Er; [exact H | exact H |].
    apply Forall_app; split; [exact H|]. constructor; [|constructor].
    exists path, data, revs, info, r. repeat split; auto.
    exact (sanitize_rating_rule _ _ Hsan).
Qed.

(** C7. Every accepted review was made by the rating check from a
    candidate extracted from an input file, and for a candidate with a
    rating that is not null: when the coercion to a float fails, or the
    float is above 5.0, the rating of the accepted review is null, neither
    5 nor the value read; when the float is at most 5 (or, as the code
    tests it, not above 5) the rating is that float, as it is. A candidate
    without a rating, or with a null one, is accepted as it is. An input
    rating of 1060.0 becomes null. *)
Theorem ratings_checked files flt self out :
  merge_files files flt = Ok (self, out) ->
  Forall (accepted_from files) (all_reviews self) /\
  Forall (accepted_from files) (output_reviews out) /\
  (forall d, Dict.get "rating" d = Some (JFloat 1060) ->
             sanitize_rating (JDict d) = Ok (JDict (Dict.set "rating" JNull d))).
Proof.
  intros H.
  assert (Hall : Forall (accepted_from files) (all_reviews self)).
  { pose proof H as H0. apply merged_products in H0 as (self0 & Hrun & -> & _).
    exact (run_sanitized _ _ _ Hrun). }
  split; [exact Hall|]. split; [exact (Forall_accepted _ _ _ _ _ H Hall)|].
  intros d Hd. simpl. rewrite Hd. reflexivity.
Qed.


(** ** Three runs *)

(** C3, as the code has it. For the document without any product id in
    the file walmart_reviews_kitchen_20240101_120000.json, the date of the
    time stamp, eight digits between two underscores, is found by the
    search for an id in the file name, before the group fallback is
    reached: the product of the merge output has the id "20240101" and no
    name, and not the id "GROUP_kitchen" and the name "Kitchen" that the
    fallback would make of the cleaned file name "kitchen". *)
Theorem kitchen_file_identity :
  search_id (fst kitchen_file) = Some "20240101" /\
  clean_name (fst kitchen_file) = "kitchen" /\
  PyStr.title (PyStr.replace_char "_" " " (clean_name (fst kitchen_file))) = "Kitchen" /\
  exists self out,
    merge_files [kitchen_file] None = Ok (self, out) /\
    map product_id (products out) = [Some "20240101"] /\
    map product_name (products out) = [JNull] /\
    map (fun p => length (reviews p)) (products out) = [1].
Proof.
  split; [reflexivity|]. split; [reflexivity|]. split; [reflexivity|].
  eexists _, _. split; [vm_compute; reflexivity|].
  split; [reflexivity|]. split; reflexivity.
Qed.

(** C8, as the code has it. The averages are [None] when no review
    contributes, and also when the mean is zero: for the one review with
    rating 0, confidence 0.0 and score 0.0, accepted with the rating 0.0,
    one value contributes to each mean and the three averages of the
    document are [None]. *)
Theorem zero_mean_dropped :
  exists self out,
    merge_files [zero_file] None = Ok (self, out) /\
    map rating_of (all_reviews self) = [JFloat 0] /\
    ratings_of (all_reviews self) = Ok [JFloat 0] /\
    floats_of "confidence" (all_reviews self) = Ok [0%float] /\
    floats_of "score" (all_reviews self) = Ok [0%float] /\
    mean [0%float] = Some 0%float /\
    average_rating (stats out) = None /\
    average_confidence (stats out) = None /\
    average_score (stats out) = None.
Proof.
  eexists _, _. split; [vm_compute; reflexivity|].
  repeat split; reflexivity.
Qed.

(** C10. The duplicate check runs before the sentiment filter and
    remembers the text of a review the filter then rejects: under the
    filter "positive", of two reviews with the same normalized text, the
    first negative and the second positive, the first is counted as
    filtered out and the second is dropped as a duplicate, although it
    passes the filter and is accepted when it comes alone; no review is
    in the output. *)
Theorem duplicate_check_before_filter :
  review_key negative_first = review_key positive_second /\
  passes_filter (Some "positive") negative_first = Ok false /\
  passes_filter (Some "positive") positive_second = Ok true /\
  (exists self out,
      merge_files [blender_file [negative_first; positive_second]] (Some "positive")
      = Ok (self, out) /\
      all_reviews self = [] /\
      output_reviews out = [] /\
      total_reviews_loaded self = 2 /\
      total_filtered_out self = 1 /\
      total_duplicates_removed self = 1) /\
  (exists self out,
      merge_files [blender_file [positive_second]] (Some "positive") = Ok (self, out) /\
      map review_key (all_reviews self) = [review_key positive_second] /\
      map review_key (output_reviews out) = [review_key positive_second] /\
      total_duplicates_removed self = 0).
Proof.
  split; [reflexivity|]. split; [reflexivity|]. split; [reflexivity|]. split.
  - eexists _, _. split; [vm_compute; reflexivity|]. repeat split; reflexivity.
  - eexists _, _. split; [vm_compute; reflexivity|]. repeat split; reflexivity.
Qed.


(** ** Documents that raise nothing *)

Lemma traverse_total {A B : Type} (f : A -> result B) (Q : B -> Prop) (l : list A) :
  (forall x, In x l -> exists y, f x = Ok y /\ Q y) ->
  exists ys, traverse f l = Ok ys /\ Forall Q ys.
Proof.
  induction l as [|x l IH]; intros H; simpl.
  - exists []; split; [reflexivity | constructor].
  - destruct (H x (or_introl eq_refl)) as (y & -> & Hy).
    destruct (IH (fun z Hz => H z (or_intror Hz))) as (ys & -> & Hys).
    exists (y :: ys); split; [reflexivity | constructor; assumption].
Qed.

Lemma foldM_total {A S : Type} (P : S -> Prop) (f : S -> A -> result S) (l : list A) :
  (forall s x, In x l -> P s -> exists s', f s x = Ok s' /\ P s') ->
  forall s, P s -> exists s', foldM f l s = Ok s' /\ P s'.
Proof.
  induction l as [|x l IH]; intros H s Hs; simpl.
  - exists s; split; [reflexivity | exact Hs].
  - destruct (H s x (or_introl eq_refl) Hs) as (s1 & -> & Hs1). simpl.
    exact (IH (fun s0 z Hz => H s0 z (or_intror Hz)) s1 Hs1).
Qed.

Lemma well_typed_set (k : string) (v : json) (d : list (string * json)) :
  k <> "sentiment" -> k <> "rating" ->
  well_typed_review (JDict d) = true ->
  well_typed_review (JDict (Dict.set k v d)) = true.
Proof.
  intros Hs Hr. unfold well_typed_review, sentiment_ok, rating_ok.
  rewrite !get_set_other by congruence. auto.
Qed.

Lemma inherit_field_total (k : string) (pd : list (string * json)) (r : json) :
  k <> "sentiment" -> k <> "rating" ->
  well_typed_review r = true ->
  exists r', inherit_field k (JDict pd) r = Ok r' /\ well_typed_review r' = true.
Proof.
  intros Hs Hr Hwt. destruct r as [| | | | | |d]; try discriminate.
  unfold inherit_field; simpl.
  destruct (Dict.has k d); [eauto|].
  unfold Dict.has. destruct (Dict.get k pd) as [v|]; simpl; [|eauto].
  eexists; split; [reflexivity|]. apply well_typed_set; assumption.
Qed.

Lemma product_reviews_total (p : json) :
  well_typed_product p = true ->
  exists rs, product_reviews p = Ok rs /\ Forall (fun r => well_typed_review r = true) rs.
Proof.
  destruct p as [| | | | | |pd]; try discriminate. simpl.
  unfold product_reviews; simpl. unfold Dict.has.
  destruct (Dict.get "reviews" pd) as [rs|]; simpl;
    [|intros _; exists []; split; [reflexivity | constructor]].
  destruct rs as [| | | | |l|]; intros Hwt;
    try (exists []; split; [reflexivity | constructor]).
  apply traverse_total. intros r Hr.
  rewrite forallb_forall in Hwt. specialize (Hwt r Hr).
  destruct (inherit_field_total "product_id" pd r) as (r1 & -> & H1);
    [discriminate | discriminate | exact Hwt |]. simpl.
  apply inherit_field_total; [discriminate | discriminate | exact H1].
Qed.

Lemma Forall_concat {A : Type} (Q : A -> Prop) (ls : list (list A)) :
  Forall (Forall Q) ls -> Forall Q (concat ls).
Proof.
  induction 1 as [|l ls Hl _ IH]; simpl; [constructor|].
  apply Forall_app; split; assumption.
Qed.

Lemma collect_reviews_total (data : json) :
  well_typed_document data = true ->
  exists raw, collect_reviews data = Ok raw /\
              Forall (fun r => well_typed_review r = true) raw.
Proof.
  assert (Hnone : exists raw : list json,
             Ok [] = Ok raw /\ Forall (fun r => well_typed_review r = true) raw)
    by (exists []; split; [reflexivity | constructor]).
  assert (Hlist : forall l, forallb well_typed_review l = true ->
             exists raw : list json,
               Ok l = Ok raw /\ Forall (fun r => well_typed_review r = true) raw).
  { intros l Hl. exists l; split; [reflexivity|].
    apply Forall_forall. intros r Hr. rewrite forallb_forall in Hl.
    apply Hl, list_elem_of_In, Hr. }
  assert (Hrev : forall d,
             match Dict.get "reviews" d with
             | Some (JList l) => forallb well_typed_review l
             | Some (JDict g) =>
                 forallb (well_typed_group g) ["positive"; "negative"; "neutral"; "all"]
             | _ => true
             end = true ->
             exists raw,
               match Dict.get "reviews" d with
               | Some (JList l) => Ok l
               | Some (JDict g) =>
                   foldM (extend_group g) ["positive"; "negative"; "neutral"; "all"] []
               | _ => Ok []
               end = Ok raw /\ Forall (fun r => well_typed_review r = true) raw).
  { intros d. destruct (Dict.get "reviews" d) as [[| | | | |l|g]|]; auto.
    intros Hg. rewrite forallb_forall in Hg.
    apply (foldM_total (Forall (fun r => well_typed_review r = true)));
      [|constructor].
    intros acc k Hk Hacc. specialize (Hg k Hk).
    unfold extend_group, well_typed_group in *.
    destruct (Dict.get k g) as [[| | | | |l|]|]; try discriminate; simpl.
    - eexists; split; [reflexivity|]. apply Forall_app; split; [exact Hacc|].
      apply Forall_forall. intros r Hr. rewrite forallb_forall in Hg.
      apply Hg, list_elem_of_In, Hr.
    - eauto. }
  destruct data as [| | | | |l|d]; simpl; auto.
  destruct (Dict.get "products" d) as [[| | | | |ps|]|] eqn:Eps; auto.
  intros Hps. rewrite forallb_forall in Hps.
  destruct (traverse_total product_reviews
              (Forall (fun r => well_typed_review r = true)) ps) as (rss & -> & Hrss).
  { intros p Hp. apply product_reviews_total, Hps, Hp. }
  simpl. eexists; split; [reflexivity|]. apply Forall_concat; exact Hrss.
Qed.


Lemma stamp_loop_total (base : string) (raw : list json) (pid : option string) :
  Forall (fun r => well_typed_review r = true) raw ->
  exists revs pid',
    foldM (stamp_review base) raw ([], pid) = Ok (revs, pid') /\
    Forall (fun r => well_typed_review r = true) revs.
Proof.
  intros Hraw.
  destruct (foldM_total (fun acc : list json * option string =>
                           Forall (fun r => well_typed_review r = true) (fst acc))
              (stamp_review base) raw) with (s := ([] : list json, pid))
    as ([revs pid'] & E & Hrevs).
  - intros acc r Hr Hacc. rewrite Forall_forall in Hraw.
    specialize (Hraw r (proj2 (list_elem_of_In _ _) Hr)).
    destruct r as [| | | | | |d]; try discriminate. simpl.
    eexists; split; [reflexivity|]. simpl.
    apply Forall_app; split; [exact Hacc|]. constructor; [|constructor].
    apply well_typed_set; [discriminate | discriminate | exact Hraw].
  - constructor.
  - exists revs, pid'; split; [exact E | exact Hrevs].
Qed.

Lemma extract_total (data : json) (source_file : string) :
  well_typed_document data = true ->
  exists revs info,
    extract_reviews_from_json data source_file = Ok (revs, info) /\
    Forall (fun r => well_typed_review r = true) revs.
Proof.
  intros Hwt. unfold extract_reviews_from_json. cbv zeta.
  destruct (collect_reviews_total data Hwt) as (raw & -> & Hraw). cbn [bind].
  destruct (stamp_loop_total (OsPath.basename source_file) raw
              (pi_product_id (document_info data source_file)) Hraw)
    as (revs & pid' & -> & Hrevs). cbn [bind].
  eexists _, _; split; [reflexivity | exact Hrevs].
Qed.

Lemma passes_filter_total flt (d : list (string * json)) :
  sentiment_ok d = true -> exists b, passes_filter flt (JDict d) = Ok b.
Proof.
  unfold passes_filter, sentiment_ok. destruct (active_filter flt); [|eauto]. simpl.
  destruct (Dict.get "sentiment" d) as [[| | | | | |]|]; try discriminate; simpl; eauto.
Qed.

Lemma sanitize_rating_total (d : list (string * json)) :
  sentiment_ok d = true -> rating_ok d = true ->
  exists r', sanitize_rating (JDict d) = Ok r' /\ accepted_ok r' = true.
Proof.
  intros Hs Hr.
  assert (Hset : forall v, match v with JNull | JFloat _ => True | _ => False end ->
                           accepted_ok (JDict (Dict.set "rating" v d)) = true).
  { intros v Hv. unfold accepted_ok, sentiment_ok in *.
    rewrite get_set_other by discriminate. rewrite get_set_same, Hs.
    destruct v; try contradiction; reflexivity. }
  unfold rating_ok in Hr. unfold sanitize_rating.
  destruct (Dict.get "rating" d) as [v|] eqn:Ev.
  2:{ eexists; split; [reflexivity|]. unfold accepted_ok; rewrite Hs, Ev; reflexivity. }
  destruct v as [| b | z | x | s | l | g]; simpl.
  - eexists; split; [reflexivity|]. unfold accepted_ok; rewrite Hs, Ev; reflexivity.
  - destruct (PrimFloat.ltb 5 (if b then 1 else 0)); eexists; split;
      try reflexivity; apply Hset; exact I.
  - destruct (float_of_Z z) as [x|e]; [|discriminate].
    destruct (PrimFloat.ltb 5 x); eexists; split; try reflexivity; apply Hset; exact I.
  - destruct (PrimFloat.ltb 5 x); eexists; split; try reflexivity; apply Hset; exact I.
  - destruct (float_of_string py s) as [x|];
      [destruct (PrimFloat.ltb 5 x)|]; eexists; split;
      try reflexivity; apply Hset; exact I.
  - eexists; split; [reflexivity|]. apply Hset; exact I.
  - eexists; split; [reflexivity|]. apply Hset; exact I.
Qed.

Lemma process_review_total flt pid self r :
  well_typed_review r = true ->
  sound pid self ->
  exists self', process_review flt pid self r = Ok self' /\ sound pid self'.
Proof.
  intros Hwt [Hpid Hacc]. destruct r as [| | | | | |d]; try discriminate.
  simpl in Hwt. apply andb_prop in Hwt as [Hs Hr].
  unfold process_review; cbn [py_get bind].
  destruct (is_duplicate_review _ _) as [[] seen].
  { eexists; split; [reflexivity|]. split; assumption. }
  destruct (passes_filter_total flt d Hs) as [[] ->]; cbn [bind].
  2:{ eexists; split; [reflexivity|]. split; assumption. }
  destruct (sanitize_rating_total d Hs Hr) as (r' & -> & Hr'). cbn [bind].
  destruct (pm_update_present pid (add_review r') (product_map self) Hpid) as [pm' E].
  rewrite E; cbn [bind]. eexists; split; [reflexivity|]. split; simpl.
  - rewrite (pm_update_keys _ _ _ _ E); exact Hpid.
  - apply Forall_app; split; [exact Hacc|]. constructor; [exact Hr' | constructor].
Qed.

Lemma process_file_total flt self f :
  well_typed_file f = true ->
  Forall (fun r => accepted_ok r = true) (all_reviews self) ->
  exists self', process_file flt self f = Ok self' /\
                Forall (fun r => accepted_ok r = true) (all_reviews self').
Proof.
  intros Hwt Hacc. unfold process_file, well_typed_file in *.
  destruct (snd f) as [data|]; [|eauto].
  destruct (truthy data); [|eauto].
  destruct (extract_total data (fst f) Hwt) as (revs & info & -> & Hrevs). simpl.
  destruct revs as [|r revs]; [eauto|].
  destruct (track_product_total info (length (r :: revs)) self) as [self1 E].
  rewrite E; simpl.
  pose proof (track_product_Ok _ _ _ _ E) as (Er & _ & _ & Epm & _).
  destruct (foldM_total (sound (pi_product_id info))
              (process_review flt (pi_product_id info)) (r :: revs)) with (s := self1)
    as (self' & E' & _ & Hacc').
  - intros s x Hx Hs. apply process_review_total; [|exact Hs].
    rewrite Forall_forall in Hrevs. apply Hrevs, list_elem_of_In, Hx.
  - split; [|rewrite Er; exact Hacc].
    rewrite (pm_update_keys _ _ _ _ Epm). apply with_product_has.
  - exists self'; split; [exact E' | exact Hacc'].
Qed.

Lemma py_get_total (k : string) (dflt : json) (revs : list json) :
  Forall (fun r => accepted_ok r = true) revs ->
  exists vs, traverse (fun r => py_get r k dflt) revs = Ok vs.
Proof.
  intros H. destruct (traverse_total (fun r => py_get r k dflt) (fun _ => True) revs)
    as (vs & E & _); [|eauto].
  intros r Hr. rewrite Forall_forall in H.
  specialize (H r (proj2 (list_elem_of_In _ _) Hr)).
  destruct r; try discriminate. simpl; eauto.
Qed.

Lemma build_combined_data_total self flt :
  Forall (fun r => accepted_ok r = true) (all_reviews self) ->
  exists out, build_combined_data self flt = Ok out.
Proof.
  intros H. unfold build_combined_data.
  destruct (traverse_total counted_sentiment (fun _ => True) (all_reviews self))
    as (names & -> & _).
  { intros r Hr. rewrite Forall_forall in H.
    specialize (H r (proj2 (list_elem_of_In _ _) Hr)).
    destruct r as [| | | | | |d]; try discriminate.
    simpl in H. apply andb_prop in H as [Hs _].
    unfold counted_sentiment, sentiment_ok in *; simpl.
    destruct (Dict.get "sentiment" d) as [[| | | | s | |]|]; try discriminate; simpl.
    - destruct (negb (String.eqb s "")); simpl; eauto.
    - eauto. }
  simpl.
  destruct (traverse_total (fun r => py_get r "rating" JNull)
              (fun v => match v with JNull | JFloat _ => True | _ => False end)
              (all_reviews self)) as (rs & Ers & Hrs).
  { intros r Hr. rewrite Forall_forall in H.
    specialize (H r (proj2 (list_elem_of_In _ _) Hr)).
    destruct r as [| | | | | |d]; try discriminate.
    simpl in H. apply andb_prop in H as [_ Hr'].
    simpl. eexists; split; [reflexivity|].
    destruct (Dict.get "rating" d) as [[| | | | | |]|]; try discriminate; exact I. }
  unfold ratings_of. rewrite Ers; simpl.
  unfold floats_of.
  destruct (py_get_total "confidence" JNull _ H) as [cs ->]; simpl.
  destruct (py_get_total "score" JNull _ H) as [ss ->]; simpl.
  destruct (py_get_total "verified_purchase" JNull _ H) as [vs ->]; simpl.
  destruct (traverse_total rating_value (fun _ => True)
              (List.filter (fun v => negb (is_null v)) rs)) as (xs & -> & _).
  { intros v Hv. apply filter_In in Hv as [Hv Hnn].
    rewrite Forall_forall in Hrs. specialize (Hrs v (proj2 (list_elem_of_In _ _) Hv)).
    destruct v; try contradiction; try discriminate. simpl; eauto. }
  simpl. eauto.
Qed.

Lemma run_total flt files :
  Forall (fun f => well_typed_file f = true) files ->
  exists self, foldM (process_file flt) files init = Ok self /\
               Forall (fun r => accepted_ok r = true) (all_reviews self).
Proof.
  intros Hfiles.
  apply (foldM_total (fun s => Forall (fun r => accepted_ok r = true) (all_reviews s)));
    [|constructor].
  intros s f Hf Hs. apply process_file_total; [|exact Hs].
  rewrite Forall_forall in Hfiles. apply Hfiles, list_elem_of_In, Hf.
Qed.

(** C4, as the code has it. A file that could not be loaded, a document
    that is false, a document of no recognized shape and a document
    without reviews are skipped and the run goes on with the next file.
    The run raises nothing and returns its document for every list of
    files whose documents hold, in the recognized shapes, only well-typed
    elements: products and reviews that are objects, sentiment groups that
    are arrays, a sentiment that is a string or absent, and no integer
    rating too large for a float. *)
Theorem well_typed_run_returns files flt :
  Forall (fun f => well_typed_file f = true) files ->
  (exists self out, merge_files files flt = Ok (self, out)) /\
  (forall self f,
      snd f = None \/
      (exists data, snd f = Some data /\ truthy data = false) \/
      (exists data info, snd f = Some data /\
                         extract_reviews_from_json data (fst f) = Ok ([], info)) ->
      process_file flt self f = Ok self).
Proof.
  intros Hfiles. split.
  - destruct (run_total flt files Hfiles) as (self & E & Hacc).
    unfold merge_files. rewrite E; simpl.
    destruct (build_combined_data_total
                {| all_reviews := all_reviews self;
                   all_products := map snd (product_map self);
                   seen_review_texts := seen_review_texts self;
                   product_map := product_map self;
                   total_reviews_loaded := total_reviews_loaded self;
                   total_duplicates_removed := total_duplicates_removed self;
                   total_filtered_out := total_filtered_out self |} flt Hacc)
      as [out ->].
    simpl. eauto.
  - intros self f [E | [(data & E & Ht) | (data & info & E & Hext)]];
      unfold process_file; rewrite E; [reflexivity | rewrite Ht; reflexivity |].
    destruct (truthy data); [|reflexivity]. rewrite Hext; reflexivity.
Qed.


(** ** A file given twice *)

Lemma covers_refl s : covers s s.
Proof. split; [reflexivity | auto]. Qed.

Lemma covers_trans s1 s2 s3 : covers s1 s2 -> covers s2 s3 -> covers s1 s3.
Proof. intros [H1 H2] [H3 H4]; split; [etrans; eassumption | auto]. Qed.

Lemma pm_lookup_update pid pid' f pm pm' :
  pm_update pid' f pm = Ok pm' ->
  pm_lookup pid pm' =
  if same_id pid' pid then option_map f (pm_lookup pid pm) else pm_lookup pid pm.
Proof.
  revert pm'; induction pm as [|[k p] pm IH]; intros pm' H; simpl in H; [discriminate|].
  destruct (same_id k pid') eqn:Ek.
  - injection H as <-. apply bool_decide_eq_true in Ek as ->. simpl.
    destruct (same_id pid' pid); reflexivity.
  - inv_bind H. injection H as <-. simpl. rewrite (IH _ Ha).
    destruct (same_id pid' pid) eqn:Ep; [|reflexivity].
    apply bool_decide_eq_true in Ep as <-. rewrite Ek; reflexivity.
Qed.

Lemma pm_update_lookup pid f pm pm' :
  pm_update pid f pm = Ok pm' -> exists p, pm_lookup pid pm = Some p.
Proof.
  revert pm'; induction pm as [|[k p] pm IH]; intros pm' H; simpl in H; [discriminate|].
  simpl. destruct (same_id k pid); [eauto|].
  inv_bind H. exact (IH _ Ha).
Qed.

Lemma recorded_update pid source_file pid' f pm pm' :
  (forall p, existsb (String.eqb source_file) (source_files p) = true ->
             existsb (String.eqb source_file) (source_files (f p)) = true) ->
  pm_update pid' f pm = Ok pm' ->
  recorded pid source_file pm -> recorded pid source_file pm'.
Proof.
  intros Hf Hup (p & Hp & Hsrc). unfold recorded.
  rewrite (pm_lookup_update pid _ _ _ _ Hup), Hp.
  destruct (same_id pid' pid); simpl; eauto.
Qed.

Lemma add_source_keeps source_file sf p :
  existsb (String.eqb source_file) (source_files p) = true ->
  existsb (String.eqb source_file) (source_files (add_source sf p)) = true.
Proof.
  intros H. simpl. destruct (existsb (String.eqb sf) (source_files p)); [exact H|].
  rewrite existsb_app, H; reflexivity.
Qed.

Lemma add_source_has sf p :
  existsb (String.eqb sf) (source_files (add_source sf p)) = true.
Proof.
  simpl. destruct (existsb (String.eqb sf) (source_files p)) eqn:E; [exact E|].
  rewrite existsb_app; simpl. rewrite String.eqb_refl, orb_true_r; reflexivity.
Qed.

Lemma pm_lookup_app pid pm1 pm2 p :
  pm_lookup pid pm1 = Some p -> pm_lookup pid (pm1 ++ pm2) = Some p.
Proof.
  induction pm1 as [|[k q] pm1 IH]; simpl; [discriminate|].
  destruct (same_id k pid); auto.
Qed.

Lemma recorded_with_product pid source_file info pm :
  recorded pid source_file pm -> recorded pid source_file (with_product info pm).
Proof.
  intros (p & Hp & Hsrc). unfold with_product.
  destruct (pm_has (pi_product_id info) pm); [exists p; auto|].
  exists p; split; [apply pm_lookup_app; exact Hp | exact Hsrc].
Qed.

Lemma track_product_covers info n s s1 :
  track_product info n s = Ok s1 ->
  covers s s1 /\
  recorded (pi_product_id info) (pi_source_file info) (product_map s1).
Proof.
  intros H. apply track_product_Ok in H as (_ & _ & Es & Epm & _).
  split; [split|].
  - rewrite Es; reflexivity.
  - intros pid sf Hrec.
    apply (recorded_update pid sf _ _ _ _ (add_source_keeps sf _) Epm).
    apply recorded_with_product; exact Hrec.
  - destruct (pm_update_lookup _ _ _ _ Epm) as [p Hp]. unfold recorded.
    rewrite (pm_lookup_update _ _ _ _ _ Epm), Hp.
    unfold same_id; rewrite bool_decide_eq_true_2 by reflexivity. simpl.
    eexists; split; [reflexivity | apply add_source_has].
Qed.

Lemma review_step_covers flt pid s r s' :
  review_step flt pid s r s' ->
  covers s s' /\
  (too_short (text_of r) = true \/ review_key r ∈ seen_review_texts s').
Proof.
  intros Hstep.
  destruct Hstep as [Hdup _ Es Epm _ _ | Hlong _ _ _ Es Epm _ _ | r' Hlong _ _ _ _ Es Epm _ _].
  - split; [split; [rewrite Es; reflexivity | rewrite Epm; auto]|].
    rewrite Es; exact Hdup.
  - split; [split; [rewrite Es; apply union_subseteq_r | rewrite Epm; auto]|].
    right; rewrite Es; apply elem_of_union_l, elem_of_singleton; reflexivity.
  - split; [split; [rewrite Es; apply union_subseteq_r|]|].
    + intros k sf Hrec.
      exact (recorded_update k sf pid (add_review r') _ _ (fun p H => H) Epm Hrec).
    + right; rewrite Es; apply elem_of_union_l, elem_of_singleton; reflexivity.
Qed.

Lemma known_covers s s' r : covers s s' -> known s r -> known s' r.
Proof. intros [Hsub _] [Hd [Hs | Hk]]; split; auto. Qed.

Lemma review_loop_covers flt pid revs s s' :
  foldM (process_review flt pid) revs s = Ok s' ->
  covers s s' /\ Forall (known s') revs.
Proof.
  revert s; induction revs as [|r revs IH]; intros s H; simpl in H.
  - injection H as <-. split; [apply covers_refl | constructor].
  - inv_bind H. destruct (IH _ H) as [Hc Hall].
    apply process_review_step in Ha as (Hd & _ & _ & Hstep).
    apply review_step_covers in Hstep as [Hc1 Hr].
    split; [exact (covers_trans _ _ _ Hc1 Hc)|].
    constructor; [|exact Hall].
    apply (known_covers a s' r Hc). split; assumption.
Qed.

Lemma process_file_covers flt s g s' :
  process_file flt s g = Ok s' -> covers s s'.
Proof.
  intros H. apply process_file_cases in H
    as [-> | (data & revs & info & s1 & _ & _ & _ & _ & Etrack & Hloop)];
    [apply covers_refl|].
  apply track_product_covers in Etrack as [Hc _].
  apply review_loop_covers in Hloop as [Hc' _].
  exact (covers_trans _ _ _ Hc Hc').
Qed.

Lemma absorbed_covers f s s' : covers s s' -> absorbed f s -> absorbed f s'.
Proof.
  intros Hc. unfold absorbed. destruct (snd f) as [data|]; [|auto].
  destruct (truthy data); [|auto].
  intros (revs & info & E & [E0 | [Hrec Hall]]); exists revs, info; split; auto.
  right; split; [apply Hc; exact Hrec|].
  eapply Forall_impl; [exact Hall|]. intros r; apply known_covers; exact Hc.
Qed.

(** Once merged, a file is absorbed. *)
Lemma process_file_absorbs flt s f s' :
  process_file flt s f = Ok s' -> absorbed f s'.
Proof.
  unfold process_file, absorbed. destruct (snd f) as [data|]; [|auto].
  destruct (truthy data); [|auto].
  intros H. inv_bind H. destruct a as [revs info]. exists revs, info.
  split; [exact Ha|]. destruct revs as [|r revs]; [left; reflexivity|].
  right. inv_bind H.
  apply track_product_covers in Ha0 as [_ Hrec].
  apply review_loop_covers in H as [Hc Hall].
  split; [apply Hc; exact Hrec | exact Hall].
Qed.

Lemma run_absorbed flt f files s s' :
  absorbed f s -> foldM (process_file flt) files s = Ok s' -> absorbed f s'.
Proof.
  apply (foldM_invariant (absorbed f)).
  intros s0 g s1 _ H0 Hg.
  exact (absorbed_covers f s0 s1 (process_file_covers _ _ _ _ Hg) H0).
Qed.


Lemma more_duplicates_0 s : more_duplicates 0 s = s.
Proof. destruct s; unfold more_duplicates; simpl. rewrite !Nat.add_0_r; reflexivity. Qed.

Lemma recorded_noop pid source_file pm :
  recorded pid source_file pm ->
  pm_has pid pm = true /\ pm_update pid (add_source source_file) pm = Ok pm.
Proof.
  unfold pm_has.
  induction pm as [|[k p] pm IH]; intros (q & Hq & Hsrc); simpl in *; [discriminate|].
  destruct (same_id k pid) eqn:E.
  - injection Hq as ->. split; [reflexivity|].
    unfold add_source; rewrite Hsrc. destruct q; reflexivity.
  - destruct IH as [Hh Hu]; [exists q; auto|]. split; [exact Hh|].
    rewrite Hu; reflexivity.
Qed.

(** A known candidate is dropped as a duplicate. *)
Lemma process_review_known flt pid s r :
  known s r ->
  process_review flt pid s r =
  Ok {| all_reviews := all_reviews s;
        all_products := all_products s;
        seen_review_texts := seen_review_texts s;
        product_map := product_map s;
        total_reviews_loaded := total_reviews_loaded s;
        total_duplicates_removed := S (total_duplicates_removed s);
        total_filtered_out := total_filtered_out s |}.
Proof.
  intros [[d ->] Hk]. unfold process_review; cbn [py_get bind].
  change (match Dict.get "review_text" d with Some x => x | None => JStr "" end)
    with (text_of (JDict d)).
  unfold is_duplicate_review.
  destruct (too_short (text_of (JDict d))); [reflexivity|].
  destruct Hk as [Hk | Hk]; [discriminate|].
  fold (review_key (JDict d)). rewrite bool_decide_eq_true_2 by exact Hk. reflexivity.
Qed.

Lemma review_loop_known flt pid revs s :
  Forall (known s) revs ->
  foldM (process_review flt pid) revs s =
  Ok {| all_reviews := all_reviews s;
        all_products := all_products s;
        seen_review_texts := seen_review_texts s;
        product_map := product_map s;
        total_reviews_loaded := total_reviews_loaded s;
        total_duplicates_removed := total_duplicates_removed s + length revs;
        total_filtered_out := total_filtered_out s |}.
Proof.
  revert s; induction revs as [|r revs IH]; intros s H; simpl.
  - destruct s; simpl; rewrite Nat.add_0_r; reflexivity.
  - apply Forall_cons_1 in H as [Hr Hall].
    rewrite (process_review_known flt pid s r Hr). cbn [bind].
    rewrite IH; [|exact Hall]. simpl. do 2 f_equal. lia.
Qed.

(** A file that is absorbed only adds to the counts of candidates and
    duplicates. *)
Lemma process_file_absorbed flt s f :
  absorbed f s -> process_file flt s f = Ok (more_duplicates (candidates f) s).
Proof.
  unfold process_file, absorbed, candidates.
  destruct (snd f) as [data|]; [|rewrite more_duplicates_0; reflexivity].
  destruct (truthy data); [|rewrite more_duplicates_0; reflexivity].
  intros (revs & info & -> & H). cbn [bind].
  destruct revs as [|r revs]; [rewrite more_duplicates_0; reflexivity|].
  destruct H as [H | [Hrec Hall]]; [discriminate|].
  destruct (recorded_noop _ _ _ Hrec) as [Hhas Hup].
  unfold track_product. rewrite Hhas, Hup. cbn [bind].
  rewrite review_loop_known; [reflexivity | exact Hall].
Qed.

(** The two counts play no part in what the loops do. *)
Lemma process_review_more n flt pid s r :
  process_review flt pid (more_duplicates n s) r =
  rmap (more_duplicates n) (process_review flt pid s r).
Proof.
  unfold process_review. destruct (py_get r "review_text" (JStr "")) as [t|e];
    [|reflexivity]. cbn [bind]. simpl seen_review_texts.
  destruct (is_duplicate_review (seen_review_texts s) t) as [[] seen]; [reflexivity|].
  destruct (passes_filter flt r) as [[]|e]; cbn [bind]; try reflexivity.
  destruct (sanitize_rating r) as [r'|e]; cbn [bind]; [|reflexivity].
  simpl product_map.
  destruct (pm_update pid (add_review r') (product_map s)) as [pm|e]; reflexivity.
Qed.

Lemma track_product_more n info n0 s :
  track_product info n0 (more_duplicates n s) =
  rmap (more_duplicates n) (track_product info n0 s).
Proof.
  unfold track_product. simpl product_map.
  destruct (pm_update _ _ _) as [pm|e]; [|reflexivity].
  unfold more_duplicates; simpl. do 2 f_equal. lia.
Qed.

Lemma foldM_rmap {A S : Type} (g : S -> S) (f : S -> A -> result S) (l : list A) :
  (forall s x, f (g s) x = rmap g (f s x)) ->
  forall s, foldM f l (g s) = rmap g (foldM f l s).
Proof.
  intros H. induction l as [|x l IH]; intros s; simpl; [reflexivity|].
  rewrite H. destruct (f s x) as [s1|e]; simpl; [apply IH | reflexivity].
Qed.

Lemma process_file_more n flt s g :
  process_file flt (more_duplicates n s) g =
  rmap (more_duplicates n) (process_file flt s g).
Proof.
  unfold process_file. destruct (snd g) as [data|]; [|reflexivity].
  destruct (truthy data); [|reflexivity].
  destruct (extract_reviews_from_json data (fst g)) as [[revs info]|e];
    [|reflexivity]. cbn [bind].
  destruct revs as [|r revs]; [reflexivity|].
  rewrite track_product_more.
  destruct (track_product info (length (r :: revs)) s) as [s1|e]; [|reflexivity].
  cbn [rmap bind]. apply foldM_rmap. intros s0 x; apply process_review_more.
Qed.

Lemma foldM_cons {A S : Type} (f : S -> A -> result S) (x : A) (l : list A) (s : S) :
  foldM f (x :: l) s = bind (f s x) (foldM f l).
Proof. reflexivity. Qed.

Lemma run_twice flt A f B C s :
  foldM (process_file flt) (A ++ f :: B ++ f :: C) s =
  rmap (more_duplicates (candidates f)) (foldM (process_file flt) (A ++ f :: B ++ C) s).
Proof.
  rewrite !foldM_app.
  destruct (foldM (process_file flt) A s) as [sA|e]; [|reflexivity].
  cbn [bind rmap]. rewrite !foldM_cons.
  destruct (process_file flt sA f) as [s1|e] eqn:E1; [|reflexivity].
  cbn [bind rmap]. rewrite !foldM_app.
  destruct (foldM (process_file flt) B s1) as [sB|e] eqn:EB; [|reflexivity].
  cbn [bind rmap]. rewrite foldM_cons.
  rewrite (process_file_absorbed flt sB f).
  - cbn [bind]. apply foldM_rmap. intros s0 x; apply process_file_more.
  - exact (run_absorbed flt f B s1 sB (process_file_absorbs _ _ _ _ E1) EB).
Qed.

Lemma build_combined_data_more n self flt :
  build_combined_data
    {| all_reviews := all_reviews (more_duplicates n self);
       all_products := map snd (product_map (more_duplicates n self));
       seen_review_texts := seen_review_texts (more_duplicates n self);
       product_map := product_map (more_duplicates n self);
       total_reviews_loaded := total_reviews_loaded (more_duplicates n self);
       total_duplicates_removed := total_duplicates_removed (more_duplicates n self);
       total_filtered_out := total_filtered_out (more_duplicates n self) |} flt =
  build_combined_data
    {| all_reviews := all_reviews self;
       all_products := map snd (product_map self);
       seen_review_texts := seen_review_texts self;
       product_map := product_map self;
       total_reviews_loaded := total_reviews_loaded self;
       total_duplicates_removed := total_duplicates_removed self;
       total_filtered_out := total_filtered_out self |} flt.
Proof. reflexivity. Qed.

(** C5. Merging a list in which a file appears twice returns the same
    document as merging the list in which it appears once, and raises
    when the other raises: the products, their count, their source files
    and their reviews, and the count of accepted reviews are the same. The
    merger differs by two totals only: the candidates of the second copy
    are all loaded and all dropped by the duplicate check. *)
Theorem repeated_file_changes_nothing flt A f B C :
  merge_files (A ++ f :: B ++ f :: C) flt =
  rmap (fun so => (more_duplicates (candidates f) (fst so), snd so))
       (merge_files (A ++ f :: B ++ C) flt) /\
  (forall self out,
      merge_files (A ++ f :: B ++ C) flt = Ok (self, out) ->
      exists self2,
        merge_files (A ++ f :: B ++ f :: C) flt = Ok (self2, out) /\
        all_reviews self2 = all_reviews self /\
        all_products self2 = all_products self /\
        product_map self2 = product_map self /\
        seen_review_texts self2 = seen_review_texts self /\
        total_filtered_out self2 = total_filtered_out self /\
        total_reviews_loaded self2 = total_reviews_loaded self + candidates f /\
        total_duplicates_removed self2 = total_duplicates_removed self + candidates f).
Proof.
  assert (E : merge_files (A ++ f :: B ++ f :: C) flt =
              rmap (fun so => (more_duplicates (candidates f) (fst so), snd so))
                   (merge_files (A ++ f :: B ++ C) flt)).
  { unfold merge_files. rewrite run_twice.
    destruct (foldM (process_file flt) (A ++ f :: B ++ C) init) as [self|e];
      [|reflexivity].
    cbn [rmap bind]. rewrite build_combined_data_more.
    destruct (build_combined_data _ flt) as [out|e]; reflexivity. }
  split; [exact E|].
  intros self out H. rewrite E, H. simpl.
  eexists; split; [reflexivity|]. simpl. repeat split; reflexivity.
Qed.

(** ** Provenance *)

(** As [run_invariant], with the product of the file known to be recorded
    while its reviews are read. *)
Lemma run_invariant_recorded (P : merger -> Prop) flt files :
  P init ->
  (forall path data revs info self self1,
      In (path, Some data) files ->
      extract_reviews_from_json data path = Ok (revs, info) ->
      P self -> track_product info (length revs) self = Ok self1 -> P self1) ->
  (forall path data revs info self r self',
      In (path, Some data) files ->
      extract_reviews_from_json data path = Ok (revs, info) ->
      In r revs ->
      recorded (pi_product_id info) (pi_source_file info) (product_map self) ->
      P self ->
      review_step flt (pi_product_id info) self r self' ->
      P self') ->
  forall self, foldM (process_file flt) files init = Ok self -> P self.
Proof.
  intros Hinit Htrack Hstep self Hrun.
  refine (foldM_invariant P (process_file flt) files _ init self Hinit Hrun).
  intros s f s' Hf Hs Hfile.
  apply process_file_cases in Hfile
    as [-> | (data & revs & info & s1 & Edata & _ & Eext & _ & Etrack & Hloop)];
    [exact Hs|].
  destruct f as [path content]; simpl in *; subst content.
  pose proof (Htrack _ _ _ _ _ _ Hf Eext Hs Etrack) as Hs1.
  apply track_product_covers in Etrack as [_ Hrec].
  refine (proj1 (foldM_invariant
                   (fun s0 => P s0 /\
                              recorded (pi_product_id info) (pi_source_file info)
                                       (product_map s0))
                   _ revs _ s1 s' (conj Hs1 Hrec) Hloop)).
  intros s2 r s3 Hr [Hs2 Hrec2] Hrev.
  apply process_review_step in Hrev as (_ & _ & _ & Hrev).
  split; [exact (Hstep path data revs info s2 r s3 Hf Eext Hr Hrec2 Hs2 Hrev)|].
  apply review_step_covers in Hrev as [[_ Hc] _]. apply Hc; exact Hrec2.
Qed.

Lemma resolve_identity_source source_file info :
  pi_source_file (resolve_identity source_file info) = pi_source_file info.
Proof.
  unfold resolve_identity. destruct (no_id (pi_product_id info)); [|reflexivity].
  destruct (search_id source_file); reflexivity.
Qed.

(** The reviews extracted from a file carry its name. *)
Lemma extract_stamped data path revs info :
  extract_reviews_from_json data path = Ok (revs, info) ->
  pi_source_file info = OsPath.basename path /\
  Forall (fun r => source_of r = Some (JStr (OsPath.basename path))) revs.
Proof.
  unfold extract_reviews_from_json. cbv zeta. intros H.
  inv_bind H. rename a into raw. inv_bind H. destruct a as [revs0 pid].
  injection H as <- <-. split; [rewrite resolve_identity_source; reflexivity|].
  refine (foldM_invariant
            (fun acc : list json * option string =>
               Forall (fun r => source_of r = Some (JStr (OsPath.basename path))) (fst acc))
            _ raw _ _ _ _ Ha0); [|constructor].
  intros acc r acc' _ Hacc Hr. unfold stamp_review in Hr.
  destruct r as [| | | | | |d]; try discriminate. injection Hr as <-. simpl.
  apply Forall_app; split; [exact Hacc|]. constructor; [|constructor].
  simpl. apply get_set_same.
Qed.

Lemma sanitize_keeps_source (r r' : json) :
  sanitize_rating r = Ok r' -> source_of r' = source_of r.
Proof.
  intros H; apply (sanitize_keeps_field "source_file") in H as (d & d' & -> & -> & E);
    [|discriminate].
  exact E.
Qed.

Lemma pm_update_Forall (Q : product -> Prop) pid f pm pm' :
  Forall (fun e => Q (snd e)) pm ->
  (forall p, pm_lookup pid pm = Some p -> Q p -> Q (f p)) ->
  pm_update pid f pm = Ok pm' ->
  Forall (fun e => Q (snd e)) pm'.
Proof.
  revert pm'; induction pm as [|[k p] pm IH]; intros pm' Hall Hf H; simpl in H;
    [discriminate|].
  apply Forall_cons_1 in Hall as [Hp Hall]. simpl in Hf.
  destruct (same_id k pid).
  - injection H as <-. constructor; [apply Hf; [reflexivity | exact Hp] | exact Hall].
  - inv_bind H. injection H as <-. constructor; [exact Hp|].
    exact (IH _ Hall Hf Ha).
Qed.

Lemma pm_update_absent pid f pm p :
  pm_has pid pm = false ->
  pm_update pid f (pm ++ [(pid, p)]) = Ok (pm ++ [(pid, f p)]).
Proof.
  unfold pm_has. induction pm as [|[k q] pm IH]; simpl; intros H.
  - unfold same_id; rewrite bool_decide_eq_true_2 by reflexivity; reflexivity.
  - apply orb_false_elim in H as [Hk Hrest]. rewrite Hk, (IH Hrest); reflexivity.
Qed.

Lemma existsb_eqb_In (x : string) (l : list string) :
  existsb (String.eqb x) l = true <-> In x l.
Proof.
  rewrite existsb_exists; split.
  - intros (y & Hy & E). apply String.eqb_eq in E as ->. exact Hy.
  - intros H. exists x; split; [exact H | apply String.eqb_refl].
Qed.

Lemma add_source_ok files name p :
  input_name files name ->
  sources_ok files p -> reviews_sourced p ->
  source_files (add_source name p) <> [] /\
  sources_ok files (add_source name p) /\ reviews_sourced (add_source name p).
Proof.
  intros Hname [Hnd Hin] Hrev. unfold sources_ok, reviews_sourced. simpl.
  destruct (existsb (String.eqb name) (source_files p)) eqn:E.
  - apply existsb_eqb_In in E. repeat split; auto.
    intros E0; rewrite E0 in E; destruct E.
  - repeat split.
    + intros E0. apply app_eq_nil in E0 as [_ E0]. discriminate.
    + apply NoDup_app; repeat split; [exact Hnd | | apply NoDup_singleton].
      intros x Hx Hx'. apply list_elem_of_singleton in Hx'; subst x.
      apply list_elem_of_In, existsb_eqb_In in Hx. congruence.
    + apply Forall_app; split; [exact Hin | constructor; [exact Hname | constructor]].
    + eapply Forall_impl; [exact Hrev|]. intros r (n & Hn & Hin').
      exists n; split; [exact Hn | apply in_or_app; left; exact Hin'].
Qed.

(** What the product map keeps about sources. *)
Lemma run_sourced flt files self :
  foldM (process_file flt) files init = Ok self ->
  Forall (fun e => sourced files (snd e)) (product_map self).
Proof.
  apply (run_invariant_recorded
           (fun s => Forall (fun e => sourced files (snd e)) (product_map s))).
  - constructor.
  - intros path data revs info s s1 Hf Hext Hs Ht.
    apply track_product_Ok in Ht as (_ & _ & _ & Epm & _).
    destruct (extract_stamped _ _ _ _ Hext) as [Esf _].
    assert (Hname : input_name files (pi_source_file info))
      by (exists path, data; split; [exact Hf | exact Esf]).
    unfold with_product in Epm.
    destruct (pm_has (pi_product_id info) (product_map s)) eqn:Ehas.
    + refine (pm_update_Forall (sourced files) _ _ _ _ Hs _ Epm).
      intros p _ (_ & Hok & Hrev). exact (add_source_ok files _ p Hname Hok Hrev).
    + rewrite (pm_update_absent _ _ _ _ Ehas) in Epm. injection Epm as <-.
      apply Forall_app; split; [exact Hs|]. constructor; [|constructor].
      apply (add_source_ok files _ (new_product info) Hname).
      * split; [apply NoDup_nil_2 | constructor].
      * constructor.
  - intros path data revs info s r s' Hf Hext Hr Hrec Hs Hstep.
    destruct Hstep as [_ _ _ Epm _ _ | _ _ _ _ _ Epm _ _ | r' _ _ _ Hsan _ _ Epm _ _];
      [rewrite Epm; exact Hs | rewrite Epm; exact Hs |].
    refine (pm_update_Forall (sourced files) _ _ _ _ Hs _ Epm).
    intros p Hp (Hne & Hok & Hrev). destruct Hrec as (q & Hq & Hsrc).
    rewrite Hp in Hq; injection Hq as <-.
    repeat split; [exact Hne | apply Hok | apply Hok |].
    unfold reviews_sourced; simpl. apply Forall_app; split; [exact Hrev|].
    constructor; [|constructor].
    destruct (extract_stamped _ _ _ _ Hext) as [Esf Hall].
    rewrite Forall_forall in Hall.
    exists (OsPath.basename path); split.
    + rewrite (sanitize_keeps_source _ _ Hsan). apply Hall, list_elem_of_In, Hr.
    + rewrite <- Esf. apply existsb_eqb_In; exact Hsrc.
Qed.

(** X1. In every merge output each product lists at least one source
    file, no file twice, and every source file is the base name of an
    input file that was loaded. *)
Theorem products_list_their_files files flt self out :
  merge_files files flt = Ok (self, out) ->
  Forall (fun p => source_files p <> [] /\
                   NoDup (source_files p) /\
                   Forall (input_name files) (source_files p)) (products out).
Proof.
  intros H. apply merged_products in H as (self0 & Hrun & _ & _ & -> & _).
  apply Forall_forall. intros p Hp.
  apply list_elem_of_In, in_map_iff in Hp as (e & <- & He).
  pose proof (run_sourced _ _ _ Hrun) as Hall. rewrite Forall_forall in Hall.
  destruct (Hall e (proj2 (list_elem_of_In _ _) He)) as (Hne & [Hnd Hin] & _).
  auto.
Qed.

(** X2. Every review of the merge output carries a [source_file], the
    base name of the file it was read from, and the product that holds the
    review lists that file among its source files. *)
Theorem reviews_name_their_file files flt self out :
  merge_files files flt = Ok (self, out) ->
  Forall (fun p =>
            Forall (fun r => exists name,
                        source_of r = Some (JStr name) /\
                        In name (source_files p) /\
                        input_name files name) (reviews p)) (products out).
Proof.
  intros H. apply merged_products in H as (self0 & Hrun & _ & _ & -> & _).
  apply Forall_forall. intros p Hp.
  apply list_elem_of_In, in_map_iff in Hp as (e & <- & He).
  pose proof (run_sourced _ _ _ Hrun) as Hall. rewrite Forall_forall in Hall.
  destruct (Hall e (proj2 (list_elem_of_In _ _) He)) as (_ & [_ Hin] & Hrev).
  eapply Forall_impl; [exact Hrev|]. intros r (name & Hname & Hsrc).
  exists name; repeat split; auto.
  rewrite Forall_forall in Hin. apply Hin, list_elem_of_In, Hsrc.
Qed.

(** ** Ratings of the output *)

Lemma sanitize_in_range (r r' : json) :
  sanitize_rating r = Ok r' -> rating_in_range r'.
Proof.
  destruct r as [| | | | | |d]; simpl; try discriminate.
  assert (Hnull : rating_in_range (JDict (Dict.set "rating" JNull d)))
    by (left; simpl; rewrite get_set_same; reflexivity).
  assert (Hfloat : forall x, PrimFloat.ltb 5 x = false ->
                             rating_in_range (JDict (Dict.set "rating" (JFloat x) d)))
    by (intros x Hx; right; exists x; simpl; rewrite get_set_same; auto).
  destruct (Dict.get "rating" d) as [v|] eqn:Ev.
  2:{ intros [= <-]. left; simpl; rewrite Ev; reflexivity. }
  destruct (is_null v) eqn:En.
  { destruct v; try discriminate. intros [= <-]. left; simpl; rewrite Ev; reflexivity. }
  intros H.
  assert (H' : match py_float v with
               | Ok r_val =>
                   if PrimFloat.ltb 5 r_val
                   then Ok (JDict (Dict.set "rating" JNull d))
                   else Ok (JDict (Dict.set "rating" (JFloat r_val) d))
               | Raise ValueError | Raise TypeError =>
                   Ok (JDict (Dict.set "rating" JNull d))
               | Raise e => Raise e
               end = Ok r') by (destruct v; try discriminate; exact H).
  clear H. destruct (py_float v) as [x|e].
  - destruct (PrimFloat.ltb 5 x) eqn:El; injection H' as <-; auto.
  - destruct e; try discriminate; injection H' as <-; exact Hnull.
Qed.

(** X3. Every rating in the merge output is null (or absent) or a float
    that is not above 5: no string, integer or out-of-range value is left. *)
Theorem ratings_in_range files flt self out :
  merge_files files flt = Ok (self, out) ->
  Forall rating_in_range (all_reviews self) /\
  Forall rating_in_range (output_reviews out).
Proof.
  intros H.
  assert (Hall : Forall rating_in_range (all_reviews self)).
  { pose proof H as H0. apply merged_products in H0 as (self0 & Hrun & -> & _).
    eapply Forall_impl; [exact (run_sanitized _ _ _ Hrun)|].
    intros r' (path & data & revs & info & r & _ & _ & _ & Hsan & _).
    exact (sanitize_in_range _ _ Hsan). }
  split; [exact Hall | exact (Forall_accepted _ _ _ _ _ H Hall)].
Qed.

(** ** Runs that continue one another *)

Lemma extends_refl s : extends s s.
Proof.
  repeat split; try reflexivity; [exists [] | exists []]; rewrite app_nil_r; reflexivity.
Qed.

Lemma extends_trans s1 s2 s3 : extends s1 s2 -> extends s2 s3 -> extends s1 s3.
Proof.
  intros ([l1 E1] & [k1 K1] & S1 & A1 & B1 & C1) ([l2 E2] & [k2 K2] & S2 & A2 & B2 & C2).
  repeat split; try lia.
  - exists (l1 ++ l2). rewrite E2, E1, app_assoc; reflexivity.
  - exists (k1 ++ k2). rewrite K2, K1, app_assoc; reflexivity.
  - etrans; eassumption.
Qed.

Lemma with_product_keys info pm :
  exists ks, map fst (with_product info pm) = map fst pm ++ ks /\ length ks <= 1.
Proof.
  unfold with_product. destruct (pm_has (pi_product_id info) pm).
  - exists []. rewrite app_nil_r; split; [reflexivity | simpl; lia].
  - exists [pi_product_id info]. rewrite map_app; split; [reflexivity | simpl; lia].
Qed.

Lemma track_product_extends info n s s1 :
  track_product info n s = Ok s1 ->
  extends s s1 /\ length (product_map s1) <= S (length (product_map s)).
Proof.
  intros H. apply track_product_Ok in H as (Er & _ & Es & Epm & El & Ed & Ef).
  apply pm_update_keys in Epm.
  destruct (with_product_keys info (product_map s)) as (ks & Eks & Hks).
  rewrite Eks in Epm. split.
  - repeat split; try lia.
    + exists []. rewrite Er, app_nil_r; reflexivity.
    + exists ks. exact Epm.
    + rewrite Es; reflexivity.
  - rewrite <- (length_map fst (product_map s1)), Epm, length_app, length_map. lia.
Qed.

Lemma review_step_extends flt pid s r s' :
  total_reviews_loaded s' = total_reviews_loaded s ->
  review_step flt pid s r s' ->
  extends s s' /\ length (product_map s') = length (product_map s).
Proof.
  intros El Hstep.
  destruct Hstep as [_ Er Es Epm Ed Ef | _ _ _ Er Es Epm Ed Ef | r' _ _ _ _ Er Es Epm Ed Ef].
  - split; [|rewrite Epm; reflexivity]. repeat split; try lia.
    + exists []. rewrite Er, app_nil_r; reflexivity.
    + exists []. rewrite Epm, app_nil_r; reflexivity.
    + rewrite Es; reflexivity.
  - split; [|rewrite Epm; reflexivity]. repeat split; try lia.
    + exists []. rewrite Er, app_nil_r; reflexivity.
    + exists []. rewrite Epm, app_nil_r; reflexivity.
    + rewrite Es; apply union_subseteq_r.
  - apply pm_update_keys in Epm. split.
    + repeat split; try lia.
      * exists [r']. exact Er.
      * exists []. rewrite Epm, app_nil_r; reflexivity.
      * rewrite Es; apply union_subseteq_r.
    + rewrite <- (length_map fst (product_map s')), Epm, length_map; reflexivity.
Qed.

Lemma process_file_extends flt s f s' :
  process_file flt s f = Ok s' ->
  extends s s' /\ length (product_map s') <= S (length (product_map s)).
Proof.
  intros H. apply process_file_cases in H
    as [-> | (data & revs & info & s1 & _ & _ & _ & _ & Etrack & Hloop)];
    [split; [apply extends_refl | lia]|].
  apply track_product_extends in Etrack as [He Hl].
  refine (foldM_invariant
            (fun s0 => extends s s0 /\ length (product_map s0) <= S (length (product_map s)))
            _ revs _ s1 s' (conj He Hl) Hloop).
  intros s2 r s3 _ [He2 Hl2] Hrev.
  apply process_review_step in Hrev as (_ & El & _ & Hstep).
  destruct (review_step_extends _ _ _ _ _ El Hstep) as [He3 Hl3].
  split; [exact (extends_trans _ _ _ He2 He3) | rewrite Hl3; exact Hl2].
Qed.

Lemma run_extends flt files s s' :
  foldM (process_file flt) files s = Ok s' ->
  extends s s' /\ length (product_map s') <= length (product_map s) + length files.
Proof.
  revert s; induction files as [|f files IH]; intros s H; simpl in H.
  - injection H as <-. split; [apply extends_refl | lia].
  - inv_bind H. destruct (process_file_extends _ _ _ _ Ha) as [He Hl].
    destruct (IH _ H) as [He' Hl'].
    split; [exact (extends_trans _ _ _ He He') | simpl; lia].
Qed.

Lemma keyed_ids pm : keyed pm -> map product_id (map snd pm) = map fst pm.
Proof.
  intros [_ Hall]. rewrite map_map. apply map_ext_in. intros e He.
  rewrite Forall_forall in Hall. apply Hall, list_elem_of_In, He.
Qed.

(** X4. The counts of the metadata: [total_products] and
    [total_files_merged] are both the number of products of the document,
    which is at most the number of input files, and [total_reviews] is the
    number of reviews the products hold. *)
Theorem metadata_counts files flt self out :
  merge_files files flt = Ok (self, out) ->
  total_products out = length (products out) /\
  total_files_merged out = length (products out) /\
  total_files_merged out <= length files /\
  total_reviews out = length (output_reviews out).
Proof.
  intros H. pose proof (output_reviews_accepted _ _ _ _ H) as Hperm.
  apply merge_files_Ok in H as (self0 & Hrun & Er & _ & Epm & Eprods & _ & _ & _ & Hout).
  apply build_combined_data_products in Hout as (Ep & Etp & Etr & Etf).
  destruct (run_extends _ _ _ _ Hrun) as [_ Hlen]. simpl in Hlen.
  rewrite Ep, Etp, Etf, Etr, Eprods, Epm, length_map, (Permutation_length Hperm).
  repeat split; auto.
Qed.

(** X5. Merging a list of files continued by more files keeps what the
    first files gave: the accepted reviews of the shorter run are the first
    accepted reviews of the longer one, its products are the first
    products, in the same order, no seen text is forgotten and no total
    decreases. *)
Theorem more_files_only_add files more flt self out self2 out2 :
  merge_files files flt = Ok (self, out) ->
  merge_files (files ++ more) flt = Ok (self2, out2) ->
  (exists l, all_reviews self2 = all_reviews self ++ l) /\
  (exists ps, map product_id (products out2) = map product_id (products out) ++ ps) /\
  seen_review_texts self ⊆ seen_review_texts self2 /\
  total_reviews_loaded self <= total_reviews_loaded self2 /\
  total_duplicates_removed self <= total_duplicates_removed self2 /\
  total_filtered_out self <= total_filtered_out self2.
Proof.
  intros H1 H2.
  pose proof (merged_products _ _ _ _ H1) as (a & Ha & _ & _ & Epa & _).
  pose proof (merged_products _ _ _ _ H2) as (b & Hb & _ & _ & Epb & _).
  apply merge_files_Ok in H1 as (a' & Ha' & Er1 & Es1 & _ & _ & El1 & Ed1 & Ef1 & _).
  apply merge_files_Ok in H2 as (b' & Hb' & Er2 & Es2 & _ & _ & El2 & Ed2 & Ef2 & _).
  assert (a' = a) by congruence. assert (b' = b) by congruence. subst a' b'.
  rewrite foldM_app, Ha in Hb. cbn [bind] in Hb.
  destruct (run_extends _ _ _ _ Hb) as [(Hr & [ks Hk] & Hs & Hl & Hd & Hf) _].
  rewrite Er1, Er2, Es1, Es2, El1, El2, Ed1, Ed2, Ef1, Ef2, Epa, Epb.
  rewrite (keyed_ids _ (run_keyed _ _ _ Ha)).
  assert (Hkb : keyed (product_map b)).
  { apply (run_keyed flt (files ++ more)). rewrite foldM_app, Ha; exact Hb. }
  rewrite (keyed_ids _ Hkb).
  repeat split; auto. exists ks; exact Hk.
Qed.

(** ** The filtered run against the unfiltered run *)

(** Two loops over the same list keep a relation that their bodies keep. *)
Lemma foldM_lockstep {A S : Type} (R : S -> S -> Prop) (f g : S -> A -> result S)
      (l : list A) :
  (forall a b x a' b', In x l -> R a b -> f a x = Ok a' -> g b x = Ok b' -> R a' b') ->
  forall a b a' b', R a b -> foldM f l a = Ok a' -> foldM g l b = Ok b' -> R a' b'.
Proof.
  induction l as [|x l IH]; intros Hstep a b a' b' Hab Hf Hg; simpl in Hf, Hg.
  - congruence.
  - apply bind_Ok in Hf as (a1 & Ha1 & Hf). apply bind_Ok in Hg as (b1 & Hb1 & Hg).
    apply (IH (fun a0 b0 y a2 b2 Hy => Hstep a0 b0 y a2 b2 (or_intror Hy)) a1 b1);
      [|exact Hf | exact Hg].
    exact (Hstep a b x a1 b1 (or_introl eq_refl) Hab Ha1 Hb1).
Qed.

Lemma passes_filter_matches wanted r b :
  wanted <> "" ->
  passes_filter (Some wanted) r = Ok b -> matches_filter wanted r = b.
Proof.
  intros Hne H. unfold passes_filter, active_filter in H.
  destruct (String.eqb_spec wanted ""); [contradiction|].
  inv_bind H. apply py_get_Ok in Ha as (d & -> & ->).
  change (default (JStr "") (Dict.get "sentiment" d)) with (sentiment_of (JDict d)) in H.
  unfold matches_filter.
  destruct (sentiment_of (JDict d)) as [| | | |s| |]; simpl in H; try discriminate.
  injection H as <-; reflexivity.
Qed.

Lemma matches_filter_sanitized wanted r r' :
  sanitize_rating r = Ok r' -> matches_filter wanted r' = matches_filter wanted r.
Proof.
  intros H. unfold matches_filter. rewrite (sanitize_keeps_sentiment _ _ H); reflexivity.
Qed.

Lemma filter_snoc {A : Type} (p : A -> bool) (l : list A) (x : A) :
  List.filter p (l ++ [x]) = List.filter p l ++ (if p x then [x] else []).
Proof. rewrite List.filter_app; simpl. destruct (p x); reflexivity. Qed.

Lemma pm_update_lockstep (Q : product -> product -> Prop) pid fa fb pa pb pa' pb' :
  Forall2 (fun ea eb => fst ea = fst eb /\ Q (snd ea) (snd eb)) pa pb ->
  (forall p q, Q p q -> Q (fa p) (fb q)) ->
  pm_update pid fa pa = Ok pa' ->
  pm_update pid fb pb = Ok pb' ->
  Forall2 (fun ea eb => fst ea = fst eb /\ Q (snd ea) (snd eb)) pa' pb'.
Proof.
  intros Hall Hf. revert pa' pb'.
  induction Hall as [|[ka p] [kb q] pa pb [Hk Hq] Hall IH]; intros pa' pb' Ha Hb;
    simpl in Ha, Hb; [discriminate|].
  simpl in Hk; subst kb.
  destruct (same_id ka pid).
  - injection Ha as <-. injection Hb as <-.
    constructor; [split; [reflexivity | apply Hf; exact Hq] | exact Hall].
  - apply bind_Ok in Ha as (ra & Hra & Ha). apply bind_Ok in Hb as (rb & Hrb & Hb).
    injection Ha as <-. injection Hb as <-.
    constructor; [split; [reflexivity | exact Hq] | exact (IH _ _ Hra Hrb)].
Qed.

Lemma pm_update_right (Q : product -> product -> Prop) pid fb pa pb pb' :
  Forall2 (fun ea eb => fst ea = fst eb /\ Q (snd ea) (snd eb)) pa pb ->
  (forall p q, Q p q -> Q p (fb q)) ->
  pm_update pid fb pb = Ok pb' ->
  Forall2 (fun ea eb => fst ea = fst eb /\ Q (snd ea) (snd eb)) pa pb'.
Proof.
  intros Hall Hf. revert pb'.
  induction Hall as [|[ka p] [kb q] pa pb [Hk Hq] Hall IH]; intros pb' Hb;
    simpl in Hb; [discriminate|].
  simpl in Hk; subst kb.
  destruct (same_id ka pid).
  - injection Hb as <-.
    constructor; [split; [reflexivity | apply Hf; exact Hq] | exact Hall].
  - apply bind_Ok in Hb as (rb & Hrb & Hb). injection Hb as <-.
    constructor; [split; [reflexivity | exact Hq] | exact (IH _ Hrb)].
Qed.

Lemma Forall2_keys (Q : product -> product -> Prop)
      (pa pb : list (option string * product)) :
  Forall2 (fun ea eb => fst ea = fst eb /\ Q (snd ea) (snd eb)) pa pb ->
  map fst pa = map fst pb.
Proof.
  induction 1 as [|ea eb pa pb [Hk _] _ IH]; simpl; [reflexivity|].
  rewrite Hk, IH; reflexivity.
Qed.

Lemma pm_has_keys pid pa pb :
  map fst pa = map fst pb -> pm_has pid pa = pm_has pid pb.
Proof.
  intros E. destruct (pm_has pid pa) eqn:Ea, (pm_has pid pb) eqn:Eb; try reflexivity.
  - apply pm_has_In in Ea. rewrite E in Ea. apply pm_has_In in Ea. congruence.
  - apply pm_has_In in Eb. rewrite <- E in Eb. apply pm_has_In in Eb. congruence.
Qed.

Lemma product_filtered_source wanted name p q :
  product_filtered wanted p q ->
  product_filtered wanted (add_source name p) (add_source name q).
Proof.
  intros (Hi & Hn & Hu & Hs & Hr). unfold product_filtered; simpl.
  rewrite Hs. auto.
Qed.

Lemma track_product_lockstep wanted info n sf sn sf1 sn1 :
  filtered_of wanted sf sn ->
  track_product info n sf = Ok sf1 ->
  track_product info n sn = Ok sn1 ->
  filtered_of wanted sf1 sn1.
Proof.
  intros (Hs & Hr & Hpm & Hl & Hd & Hc) Hf Hn.
  apply track_product_Ok in Hf as (Erf & _ & Esf & Epf & Elf & Edf & Eff).
  apply track_product_Ok in Hn as (Ern & _ & Esn & Epn & Eln & Edn & Efn).
  unfold filtered_of. rewrite Erf, Ern, Esf, Esn, Elf, Eln, Edf, Edn, Eff.
  repeat split; auto.
  refine (pm_update_lockstep (product_filtered wanted) _ _ _ _ _ _ _ _
            (product_filtered_source wanted _) Epf Epn).
  unfold with_product.
  rewrite (pm_has_keys _ _ _ (Forall2_keys _ _ _ Hpm)).
  destruct (pm_has (pi_product_id info) (product_map sn)); [exact Hpm|].
  apply Forall2_app; [exact Hpm|]. constructor; [|constructor].
  split; [reflexivity|]. repeat split; reflexivity.
Qed.

Lemma process_review_lockstep wanted pid sf sn r sf' sn' :
  wanted <> "" ->
  filtered_of wanted sf sn ->
  process_review (Some wanted) pid sf r = Ok sf' ->
  process_review None pid sn r = Ok sn' ->
  filtered_of wanted sf' sn'.
Proof.
  intros Hne (Hs & Hr & Hpm & Hl & Hd & Hc) Hf Hn.
  apply process_review_step in Hf as (_ & Elf & _ & Hf).
  apply process_review_step in Hn as (_ & Eln & _ & Hn).
  unfold filtered_of. rewrite Elf, Eln.
  destruct Hn as [Hdupn Ern Esn Epn Edn Efn | _ _ Hpass _ _ _ _ _
                 | rn Hlongn Hnewn _ Hsann Ern Esn Epn Edn Efn];
    [| discriminate Hpass |].
  - destruct Hf as [_ Erf Esf Epf Edf Eff | Hlong Hnew _ _ _ _ _ _
                   | rf Hlong Hnew _ _ _ _ _ _ _].
    + rewrite Erf, Ern, Esf, Esn, Epf, Epn, Edf, Edn, Eff. repeat split; auto.
    + destruct Hdupn as [Hshort | Hseen]; [congruence|].
      rewrite <- Hs in Hseen. contradiction.
    + destruct Hdupn as [Hshort | Hseen]; [congruence|].
      rewrite <- Hs in Hseen. contradiction.
  - destruct Hf as [Hdupf _ _ _ _ _ | _ _ Hpass Erf Esf Epf Edf Eff
                   | rf _ _ Hpass Hsanf Erf Esf Epf Edf Eff].
    + destruct Hdupf as [Hshort | Hseen]; [congruence|].
      rewrite Hs in Hseen. contradiction.
    + apply (passes_filter_matches _ _ _ Hne) in Hpass.
      assert (Hm : matches_filter wanted rn = false)
        by (rewrite (matches_filter_sanitized _ _ _ Hsann); exact Hpass).
      rewrite Erf, Ern, Esf, Esn, Epf, Edf, Edn, Eff, filter_snoc, Hm, app_nil_r, Hs.
      rewrite length_app; simpl. repeat split; auto; try lia.
      refine (pm_update_right (product_filtered wanted) pid (add_review rn) _ _ _ Hpm _ Epn).
      intros p q (Hi & Hnm & Hu & Hsrc & Hrev). unfold product_filtered; simpl.
      rewrite filter_snoc, Hm, app_nil_r. auto.
    + assert (rf = rn) by congruence. subst rf.
      apply (passes_filter_matches _ _ _ Hne) in Hpass.
      assert (Hm : matches_filter wanted rn = true)
        by (rewrite (matches_filter_sanitized _ _ _ Hsann); exact Hpass).
      rewrite Erf, Ern, Esf, Esn, Edf, Edn, Eff, filter_snoc, Hm, Hr, Hs.
      rewrite !length_app; simpl. repeat split; auto; try (rewrite Hr in Hc; lia).
      refine (pm_update_lockstep (product_filtered wanted) pid (add_review rn)
                (add_review rn) _ _ _ _ Hpm _ Epf Epn).
      intros p q (Hi & Hnm & Hu & Hsrc & Hrev). unfold product_filtered; simpl.
      rewrite filter_snoc, Hm, Hrev. auto.
Qed.

Lemma process_file_lockstep wanted f sf sn sf' sn' :
  wanted <> "" ->
  filtered_of wanted sf sn ->
  process_file (Some wanted) sf f = Ok sf' ->
  process_file None sn f = Ok sn' ->
  filtered_of wanted sf' sn'.
Proof.
  intros Hne HR Hf Hn. unfold process_file in Hf, Hn.
  destruct (snd f) as [data|]; [|congruence].
  destruct (truthy data); [|congruence].
  destruct (extract_reviews_from_json data (fst f)) as [[revs info]|e]; [|discriminate].
  cbn [bind] in Hf, Hn.
  destruct revs as [|r revs]; [congruence|].
  apply bind_Ok in Hf as (sf1 & Hf1 & Hf). apply bind_Ok in Hn as (sn1 & Hn1 & Hn).
  refine (foldM_lockstep (filtered_of wanted) _ _ (r :: revs) _ sf1 sn1 sf' sn'
            (track_product_lockstep _ _ _ _ _ _ _ HR Hf1 Hn1) Hf Hn).
  intros a b x a' b' _ Hab Ha Hb.
  exact (process_review_lockstep _ _ _ _ _ _ _ Hne Hab Ha Hb).
Qed.

Lemma filtered_of_init wanted : filtered_of wanted init init.
Proof. repeat split; constructor. Qed.

(** X6. The sentiment filter selects from what the unfiltered merge
    accepts: when both runs over the same files return, the filtered run
    accepts exactly the reviews of the unfiltered run whose sentiment
    matches, in the same order; its products are the same products, in the
    same order, with the same name, address and source files, each with its
    reviews filtered; the same texts are seen and as many duplicates are
    counted; and the filtered-out count is the number of reviews the filter
    took away. *)
Theorem filter_selects files wanted sf outf sn outn :
  wanted <> "" ->
  merge_files files (Some wanted) = Ok (sf, outf) ->
  merge_files files None = Ok (sn, outn) ->
  all_reviews sf = List.filter (matches_filter wanted) (all_reviews sn) /\
  Forall2 (product_filtered wanted) (products outf) (products outn) /\
  seen_review_texts sf = seen_review_texts sn /\
  total_reviews_loaded sf = total_reviews_loaded sn /\
  total_duplicates_removed sf = total_duplicates_removed sn /\
  total_filtered_out sf + length (all_reviews sf) = length (all_reviews sn).
Proof.
  intros Hne Hf Hn.
  pose proof (merged_products _ _ _ _ Hf) as (a & Ha & _ & _ & Epa & _).
  pose proof (merged_products _ _ _ _ Hn) as (b & Hb & _ & _ & Epb & _).
  apply merge_files_Ok in Hf as (a' & Ha' & Er1 & Es1 & _ & _ & El1 & Ed1 & Ef1 & _).
  apply merge_files_Ok in Hn as (b' & Hb' & Er2 & Es2 & _ & _ & El2 & Ed2 & Ef2 & _).
  assert (a' = a) by congruence. assert (b' = b) by congruence. subst a' b'.
  destruct (foldM_lockstep (filtered_of wanted) _ _ files
              (fun x y f x' y' _ => process_file_lockstep wanted f x y x' y' Hne)
              init init a b (filtered_of_init wanted) Ha Hb)
    as (Hs & Hr & Hpm & Hl & Hd & Hc).
  rewrite Er1, Er2, Es1, Es2, El1, El2, Ed1, Ed2, Ef1, Epa, Epb.
  repeat split; auto.
  clear - Hpm. induction Hpm as [|ea eb pa pb [_ HQ] _ IH]; simpl; constructor; auto.
Qed.

(** ** Nothing is lost without a filter *)

Lemma In_absorbed flt f files s0 s :
  In f files -> foldM (process_file flt) files s0 = Ok s -> absorbed f s.
Proof.
  intros Hin Hrun. apply in_split in Hin as (A & B & ->).
  rewrite foldM_app in Hrun. inv_bind Hrun. rewrite foldM_cons in Hrun. inv_bind Hrun.
  exact (run_absorbed flt f B a0 s (process_file_absorbs _ _ _ _ Ha0) Hrun).
Qed.

Lemma candidate_known flt files s0 s r :
  foldM (process_file flt) files s0 = Ok s ->
  candidate files r -> known s r.
Proof.
  intros Hrun (path & data & revs & info & Hf & Ht & Hext & Hr).
  pose proof (In_absorbed _ _ _ _ _ Hf Hrun) as Habs.
  unfold absorbed in Habs; simpl in Habs. rewrite Ht in Habs.
  destruct Habs as (revs' & info' & E & H). rewrite Hext in E. injection E as <- <-.
  destruct H as [-> | [_ Hall]]; [destruct Hr|].
  rewrite Forall_forall in Hall. apply Hall, list_elem_of_In, Hr.
Qed.

Lemma run_seen_accepted files self :
  foldM (process_file None) files init = Ok self ->
  forall k, k ∈ seen_review_texts self -> In k (map review_key (all_reviews self)).
Proof.
  apply (run_invariant
           (fun s => forall k, k ∈ seen_review_texts s ->
                               In k (map review_key (all_reviews s)))).
  - intros k Hk. apply elem_of_empty in Hk. destruct Hk.
  - intros path data revs info s s1 _ _ H Ht.
    apply track_product_Ok in Ht as (Er & _ & Es & _). rewrite Er, Es; exact H.
  - intros path data revs info s r s' _ _ _ H _ _ Hstep.
    destruct Hstep as [_ Er Es _ _ _ | _ _ Hpass _ _ _ _ _ | r' _ _ _ Hsan Er Es _ _ _].
    + rewrite Er, Es; exact H.
    + discriminate Hpass.
    + rewrite Er, Es. intros k Hk. rewrite map_app. apply in_or_app.
      apply elem_of_union in Hk as [Hk | Hk].
      * right. apply elem_of_singleton in Hk as ->.
        left. exact (sanitize_keeps_key _ _ Hsan).
      * left. apply H; exact Hk.
Qed.

(** X7. Without a sentiment filter no text is lost: for every review
    extracted from a loaded file whose text passes the length test, a review
    with the same normalized text is in the merge output. *)
Theorem unfiltered_merge_keeps_every_text files self out r :
  merge_files files None = Ok (self, out) ->
  candidate files r ->
  too_short (text_of r) = false ->
  In (review_key r) (map review_key (all_reviews self)) /\
  In (review_key r) (map review_key (output_reviews out)).
Proof.
  intros H Hc Hlong. pose proof (output_reviews_accepted _ _ _ _ H) as Hperm.
  assert (Hin : In (review_key r) (map review_key (all_reviews self))).
  { apply merged_products in H as (self0 & Hrun & -> & _).
    destruct (candidate_known _ _ _ _ _ Hrun Hc) as [_ [Hshort | Hseen]]; [congruence|].
    exact (run_seen_accepted _ _ Hrun _ Hseen). }
  split; [exact Hin|].
  apply list_elem_of_In. rewrite (Permutation_map review_key Hperm).
  apply list_elem_of_In; exact Hin.
Qed.

(** ** The sentiment counts *)

Lemma count_of_count_up (k k' : string) (d : list (string * nat)) :
  count_of k (count_up k' d) = (if String.eqb k k' then 1 else 0) + count_of k d.
Proof.
  induction d as [|[k0 n] d IH]; simpl.
  - destruct (String.eqb k k'); reflexivity.
  - destruct (String.eqb_spec k' k0) as [->|Hne]; simpl.
    + destruct (String.eqb k k0); reflexivity.
    + destruct (String.eqb_spec k k0) as [->|Hne'].
      * destruct (String.eqb_spec k0 k'); [congruence | reflexivity].
      * exact IH.
Qed.

Lemma total_count_up (k : string) (d : list (string * nat)) :
  total_count (count_up k d) = S (total_count d).
Proof.
  unfold total_count. induction d as [|[k0 n] d IH]; simpl; [reflexivity|].
  destruct (String.eqb k k0); simpl; [reflexivity|]. rewrite IH. lia.
Qed.

Lemma count_up_keys (k : string) (d : list (string * nat)) :
  NoDup (map fst d) ->
  (exists others, map fst (count_up k d) = map fst d ++ others) /\
  NoDup (map fst (count_up k d)).
Proof.
  induction d as [|[k0 n] d IH]; simpl; intros Hnd.
  - split; [exists [k]; reflexivity | apply NoDup_singleton].
  - apply NoDup_cons in Hnd as [Hk0 Hnd].
    destruct (String.eqb_spec k k0) as [->|Hne]; simpl.
    + split; [exists []; rewrite app_nil_r; reflexivity|].
      apply NoDup_cons; split; assumption.
    + destruct (IH Hnd) as [[others E] Hnd']. split.
      * exists others. rewrite E; reflexivity.
      * apply NoDup_cons; split; [|exact Hnd'].
        rewrite E. intros Hin. apply elem_of_app in Hin as [Hin | Hin]; [contradiction|].
        assert (Hall : forall x, x ∈ map fst (count_up k d) -> x ∈ map fst d \/ x = k).
        { clear. induction d as [|[k1 m] d IH]; simpl; intros x Hx.
          - apply list_elem_of_singleton in Hx. right; exact Hx.
          - destruct (String.eqb k k1); simpl in Hx.
            + left; exact Hx.
            + apply elem_of_cons in Hx as [-> | Hx]; [left; left|].
              destruct (IH x Hx) as [H | H]; [left; right; exact H | right; exact H]. }
        destruct (Hall k0) as [H | H]; [rewrite E; apply elem_of_app; right; exact Hin | |].
        -- contradiction.
        -- congruence.
Qed.

Lemma counts_fold (names : list string) (d : list (string * nat)) :
  NoDup (map fst d) ->
  (forall k, count_of k (fold_left (fun d0 k0 => count_up k0 d0) names d) =
             length (List.filter (String.eqb k) names) + count_of k d) /\
  total_count (fold_left (fun d0 k0 => count_up k0 d0) names d) =
    length names + total_count d /\
  (exists others,
      map fst (fold_left (fun d0 k0 => count_up k0 d0) names d) = map fst d ++ others) /\
  NoDup (map fst (fold_left (fun d0 k0 => count_up k0 d0) names d)).
Proof.
  revert d; induction names as [|n names IH]; intros d Hnd; simpl.
  - repeat split; auto. exists []; rewrite app_nil_r; reflexivity.
  - destruct (count_up_keys n d Hnd) as [[o1 E1] Hnd1].
    destruct (IH (count_up n d) Hnd1) as (Hc & Ht & [o2 E2] & Hnd2).
    repeat split.
    + intros k. rewrite Hc, count_of_count_up.
      destruct (String.eqb k n); simpl; lia.
    + rewrite Ht, total_count_up. lia.
    + exists (o1 ++ o2). rewrite E2, E1, app_assoc; reflexivity.
    + exact Hnd2.
Qed.

Lemma counted_sentiment_name (r : json) (n : string) :
  counted_sentiment r = Ok n -> n = sentiment_name r.
Proof.
  unfold counted_sentiment. intros H. inv_bind H.
  apply py_get_Ok in Ha as (d & -> & ->). simpl.
  destruct (Dict.get "sentiment" d) as [v|]; simpl in H.
  - destruct v as [| b | z | x | s | l | g]; simpl in H.
    + injection H as <-; reflexivity.
    + destruct b; simpl in H; [discriminate | injection H as <-; reflexivity].
    + destruct (negb (z =? 0)%Z); simpl in H;
        [discriminate | injection H as <-; reflexivity].
    + destruct (negb (PrimFloat.eqb x 0)); simpl in H;
        [discriminate | injection H as <-; reflexivity].
    + destruct (String.eqb s ""); simpl in H; injection H as <-; reflexivity.
    + destruct l; simpl in H; [injection H as <-; reflexivity | discriminate].
    + destruct g; simpl in H; [injection H as <-; reflexivity | discriminate].
  - injection H as <-; reflexivity.
Qed.

Lemma traverse_map {A B : Type} (f : A -> result B) (g : A -> B) (l : list A) (ys : list B) :
  (forall x y, f x = Ok y -> y = g x) ->
  traverse f l = Ok ys -> ys = map g l.
Proof.
  intros Hf. revert ys; induction l as [|x l IH]; intros ys H; simpl in H.
  - injection H as <-; reflexivity.
  - inv_bind H. inv_bind H. injection H as <-.
    simpl. rewrite (Hf _ _ Ha), (IH _ Ha0); reflexivity.
Qed.

Lemma filter_map_length {A B : Type} (p : B -> bool) (g : A -> B) (l : list A) :
  length (List.filter p (map g l)) = length (List.filter (fun x => p (g x)) l).
Proof.
  induction l as [|x l IH]; simpl; [reflexivity|].
  destruct (p (g x)); simpl; rewrite IH; reflexivity.
Qed.

Lemma build_combined_data_sentiments self flt out :
  build_combined_data self flt = Ok out ->
  sentiment_distribution (stats out) =
  fold_left (fun d k => count_up k d) (map sentiment_name (all_reviews self))
            [("positive", 0); ("negative", 0); ("neutral", 0); ("unknown", 0)].
Proof.
  unfold build_combined_data; intros H.
  inv_bind H. rename a into names. rename Ha into Hnames.
  do 5 inv_bind H. injection H as <-; simpl.
  rewrite (traverse_map _ _ _ _ counted_sentiment_name Hnames); reflexivity.
Qed.

(** X8. In the statistics of a merge output the count stored for a
    sentiment is the number of accepted reviews with that sentiment, taken
    in lowercase, a review without sentiment or with an empty one counting
    as "unknown"; the counts add up to [total_reviews]; and the four names
    positive, negative, neutral and unknown come first, in this order,
    whatever the reviews hold, no name twice. *)
Theorem sentiment_counts files flt self out :
  merge_files files flt = Ok (self, out) ->
  (forall k, count_of k (sentiment_distribution (stats out)) =
             length (List.filter (fun r => String.eqb k (sentiment_name r))
                                 (all_reviews self))) /\
  total_count (sentiment_distribution (stats out)) = total_reviews out /\
  (exists others,
      map fst (sentiment_distribution (stats out)) =
      ["positive"; "negative"; "neutral"; "unknown"] ++ others) /\
  NoDup (map fst (sentiment_distribution (stats out))).
Proof.
  intros H.
  apply merge_files_Ok in H as (self0 & _ & _ & _ & _ & _ & _ & _ & _ & Hout).
  pose proof (build_combined_data_products _ _ _ Hout) as (_ & _ & Etr & _).
  rewrite (build_combined_data_sentiments _ _ _ Hout), Etr.
  destruct (counts_fold (map sentiment_name (all_reviews self))
              [("positive", 0); ("negative", 0); ("neutral", 0); ("unknown", 0)])
    as (Hc & Ht & Hk & Hnd).
  { simpl. repeat (constructor; [rewrite list_elem_of_In; simpl; intuition discriminate|]).
    constructor. }
  repeat split; auto.
  - intros k. rewrite Hc, filter_map_length.
    assert (H0 : count_of k [("positive", 0); ("negative", 0); ("neutral", 0);
                             ("unknown", 0)] = 0)
      by (simpl; repeat match goal with
                        | |- context [String.eqb k ?x] => destruct (String.eqb k x)
                        end; reflexivity).
    rewrite H0. lia.
  - rewrite Ht, length_map. unfold total_count; simpl. lia.
Qed.

(** ** Texts that differ by case and outer blanks *)

Lemma lstrip_blank (s : string) : all_blank s = true -> PyStr.lstrip s = EmptyString.
Proof.
  induction s as [|c r IH]; simpl; [reflexivity|].
  intros H. apply andb_prop in H as [Hc Hr]. rewrite Hc. exact (IH Hr).
Qed.

Lemma rstrip_blank (s : string) : all_blank s = true -> PyStr.rstrip s = EmptyString.
Proof.
  induction s as [|c r IH]; simpl; [reflexivity|].
  intros H. apply andb_prop in H as [Hc Hr]. rewrite (IH Hr), Hc. reflexivity.
Qed.

Lemma lstrip_app (s post : string) :
  PyStr.lstrip (String.append s post) =
  if all_blank s then PyStr.lstrip post else String.append (PyStr.lstrip s) post.
Proof.
  induction s as [|c r IH]; simpl; [reflexivity|].
  destruct (PyStr.is_space c); simpl; [exact IH | reflexivity].
Qed.

Lemma rstrip_app_blank (s post : string) :
  all_blank post = true -> PyStr.rstrip (String.append s post) = PyStr.rstrip s.
Proof.
  intros H. induction s as [|c r IH]; simpl; [exact (rstrip_blank _ H)|].
  rewrite IH; reflexivity.
Qed.

Lemma strip_padded (pre s post : string) :
  all_blank pre = true -> all_blank post = true ->
  PyStr.strip (String.append pre (String.append s post)) = PyStr.strip s.
Proof.
  intros Hpre Hpost. unfold PyStr.strip.
  rewrite lstrip_app, Hpre, lstrip_app.
  destruct (all_blank s) eqn:Es.
  - rewrite (lstrip_blank _ Hpost), (lstrip_blank _ Es); reflexivity.
  - apply rstrip_app_blank; exact Hpost.
Qed.

Lemma is_space_lower (c : ascii) : PyStr.is_space (PyStr.lower_char c) = PyStr.is_space c.
Proof. destruct c as [[] [] [] [] [] [] [] []]; reflexivity. Qed.

Lemma lstrip_lower (s : string) :
  PyStr.lstrip (PyStr.lower s) = PyStr.lower (PyStr.lstrip s).
Proof.
  unfold PyStr.lower. induction s as [|c r IH]; simpl; [reflexivity|].
  rewrite is_space_lower. destruct (PyStr.is_space c); [exact IH | reflexivity].
Qed.

Lemma rstrip_lower (s : string) :
  PyStr.rstrip (PyStr.lower s) = PyStr.lower (PyStr.rstrip s).
Proof.
  unfold PyStr.lower. induction s as [|c r IH]; simpl; [reflexivity|].
  rewrite IH, is_space_lower.
  destruct (PyStr.rstrip r) as [|c' r']; simpl; [|reflexivity].
  destruct (PyStr.is_space c); reflexivity.
Qed.

Lemma strip_lower (s : string) :
  PyStr.strip (PyStr.lower s) = PyStr.lower (PyStr.strip s).
Proof. unfold PyStr.strip. rewrite lstrip_lower, rstrip_lower; reflexivity. Qed.

Lemma normalize_variant (pre s s' post : string) :
  all_blank pre = true -> all_blank post = true ->
  PyStr.lower s' = PyStr.lower s ->
  normalize (JStr (String.append pre (String.append s' post))) = normalize (JStr s).
Proof.
  intros Hpre Hpost Hlow. unfold normalize; simpl.
  rewrite (strip_padded _ _ _ Hpre Hpost), <- !strip_lower, Hlow. reflexivity.
Qed.

(** X9. The duplicate check looks neither at the case of ASCII letters
    nor at white space around the text: once a text of at least 10
    characters has been checked, every text made of the same characters up
    to case, with any white space put before and after it, is reported as a
    duplicate and the set of seen texts is left as it is. The text itself,
    checked again, is such a text. *)
Theorem duplicate_check_ignores_case_and_blanks seen s s' pre post :
  10 <= String.length s ->
  all_blank pre = true ->
  all_blank post = true ->
  PyStr.lower s' = PyStr.lower s ->
  is_duplicate_review (snd (is_duplicate_review seen (JStr s)))
                      (JStr (String.append pre (String.append s' post))) =
  (true, snd (is_duplicate_review seen (JStr s))).
Proof.
  intros Hlen Hpre Hpost Hlow.
  assert (Hlong : too_short (JStr s) = false).
  { unfold too_short; simpl. destruct s as [|c r]; [simpl in Hlen; lia|].
    simpl. apply Nat.ltb_ge. exact Hlen. }
  assert (Hseen : normalize (JStr s) ∈ snd (is_duplicate_review seen (JStr s))).
  { unfold is_duplicate_review. rewrite Hlong.
    destruct (bool_decide (normalize (JStr s) ∈ seen)) eqn:E; simpl.
    - apply bool_decide_eq_true in E; exact E.
    - apply elem_of_union_l, elem_of_singleton; reflexivity. }
  unfold is_duplicate_review at 1.
  destruct (too_short (JStr (String.append pre (String.append s' post)))); [reflexivity|].
  rewrite (normalize_variant _ _ _ _ Hpre Hpost Hlow).
  rewrite bool_decide_eq_true_2 by exact Hseen. reflexivity.
Qed.

(** ** The id found in a file name *)

Lemma digits_prefix_digits (s : string) : all_digits (PyStr.digits_prefix s) = true.
Proof.
  induction s as [|c r IH]; simpl; [reflexivity|].
  destruct (PyStr.is_digit c) eqn:E; simpl; [rewrite E; exact IH | reflexivity].
Qed.

Lemma digits_prefix_split (s : string) :
  s = String.append (PyStr.digits_prefix s)
                    (PyStr.drop (String.length (PyStr.digits_prefix s)) s).
Proof.
  induction s as [|c r IH]; simpl; [reflexivity|].
  destruct (PyStr.is_digit c); simpl; [exact (f_equal (String c) IH) | reflexivity].
Qed.

Lemma digits_prefix_app (ds post : string) :
  all_digits ds = true ->
  PyStr.digits_prefix (String.append ds (String "_" post)) = ds.
Proof.
  induction ds as [|c r IH]; simpl; [reflexivity|].
  intros H. apply andb_prop in H as [Hc Hr]. rewrite Hc, (IH Hr); reflexivity.
Qed.

Lemma drop_app (ds post : string) :
  PyStr.drop (String.length ds) (String.append ds post) = post.
Proof.
  induction ds as [|c r IH]; simpl; [destruct post; reflexivity | exact IH].
Qed.

Lemma starts_with_underscore (s : string) :
  PyStr.starts_with "_" s = true -> exists post, s = String "_" post.
Proof.
  destruct s as [|c r]; [discriminate|].
  intros H. cbn [PyStr.starts_with] in H.
  apply andb_prop in H as [Hc _]. apply Ascii.eqb_eq in Hc. subst c.
  exists r; reflexivity.
Qed.

Lemma search_id_sound (s ds : string) :
  search_id s = Some ds ->
  all_digits ds = true /\ 8 <= String.length ds /\
  exists pre post,
    s = String.append pre (String "_" (String.append ds (String "_" post))).
Proof.
  induction s as [|c r IH]; [discriminate|].
  cbn [search_id]. intros H.
  assert (Hrest : search_id r = Some ds ->
                  all_digits ds = true /\ 8 <= String.length ds /\
                  exists pre post,
                    String c r =
                    String.append pre (String "_" (String.append ds (String "_" post)))).
  { intros Hr. destruct (IH Hr) as (Hd & Hl & pre & post & E).
    repeat split; auto. exists (String c pre), post.
    exact (f_equal (String c) E). }
  destruct (Ascii.eqb c "_") eqn:Ec; [|exact (Hrest H)].
  destruct ((8 <=? String.length (PyStr.digits_prefix r))%nat &&
            PyStr.starts_with "_"
              (PyStr.drop (String.length (PyStr.digits_prefix r)) r)) eqn:Econd;
    [|exact (Hrest H)].
  injection H as <-. apply andb_prop in Econd as [Hlen Hnext].
  apply Nat.leb_le in Hlen. apply starts_with_underscore in Hnext as [post Hpost].
  apply Ascii.eqb_eq in Ec. subst c.
  repeat split; [apply digits_prefix_digits | exact Hlen |].
  exists EmptyString, post.
  change (String "_" r =
          String "_" (String.append (PyStr.digits_prefix r) (String "_" post))).
  f_equal. rewrite <- Hpost. apply digits_prefix_split.
Qed.

Lemma search_id_complete (pre ds post : string) :
  all_digits ds = true -> 8 <= String.length ds ->
  exists ds',
    search_id (String.append pre (String "_" (String.append ds (String "_" post))))
    = Some ds'.
Proof.
  intros Hd Hl. induction pre as [|c pre IH].
  - change (exists ds',
               search_id (String "_" (String.append ds (String "_" post))) = Some ds').
    cbn [search_id]. rewrite Ascii.eqb_refl, (digits_prefix_app _ _ Hd), drop_app.
    apply Nat.leb_le in Hl. rewrite Hl. cbn [PyStr.starts_with].
    rewrite Ascii.eqb_refl. simpl. eauto.
  - destruct IH as [ds' E].
    change (exists ds0,
               search_id (String c (String.append pre
                                      (String "_" (String.append ds (String "_" post)))))
               = Some ds0).
    cbn [search_id]. rewrite E.
    destruct (Ascii.eqb c "_"); [|eauto].
    match goal with |- context [if ?b then _ else _] => destruct b end; eauto.
Qed.

(** X10. The search for an id in the file path succeeds exactly when the
    path holds, in a row, an underscore, eight digits or more, and an
    underscore; what it returns is such a run of digits that stands between
    two underscores of the path. *)
Theorem file_name_id (path : string) :
  (forall ds, search_id path = Some ds ->
              all_digits ds = true /\ 8 <= String.length ds /\
              exists pre post,
                path = String.append pre
                         (String "_" (String.append ds (String "_" post)))) /\
  (forall pre ds post,
      all_digits ds = true -> 8 <= String.length ds ->
      path = String.append pre (String "_" (String.append ds (String "_" post))) ->
      exists ds', search_id path = Some ds').
Proof.
  split.
  - intros ds H. exact (search_id_sound _ _ H).
  - intros pre ds post Hd Hl ->. exact (search_id_complete _ _ _ Hd Hl).
Qed.

(** ** The identity of a document *)

Lemma review_id_nonempty (r : json) (i : string) : review_id r = Some i -> i <> "".
Proof.
  unfold review_id. destruct r as [| | | | | |d]; try discriminate.
  destruct (Dict.get "product_id" d) as [v|]; [|discriminate].
  destruct (truthy v); simpl; [|discriminate].
  destruct (String.eqb_spec (py_str v) ""); simpl; [discriminate|].
  intros [= <-]. assumption.
Qed.

Lemma first_review_id_nonempty (revs : list json) (i : string) :
  first_review_id revs = Some i -> i <> "".
Proof.
  induction revs as [|r revs IH]; simpl; [discriminate|].
  destruct (review_id r) as [j|] eqn:E; [|exact IH].
  intros [= <-]. exact (review_id_nonempty _ _ E).
Qed.

Lemma no_id_Some (i : string) : i <> "" -> no_id (Some i) = false.
Proof. intros H. simpl. destruct (String.eqb_spec i ""); [contradiction | reflexivity]. Qed.

(** The id after the loop over the reviews. *)
Lemma stamp_loop_id (base : string) (raw : list json) :
  forall acc pid revs pid',
    foldM (stamp_review base) raw (acc, pid) = Ok (revs, pid') ->
    exists news,
      revs = acc ++ news /\
      (no_id pid = false -> pid' = pid) /\
      (no_id pid = true ->
       match first_review_id news with
       | Some i => pid' = Some i
       | None => no_id pid' = true
       end).
Proof.
  induction raw as [|r raw IH]; intros acc pid revs pid' H; simpl in H.
  - injection H as <- <-. exists []. rewrite app_nil_r. repeat split; auto.
  - inv_bind H. destruct a as [acc1 pid1].
    destruct r as [| | | | | |d]; try discriminate. simpl in Ha.
    injection Ha as <- <-.
    destruct (IH _ _ _ _ H) as (news & -> & Hkeep & Hfirst).
    set (d' := Dict.set "source_file" (JStr base) d) in *.
    exists (JDict d' :: news). split; [rewrite <- app_assoc; reflexivity|].
    simpl. destruct (Dict.get "product_id" d') as [v|] eqn:Ev.
    + destruct (no_id pid) eqn:Epid.
      * rewrite andb_true_r in Hkeep, Hfirst. split; [discriminate|]. intros _.
        destruct (truthy v) eqn:Et; simpl in *.
        -- destruct (String.eqb_spec (py_str v) "") as [E0|Hne]; simpl.
           ++ apply Hfirst; first [reflexivity | rewrite E0; reflexivity].
           ++ apply Hkeep; first [reflexivity | apply no_id_Some; exact Hne].
        -- apply Hfirst; exact Epid.
      * rewrite andb_false_r in Hkeep, Hfirst. split; [|discriminate].
        intros _. apply Hkeep; exact Epid.
    + split; [exact Hkeep|]. intros Epid. apply Hfirst; exact Epid.
Qed.

Lemma extract_identity data path revs info :
  extract_reviews_from_json data path = Ok (revs, info) ->
  exists pid,
    info = resolve_identity path
             {| pi_product_id := pid;
                pi_product_name := pi_product_name (document_info data path);
                pi_product_url := pi_product_url (document_info data path);
                pi_source_file := pi_source_file (document_info data path) |} /\
    (no_id (pi_product_id (document_info data path)) = false ->
     pid = pi_product_id (document_info data path)) /\
    (no_id (pi_product_id (document_info data path)) = true ->
     match first_review_id revs with
     | Some i => pid = Some i
     | None => no_id pid = true
     end).
Proof.
  unfold extract_reviews_from_json. cbv zeta. intros H.
  inv_bind H. rename a into raw. inv_bind H. destruct a as [revs0 pid].
  injection H as <- <-. exists pid. split; [reflexivity|].
  destruct (stamp_loop_id _ _ _ _ _ _ Ha0) as (news & E & Hkeep & Hfirst).
  simpl in E. subst news. split; assumption.
Qed.

(** X11. The identity of a document is resolved in this order, the first
    that succeeds being taken: the [product_id] of the document when its
    text is not empty; else the [product_id] of the first review that has a
    true one; else the run of eight digits or more found between two
    underscores of the file path; else GROUP_ followed by the cleaned file
    name, and only then a missing or false product name becomes the
    cleaned name in title case. The id is never null and never empty. *)
Theorem identity_resolution data path revs info :
  extract_reviews_from_json data path = Ok (revs, info) ->
  (no_id (pi_product_id (document_info data path)) = false ->
   pi_product_id info = pi_product_id (document_info data path) /\
   pi_product_name info = pi_product_name (document_info data path)) /\
  (no_id (pi_product_id (document_info data path)) = true ->
   forall i, first_review_id revs = Some i ->
             pi_product_id info = Some i /\
             pi_product_name info = pi_product_name (document_info data path)) /\
  (no_id (pi_product_id (document_info data path)) = true ->
   first_review_id revs = None ->
   forall ds, search_id path = Some ds ->
              pi_product_id info = Some ds /\
              pi_product_name info = pi_product_name (document_info data path)) /\
  (no_id (pi_product_id (document_info data path)) = true ->
   first_review_id revs = None ->
   search_id path = None ->
   pi_product_id info = Some (String.append "GROUP_" (clean_name path)) /\
   pi_product_name info =
     if truthy (pi_product_name (document_info data path))
     then pi_product_name (document_info data path)
     else JStr (PyStr.title (PyStr.replace_char "_" " " (clean_name path)))) /\
  (exists i, pi_product_id info = Some i /\ i <> "").
Proof.
  intros H. destruct (extract_identity _ _ _ _ H) as (pid & -> & Hdoc & Hrev).
  unfold resolve_identity; cbn [pi_product_id pi_product_name].
  destruct (no_id (pi_product_id (document_info data path))) eqn:Edoc.
  - specialize (Hrev eq_refl). clear Hdoc.
    destruct (first_review_id revs) as [i|] eqn:Efirst.
    + subst pid. pose proof (first_review_id_nonempty _ _ Efirst) as Hne.
      rewrite (no_id_Some _ Hne). cbn [pi_product_id pi_product_name].
      split; [intros E; discriminate E|].
      split; [intros _ j [= <-]; split; reflexivity|].
      split; [intros _ E; discriminate E|].
      split; [intros _ E; discriminate E|].
      exists i; split; [reflexivity | exact Hne].
    + rewrite Hrev. destruct (search_id path) as [ds|] eqn:Es; cbn [pi_product_id pi_product_name].
      * split; [intros E; discriminate E|].
        split; [intros _ j E; discriminate E|].
        split; [intros _ _ ds' [= <-]; split; reflexivity|].
        split; [intros _ _ E; discriminate E|].
        exists ds; split; [reflexivity|].
        destruct (search_id_sound _ _ Es) as (_ & Hl & _).
        intros ->. simpl in Hl. lia.
      * split; [intros E; discriminate E|].
        split; [intros _ j E; discriminate E|].
        split; [intros _ _ ds' E; discriminate E|].
        split; [intros _ _ _; split; reflexivity|].
        exists (String.append "GROUP_" (clean_name path)); split; [reflexivity|].
        discriminate.
  - rewrite (Hdoc eq_refl), Edoc. cbn [pi_product_id pi_product_name].
    split; [intros _; split; reflexivity|].
    split; [intros E; discriminate E|].
    split; [intros E; discriminate E|].
    split; [intros E; discriminate E|].
    destruct (pi_product_id (document_info data path)) as [i|]; [|discriminate].
    exists i; split; [reflexivity|]. intros ->. discriminate.
Qed.

(** ** The columns of the CSV file *)

Lemma fieldnames_from (revs : list json) (acc names : gset string) :
  foldM (fun (acc : gset string) r => ks <- review_keys r;; Ok (list_to_set ks ∪ acc))
        revs acc = Ok names ->
  forall f, f ∈ names <->
            f ∈ acc \/ exists d, In (JDict d) revs /\ In f (Dict.keys d).
Proof.
  revert acc; induction revs as [|r revs IH]; intros acc H f; simpl in H.
  - injection H as <-. split; [auto | intros [H | (d & [] & _)]; exact H].
  - inv_bind H. inv_bind Ha. rename a0 into ks. injection Ha as <-.
    destruct r as [| | | | | |d]; try discriminate. injection Ha0 as <-.
    rewrite (IH _ H f). rewrite elem_of_union, elem_of_list_to_set, list_elem_of_In.
    split.
    + intros [[Hk | Ha] | (d' & Hd' & Hk)].
      * right. exists d; split; [left; reflexivity | exact Hk].
      * left; exact Ha.
      * right. exists d'; split; [right; exact Hd' | exact Hk].
    + intros [Ha | (d' & [E | Hd'] & Hk)].
      * left; right; exact Ha.
      * injection E as <-. left; left; exact Hk.
      * right. exists d'; split; assumption.
Qed.

Lemma fieldnames_of_spec (revs : list json) (names : gset string) :
  fieldnames_of revs = Ok names ->
  forall f, f ∈ names <-> exists d, In (JDict d) revs /\ In f (Dict.keys d).
Proof.
  intros H f. rewrite (fieldnames_from _ _ _ H f). split; [|auto].
  intros [H0 | H0]; [apply elem_of_empty in H0; destruct H0 | exact H0].
Qed.

Lemma filter_elem {A : Type} (p : A -> bool) (l : list A) (x : A) :
  x ∈ List.filter p l <-> x ∈ l /\ p x = true.
Proof. rewrite !list_elem_of_In. apply filter_In. Qed.

Lemma NoDup_filter_bool {A : Type} (p : A -> bool) (l : list A) :
  NoDup l -> NoDup (List.filter p l).
Proof.
  induction 1 as [|x l Hx Hnd IH]; simpl; [constructor|].
  destruct (p x); [|exact IH].
  constructor; [|exact IH]. intros Hin. apply filter_elem in Hin as [Hin _]. contradiction.
Qed.

Lemma NoDup_preferred_order : NoDup preferred_order.
Proof.
  unfold preferred_order.
  repeat (constructor; [rewrite list_elem_of_In; simpl; intuition discriminate|]).
  constructor.
Qed.

(** The preferred fields that occur, then the other fields: the facts hold
    for any list of preferred fields without a repetition. *)
Lemma ordered_fields (pref : list string) (order : list string) (names : gset string) :
  NoDup pref ->
  order ≡ₚ elements names ->
  let fields := List.filter (fun f => bool_decide (f ∈ names)) pref ++
                List.filter (fun f => negb (existsb (String.eqb f) pref)) order in
  NoDup fields /\
  (forall f, In f fields <-> f ∈ names) /\
  List.filter (fun f => bool_decide (f ∈ names)) pref =
  List.filter (fun f => existsb (String.eqb f) fields) pref /\
  Forall (fun f => ~ In f pref)
         (List.filter (fun f => negb (existsb (String.eqb f) pref)) order).
Proof.
  intros Hpref Horder fields.
  assert (Hord : forall f, f ∈ order <-> f ∈ names).
  { intros f. rewrite Horder. apply elem_of_elements. }
  assert (Hmem : forall f, In f fields <-> f ∈ names).
  { intros f. subst fields. rewrite <- list_elem_of_In, elem_of_app, !filter_elem. split.
    - intros [[_ H1] | [H1 _]]; [apply bool_decide_eq_true in H1; exact H1|].
      apply Hord; exact H1.
    - intros Hf. destruct (existsb (String.eqb f) pref) eqn:Ep.
      + left. split; [apply list_elem_of_In, existsb_eqb_In; exact Ep|].
        apply bool_decide_eq_true; exact Hf.
      + right. split; [apply Hord; exact Hf | reflexivity]. }
  split; [|split; [exact Hmem|split]].
  - subst fields. apply NoDup_app. repeat split.
    + apply NoDup_filter_bool, Hpref.
    + intros f H1 H2. apply filter_elem in H1 as [H1 _]. apply filter_elem in H2 as [_ H2].
      apply list_elem_of_In, existsb_eqb_In in H1. rewrite H1 in H2. discriminate.
    + apply NoDup_filter_bool. rewrite Horder. apply NoDup_elements.
  - apply filter_ext. intros f.
    destruct (bool_decide (f ∈ names)) eqn:Eb.
    + apply bool_decide_eq_true in Eb. symmetry. apply existsb_eqb_In, Hmem, Eb.
    + apply bool_decide_eq_false in Eb. symmetry.
      destruct (existsb (String.eqb f) fields) eqn:Ex; [|reflexivity].
      apply existsb_eqb_In, Hmem in Ex. contradiction.
  - apply Forall_forall. intros f Hf. apply filter_elem in Hf as [_ Hf].
    intros Hin. apply existsb_eqb_In in Hin. rewrite Hin in Hf. discriminate.
Qed.

Lemma final_fields_spec (set_order : gset string -> list string) (names : gset string) :
  (forall X, set_order X ≡ₚ elements X) ->
  NoDup (final_fields set_order names) /\
  (forall f, In f (final_fields set_order names) <-> f ∈ names) /\
  exists others,
    final_fields set_order names =
      List.filter (fun f => existsb (String.eqb f) (final_fields set_order names))
                  preferred_order ++ others /\
    Forall (fun f => ~ In f preferred_order) others.
Proof.
  intros Horder.
  pose proof (ordered_fields preferred_order (set_order names) names
                NoDup_preferred_order (Horder names)) as H.
  cbv zeta in H. fold (preferred) in H.
  change (List.filter (fun f => bool_decide (f ∈ names)) preferred_order ++
          List.filter (fun f => negb (existsb (String.eqb f) preferred_order))
                      (set_order names))
    with (final_fields set_order names) in H.
  destruct H as (Hnd & Hmem & Epref & Hothers).
  split; [exact Hnd|]. split; [exact Hmem|].
  exists (List.filter (fun f => negb (existsb (String.eqb f) preferred_order))
                      (set_order names)).
  split; [|exact Hothers].
  rewrite <- Epref. reflexivity.
Qed.

Lemma csv_fields_Some (set_order : gset string -> list string) (revs : list json)
      (fields : list string) :
  csv_fields set_order revs = Ok (Some fields) ->
  exists names, fieldnames_of revs = Ok names /\ fields = final_fields set_order names.
Proof.
  unfold csv_fields. destruct revs as [|r revs]; [discriminate|].
  destruct (fieldnames_of (r :: revs)) as [names|e]; cbn [bind]; [|discriminate].
  intros H. exists names. split; [reflexivity|]. congruence.
Qed.

(** X12. The columns of the CSV file: when there is a review, every key
    that occurs in some review is a column and every column is such a key,
    no column comes twice, and the columns named in the preferred order come
    first, in that order, before the other keys, in whatever order the set
    of keys is read. *)
Theorem csv_columns (set_order : gset string -> list string) (revs : list json)
        (fields : list string) :
  (forall X, set_order X ≡ₚ elements X) ->
  csv_fields set_order revs = Ok (Some fields) ->
  NoDup fields /\
  (forall f, In f fields <-> exists d, In (JDict d) revs /\ In f (Dict.keys d)) /\
  exists others,
    fields = List.filter (fun f => existsb (String.eqb f) fields) preferred_order ++ others /\
    Forall (fun f => ~ In f preferred_order) others.
Proof.
  intros Horder H.
  destruct (csv_fields_Some _ _ _ H) as (names & Hnames & ->).
  destruct (final_fields_spec set_order names Horder) as (Hnd & Hmem & Hothers).
  split; [exact Hnd|]. split; [|exact Hothers].
  intros f. rewrite (Hmem f). apply (fieldnames_of_spec _ _ Hnames).
Qed.

Lemma get_Some_keys (k : string) (d : list (string * json)) (v : json) :
  Dict.get k d = Some v -> In k (Dict.keys d).
Proof.
  unfold Dict.keys. induction d as [|[k' v'] d IH]; simpl; [discriminate|].
  destruct (String.eqb_spec k k') as [->|Hne]; [left; reflexivity|].
  intros H; right; exact (IH H).
Qed.

Lemma traverse_length {A B : Type} (f : A -> result B) (l : list A) (l' : list B) :
  traverse f l = Ok l' -> length l' = length l.
Proof.
  revert l'. induction l as [|x l IH]; intros l' H; simpl in H.
  - injection H as <-; reflexivity.
  - inv_bind H. inv_bind H. injection H as <-. simpl. rewrite (IH _ Ha0); reflexivity.
Qed.

Lemma csv_row_total (fields : list string) (d : list (string * json)) :
  exists row, csv_row fields (JDict d) = Ok row /\ length row = length fields.
Proof.
  unfold csv_row.
  destruct (traverse_total (fun f => py_get (JDict d) f (JStr "")) (fun _ => True) fields)
    as (row & E & _).
  { intros f _. eexists; split; [reflexivity | exact I]. }
  exists row; split; [exact E | exact (traverse_length _ _ _ E)].
Qed.

Lemma fieldnames_total (revs : list json) (acc : gset string) :
  Forall (fun r => exists d, r = JDict d) revs ->
  exists names,
    foldM (fun (acc : gset string) r => ks <- review_keys r;; Ok (list_to_set ks ∪ acc))
          revs acc = Ok names.
Proof.
  intros H. revert acc. induction H as [|r revs [d ->] _ IH]; intros acc; simpl; [eauto|].
  apply IH.
Qed.

(** What the accepted reviews are for the CSV file: objects with a text
    and the name of their file. *)
Lemma run_writable flt files self :
  foldM (process_file flt) files init = Ok self ->
  Forall (fun r => exists d, r = JDict d /\
                             In "review_text" (Dict.keys d) /\
                             In "source_file" (Dict.keys d)) (all_reviews self).
Proof.
  intros Hrun.
  pose proof (run_long_enough _ _ _ Hrun) as Hlong.
  pose proof (run_sanitized _ _ _ Hrun) as Hsan.
  rewrite Forall_forall in Hlong, Hsan. apply Forall_forall. intros r' Hr'.
  specialize (Hlong r' Hr').
  destruct (Hsan r' Hr') as (path & data & revs & info & r & _ & Hext & Hr & Hs & _).
  destruct (extract_stamped _ _ _ _ Hext) as [_ Hall]. rewrite Forall_forall in Hall.
  specialize (Hall r (proj2 (list_elem_of_In _ _) Hr)).
  rewrite <- (sanitize_keeps_source _ _ Hs) in Hall.
  apply sanitize_rating_Ok in Hs as (d & -> & Hd).
  assert (Hd' : exists d', r' = JDict d')
    by (destruct Hd as [-> | [v ->]]; eauto).
  destruct Hd' as [d' ->]. exists d'. split; [reflexivity|]. split.
  - unfold too_short in Hlong. apply orb_false_elim in Hlong as [Ht _].
    apply negb_false_iff in Ht. simpl in Ht.
    destruct (Dict.get "review_text" d') as [v|] eqn:Ev; [|discriminate].
    exact (get_Some_keys _ _ _ Ev).
  - simpl in Hall. exact (get_Some_keys _ _ _ Hall).
Qed.

(** X13. The CSV file of a merge: nothing is written when no review was
    accepted; otherwise the table has one row for each accepted review, in
    their order, every row has one cell for each column, and review_text
    and source_file are among the columns. *)
Theorem csv_of_merge (set_order : gset string -> list string) files flt self out :
  (forall X, set_order X ≡ₚ elements X) ->
  merge_files files flt = Ok (self, out) ->
  (all_reviews self = [] -> csv_table set_order (all_reviews self) = Ok None) /\
  (all_reviews self <> [] ->
   exists fields rows,
     csv_table set_order (all_reviews self) = Ok (Some (fields, rows)) /\
     In "review_text" fields /\ In "source_file" fields /\
     length rows = length (all_reviews self) /\
     Forall (fun row => length row = length fields) rows).
Proof.
  intros Horder H. split; [intros ->; reflexivity|]. intros Hne.
  apply merged_products in H as (self0 & Hrun & Er & _). rewrite Er in Hne |- *. clear Er.
  pose proof (run_writable _ _ _ Hrun) as Hw.
  destruct (fieldnames_total (all_reviews self0) ∅) as [names Hnames].
  { eapply Forall_impl; [exact Hw|]. intros r (d & -> & _); eauto. }
  assert (Hf : csv_fields set_order (all_reviews self0) =
               Ok (Some (final_fields set_order names))).
  { unfold csv_fields, fieldnames_of. destruct (all_reviews self0); [contradiction|].
    rewrite Hnames; cbn [bind]; reflexivity. }
  destruct (final_fields_spec set_order names Horder) as (_ & Hmem & _).
  revert Hf Hmem. generalize (final_fields set_order names). intros fields Hf Hmem.
  destruct (traverse_total (csv_row fields) (fun row => length row = length fields)
              (all_reviews self0)) as (rows & Hrows & Hall).
  { intros r Hr. rewrite Forall_forall in Hw.
    destruct (Hw r (proj2 (list_elem_of_In _ _) Hr)) as (d & -> & _).
    apply csv_row_total. }
  exists fields, rows. unfold csv_table. rewrite Hf. cbn [bind]. rewrite Hrows. cbn [bind].
  split; [reflexivity|].
  destruct (all_reviews self0) as [|r0 rest] eqn:Erevs; [contradiction|].
  apply Forall_cons_1 in Hw as [(d & -> & Htext & Hsrc) _].
  assert (Hin : forall f, In f (Dict.keys d) -> In f fields).
  { intros f Hk. apply Hmem. apply (fieldnames_from _ _ _ Hnames f).
    right. exists d; split; [left; reflexivity | exact Hk]. }
  split; [exact (Hin _ Htext)|]. split; [exact (Hin _ Hsrc)|].
  split; [exact (traverse_length _ _ _ Hrows) | exact Hall].
Qed.

(** ** The averages *)

Lemma run_in_range flt files self :
  foldM (process_file flt) files init = Ok self ->
  Forall rating_in_range (all_reviews self).
Proof.
  intros Hrun. eapply Forall_impl; [exact (run_sanitized _ _ _ Hrun)|].
  intros r' (path & data & revs & info & r & _ & _ & _ & Hsan & _).
  exact (sanitize_in_range _ _ Hsan).
Qed.

Lemma build_combined_data_averages self flt out :
  build_combined_data self flt = Ok out ->
  exists rs xs cs ss,
    traverse (fun r => py_get r "rating" JNull) (all_reviews self) = Ok rs /\
    traverse rating_value (List.filter (fun v => negb (is_null v)) rs) = Ok xs /\
    floats_of "confidence" (all_reviews self) = Ok cs /\
    floats_of "score" (all_reviews self) = Ok ss /\
    average_rating (stats out) = rounded 2 (mean xs) /\
    average_confidence (stats out) = rounded 4 (mean cs) /\
    average_score (stats out) = rounded 4 (mean ss).
Proof.
  unfold build_combined_data; intros H.
  inv_bind H. inv_bind H. rename a0 into ratings, Ha0 into Hratings.
  inv_bind H. rename a0 into cs, Ha0 into Hcs.
  inv_bind H. rename a0 into ss, Ha0 into Hss.
  inv_bind H. inv_bind H. rename a1 into xs, Ha1 into Hxs.
  injection H as <-; simpl.
  unfold ratings_of in Hratings. inv_bind Hratings. injection Hratings as <-.
  exists a1, xs, cs, ss. repeat split; auto.
Qed.

Lemma omap_cons {A B : Type} (f : A -> option B) (x : A) (l : list A) :
  omap f (x :: l) = match f x with Some y => y :: omap f l | None => omap f l end.
Proof. reflexivity. Qed.

Lemma floats_of_values (k : string) (revs : list json) (cs : list float) :
  floats_of k revs = Ok cs -> cs = float_values k revs.
Proof.
  unfold floats_of, float_values. intros H. inv_bind H. injection H as <-.
  match goal with
  | |- omap ?g _ = omap ?h _ => remember g as g' eqn:Eg; remember h as h' eqn:Eh
  end.
  revert a Ha. induction revs as [|r revs IH]; intros rs H; simpl in H.
  - injection H as <-; reflexivity.
  - inv_bind H. inv_bind H. injection H as <-.
    destruct r as [| | | | | |d]; try discriminate. injection Ha as <-.
    rewrite !omap_cons, (IH _ Ha0).
    assert (E : g' (match Dict.get k d with Some x => x | None => JNull end) =
                h' (JDict d)).
    { subst g' h'. destruct (Dict.get k d) as [v|]; [|reflexivity].
      destruct v; reflexivity. }
    rewrite E. reflexivity.
Qed.

Lemma ratings_values (revs : list json) (rs : list json) (xs : list float) :
  Forall rating_in_range revs ->
  traverse (fun r => py_get r "rating" JNull) revs = Ok rs ->
  traverse rating_value (List.filter (fun v => negb (is_null v)) rs) = Ok xs ->
  xs = rating_values revs.
Proof.
  unfold rating_values. intros Hall. revert rs xs.
  induction Hall as [|r revs Hr _ IH]; intros rs xs H1 H2; simpl in H1.
  - injection H1 as <-. simpl in H2. injection H2 as <-. reflexivity.
  - inv_bind H1. inv_bind H1. injection H1 as <-.
    destruct r as [| | | | | |d]; try discriminate. injection Ha as <-.
    change (match Dict.get "rating" d with Some x => x | None => JNull end)
      with (rating_of (JDict d)) in H2.
    rewrite omap_cons.
    destruct Hr as [E | (x & E & _)]; rewrite E in H2 |- *; simpl in H2.
    + exact (IH _ _ Ha0 H2).
    + inv_bind H2. injection H2 as <-. rewrite (IH _ _ Ha0 Ha). reflexivity.
Qed.

Lemma rounded_None (n : Z) (l : list float) :
  rounded n (mean l) = None <->
  l = [] \/ PrimFloat.eqb (PrimFloat.div (fsum l) (float_of_nat (length l))) 0 = true.
Proof.
  unfold rounded, mean. destruct l as [|x l]; [split; auto|].
  set (m := PrimFloat.div (fsum (x :: l)) (float_of_nat (length (x :: l)))).
  cbn [truthy]. destruct (PrimFloat.eqb m 0); cbn [negb]; split.
  - intros _; right; reflexivity.
  - intros _; reflexivity.
  - discriminate.
  - intros [E | E]; discriminate E.
Qed.

(** X14. The three averages of the statistics: the average rating is the
    mean of the ratings of the accepted reviews that are floats, rounded to
    2 places, the average confidence and the average score are the means of
    the values that are not null and that [float] accepts, rounded to 4
    places; an average is [None] exactly when no value enters it or when
    the mean is zero. *)
Theorem averages_computed files flt self out :
  merge_files files flt = Ok (self, out) ->
  average_rating (stats out) = rounded 2 (mean (rating_values (all_reviews self))) /\
  average_confidence (stats out) =
    rounded 4 (mean (float_values "confidence" (all_reviews self))) /\
  average_score (stats out) =
    rounded 4 (mean (float_values "score" (all_reviews self))) /\
  (forall n l,
      rounded n (mean l) = None <->
      l = [] \/
      PrimFloat.eqb (PrimFloat.div (fsum l) (float_of_nat (length l))) 0 = true).
Proof.
  intros H.
  apply merge_files_Ok in H as (self0 & Hrun & Er & _ & _ & _ & _ & _ & _ & Hout).
  pose proof (run_in_range _ _ _ Hrun) as Hrange. rewrite <- Er in Hrange.
  destruct (build_combined_data_averages _ _ _ Hout)
    as (rs & xs & cs & ss & Hrs & Hxs & Hcs & Hss & -> & -> & ->).
  rewrite (ratings_values _ _ _ Hrange Hrs Hxs).
  rewrite (floats_of_values _ _ _ Hcs), (floats_of_values _ _ _ Hss).
  repeat split; try apply rounded_None.
Qed.

(** ** What extraction returns *)

Lemma stamp_loop_map (base : string) (raw : list json) :
  forall acc pid revs pid',
    foldM (stamp_review base) raw (acc, pid) = Ok (revs, pid') ->
    revs = acc ++ map (stamped base) raw /\
    Forall (fun r => exists d, r = JDict d) raw.
Proof.
  induction raw as [|r raw IH]; intros acc pid revs pid' H; simpl in H.
  - injection H as <- <-. rewrite app_nil_r. split; [reflexivity | constructor].
  - inv_bind H. destruct a as [acc1 pid1].
    destruct r as [| | | | | |d]; try discriminate. simpl in Ha.
    injection Ha as <- <-.
    destruct (IH _ _ _ _ H) as [-> Hall]. split.
    + rewrite <- app_assoc; reflexivity.
    + constructor; [eauto | exact Hall].
Qed.

Lemma py_iter_objects (v : json) (l : list json) :
  py_iter v = Ok l ->
  Forall (fun r => exists d, r = JDict d) l ->
  l = match v with JList l0 => l0 | _ => [] end.
Proof.
  destruct v as [| | | | s | l0 | g]; simpl; try discriminate; intros [= <-] Hall.
  - destruct s as [|c s]; [reflexivity|]. simpl in Hall.
    apply Forall_cons_1 in Hall as [[d Hd] _]. discriminate Hd.
  - reflexivity.
  - destruct g as [|[k x] g]; [reflexivity|]. simpl in Hall.
    apply Forall_cons_1 in Hall as [[d Hd] _]. discriminate Hd.
Qed.

Lemma extend_group_objects (g : list (string * json)) (acc : list json) (k : string)
      (l : list json) :
  extend_group g acc k = Ok l ->
  Forall (fun r => exists d, r = JDict d) l ->
  l = acc ++ group g k.
Proof.
  unfold extend_group, group. destruct (Dict.get k g) as [v|].
  - intros H Hall. inv_bind H. injection H as <-.
    apply Forall_app in Hall as [_ Hall].
    rewrite (py_iter_objects _ _ Ha Hall). destruct v; reflexivity.
  - intros [= <-] _. rewrite app_nil_r; reflexivity.
Qed.

Lemma extend_group_prefix (g : list (string * json)) (acc : list json) (k : string)
      (l : list json) :
  extend_group g acc k = Ok l -> exists more, l = acc ++ more.
Proof.
  unfold extend_group. destruct (Dict.get k g) as [v|].
  - intros H. inv_bind H. injection H as <-. eauto.
  - intros [= <-]. exists []. rewrite app_nil_r; reflexivity.
Qed.

Lemma groups_objects (g : list (string * json)) (raw : list json) :
  foldM (extend_group g) ["positive"; "negative"; "neutral"; "all"] [] = Ok raw ->
  Forall (fun r => exists d, r = JDict d) raw ->
  raw = group g "positive" ++ group g "negative" ++ group g "neutral" ++ group g "all".
Proof.
  intros H Hall. simpl in H.
  inv_bind H. rename a into l1. inv_bind H. rename a into l2.
  inv_bind H. rename a into l3. inv_bind H. rename a into l4. injection H as <-.
  destruct (extend_group_prefix _ _ _ _ Ha2) as [m4 E4].
  destruct (extend_group_prefix _ _ _ _ Ha1) as [m3 E3].
  destruct (extend_group_prefix _ _ _ _ Ha0) as [m2 E2].
  assert (H3 : Forall (fun r => exists d, r = JDict d) l3)
    by (rewrite E4 in Hall; apply Forall_app in Hall as [H3 _]; exact H3).
  assert (H2 : Forall (fun r => exists d, r = JDict d) l2)
    by (rewrite E3 in H3; apply Forall_app in H3 as [H2 _]; exact H2).
  assert (H1 : Forall (fun r => exists d, r = JDict d) l1)
    by (rewrite E2 in H2; apply Forall_app in H2 as [H1 _]; exact H1).
  rewrite (extend_group_objects _ _ _ _ Ha2 Hall).
  rewrite (extend_group_objects _ _ _ _ Ha1 H3).
  rewrite (extend_group_objects _ _ _ _ Ha0 H2).
  rewrite (extend_group_objects _ _ _ _ Ha H1).
  simpl. rewrite <- !app_assoc. reflexivity.
Qed.

(** X15. Extraction keeps every review of the document, in order, and
    changes only its [source_file], set to the base name of the file: the
    reviews returned are the reviews collected from the document, all of
    them objects, each with this one field set. For a document that is an
    array the reviews collected are its elements; for an object without a
    [products] array whose [reviews] is an array, the elements of that
    array; and when [reviews] is an object, the reviews of its groups
    positive, negative, neutral and all, in this order, whatever other
    groups it holds. *)
Theorem extraction_keeps_reviews data path revs info :
  extract_reviews_from_json data path = Ok (revs, info) ->
  exists raw,
    collect_reviews data = Ok raw /\
    revs = map (stamped (OsPath.basename path)) raw /\
    Forall (fun r => exists d, r = JDict d) raw /\
    (forall l, data = JList l -> raw = l) /\
    (forall d l, data = JDict d -> no_products d ->
                 Dict.get "reviews" d = Some (JList l) -> raw = l) /\
    (forall d g, data = JDict d -> no_products d ->
                 Dict.get "reviews" d = Some (JDict g) ->
                 raw = group g "positive" ++ group g "negative" ++
                       group g "neutral" ++ group g "all") /\
    (forall d k, k <> "source_file" ->
                 Dict.get k (Dict.set "source_file" (JStr (OsPath.basename path)) d) =
                 Dict.get k d).
Proof.
  unfold extract_reviews_from_json. cbv zeta. intros H.
  inv_bind H. rename a into raw. inv_bind H. destruct a as [revs0 pid].
  injection H as <- _.
  destruct (stamp_loop_map _ _ _ _ _ _ Ha0) as [-> Hall]. simpl.
  exists raw. split; [exact Ha|]. split; [reflexivity|]. split; [exact Hall|].
  split; [|split; [|split]].
  - intros l ->. simpl in Ha. congruence.
  - intros d l -> Hno Hr. simpl in Ha.
    destruct (Dict.get "products" d) as [[| | | | |ps|]|] eqn:Ep;
      try (rewrite Hr in Ha; congruence).
    destruct (Hno ps Ep).
  - intros d g -> Hno Hr. simpl in Ha.
    assert (Hg : foldM (extend_group g) ["positive"; "negative"; "neutral"; "all"] []
                 = Ok raw).
    { destruct (Dict.get "products" d) as [[| | | | |ps|]|] eqn:Ep;
        try (rewrite Hr in Ha; exact Ha).
      destruct (Hno ps Ep). }
    exact (groups_objects _ _ Hg Hall).
  - intros d k Hk. apply get_set_other; exact Hk.
Qed.

(** ** The product a review is filed under *)

Lemma pm_update_entry (Q : option string * product -> Prop) pid f pm pm' :
  Forall Q pm ->
  (forall p, Q (pid, p) -> Q (pid, f p)) ->
  pm_update pid f pm = Ok pm' ->
  Forall Q pm'.
Proof.
  revert pm'; induction pm as [|[k p] pm IH]; intros pm' Hall Hf H; simpl in H;
    [discriminate|].
  apply Forall_cons_1 in Hall as [Hp Hall].
  destruct (same_id k pid) eqn:Ek.
  - injection H as <-. apply bool_decide_eq_true in Ek as ->.
    constructor; [apply Hf; exact Hp | exact Hall].
  - inv_bind H. injection H as <-. constructor; [exact Hp | exact (IH _ Hall Hf Ha)].
Qed.

Lemma run_filed flt files self :
  foldM (process_file flt) files init = Ok self ->
  Forall (fun e => product_id (snd e) = fst e /\ filed_by_file files (snd e))
         (product_map self).
Proof.
  apply (run_invariant
           (fun s => Forall (fun e => product_id (snd e) = fst e /\
                                      filed_by_file files (snd e)) (product_map s))).
  - constructor.
  - intros path data revs info s s1 _ _ Hs Ht.
    apply track_product_Ok in Ht as (_ & _ & _ & Epm & _).
    refine (pm_update_entry _ (pi_product_id info) (add_source (pi_source_file info))
              _ _ _ _ Epm).
    + unfold with_product.
      destruct (pm_has (pi_product_id info) (product_map s)); [exact Hs|].
      apply Forall_app; split; [exact Hs|]. constructor; [|constructor].
      split; [reflexivity | constructor].
    + intros p Hp. exact Hp.
  - intros path data revs info s r s' Hf Hext Hr Hs _ _ Hstep.
    destruct Hstep as [_ _ _ Epm _ _ | _ _ _ _ _ Epm _ _ | r' _ _ _ Hsan _ _ Epm _ _];
      [rewrite Epm; exact Hs | rewrite Epm; exact Hs |].
    refine (pm_update_entry _ _ _ _ _ Hs _ Epm).
    intros p [Hid Hfiled]. split; [exact Hid|].
    unfold filed_by_file; simpl. apply Forall_app; split; [exact Hfiled|].
    constructor; [|constructor].
    exists path, data, revs, info, r. repeat split; auto.
Qed.

(** X16. A review is filed under the product of its file: every review
    held by a product of the merge output was made by the rating check from
    a review extracted from an input file whose resolved product id is the
    id of that product, whatever [product_id] the review itself carries. *)
Theorem reviews_filed_by_file files flt self out :
  merge_files files flt = Ok (self, out) ->
  Forall (filed_by_file files) (products out).
Proof.
  intros H. apply merged_products in H as (self0 & Hrun & _ & _ & -> & _).
  apply Forall_forall. intros p Hp.
  apply list_elem_of_In, in_map_iff in Hp as (e & <- & He).
  pose proof (run_filed _ _ _ Hrun) as Hall. rewrite Forall_forall in Hall.
  exact (proj2 (Hall e (proj2 (list_elem_of_In _ _) He))).
Qed.

(** ** The reviews collected from a document *)

Lemma extract_collected data path revs info :
  extract_reviews_from_json data path = Ok (revs, info) ->
  exists raw,
    collect_reviews data = Ok raw /\
    revs = map (stamped (OsPath.basename path)) raw /\
    Forall (fun r => exists d, r = JDict d) raw.
Proof.
  unfold extract_reviews_from_json. cbv zeta. intros H.
  inv_bind H. rename a into raw. inv_bind H. destruct a as [revs0 pid].
  injection H as <- _.
  destruct (stamp_loop_map _ _ _ _ _ _ Ha0) as [-> Hall].
  exists raw. split; [exact Ha|]. split; [reflexivity | exact Hall].
Qed.

(** ** The verified purchases *)

Lemma build_combined_data_verified self flt out :
  build_combined_data self flt = Ok out ->
  verified_purchases (stats out) = length (List.filter is_verified (all_reviews self)) /\
  total_reviews out = length (all_reviews self) /\
  verified_percentage (stats out) =
    match all_reviews self with
    | [] => JInt 0
    | _ => JFloat (round_to py
                     (PrimFloat.mul
                        (PrimFloat.div (float_of_nat (verified_purchases (stats out)))
                                       (float_of_nat (total_reviews out))) 100) 2)
    end.
Proof.
  unfold build_combined_data; intros H.
  inv_bind H. inv_bind H. inv_bind H. inv_bind H. inv_bind H.
  rename a3 into vs, Ha3 into Hvs. inv_bind H.
  injection H as <-. cbn [stats verified_purchases total_reviews verified_percentage].
  split; [|split; reflexivity].
  assert (E : vs = map (fun r => match r with
                                 | JDict d => default JNull (Dict.get "verified_purchase" d)
                                 | _ => JNull
                                 end) (all_reviews self)).
  { apply (traverse_map (fun r => py_get r "verified_purchase" JNull)); [|exact Hvs].
    intros r v Hv. apply py_get_Ok in Hv as (d & -> & ->). reflexivity. }
  rewrite E, filter_map_length. f_equal. apply filter_ext.
  intros r. destruct r; reflexivity.
Qed.

(** X18. The verified purchases of the statistics are the accepted
    reviews whose [verified_purchase] is true, at most [total_reviews];
    their percentage is the integer 0 when no review was accepted and
    otherwise the share of the verified reviews times 100, rounded to two
    places. *)
Theorem verified_purchases_counted files flt self out :
  merge_files files flt = Ok (self, out) ->
  verified_purchases (stats out) = length (List.filter is_verified (all_reviews self)) /\
  verified_purchases (stats out) <= total_reviews out /\
  (total_reviews out = 0 -> verified_percentage (stats out) = JInt 0) /\
  (total_reviews out <> 0 ->
   verified_percentage (stats out) =
     JFloat (round_to py
               (PrimFloat.mul
                  (PrimFloat.div (float_of_nat (verified_purchases (stats out)))
                                 (float_of_nat (total_reviews out))) 100) 2)).
Proof.
  intros H. apply merge_files_Ok in H as (self0 & _ & _ & _ & _ & _ & _ & _ & _ & Hout).
  apply build_combined_data_verified in Hout as (Hv & Ht & Hp).
  split; [exact Hv|]. split; [rewrite Hv, Ht; apply filter_length_le|].
  rewrite Hp, Ht. destruct (all_reviews self) as [|r l]; split;
    try reflexivity; try discriminate; intros E; destruct (E eq_refl).
Qed.

(** ** The name of a product *)

Lemma named_by_first_more done f p :
  named_by_first done p -> named_by_first (done ++ [f]) p.
Proof.
  intros (pre & g & post & data & revs & info & -> & H).
  exists pre, g, (post ++ [f]), data, revs, info.
  split; [rewrite <- app_assoc; reflexivity | exact H].
Qed.

Lemma review_loop_entries (Q : option string * product -> Prop) flt pid revs s s' :
  (forall r p, Q (pid, p) -> Q (pid, add_review r p)) ->
  foldM (process_review flt pid) revs s = Ok s' ->
  Forall Q (product_map s) ->
  Forall Q (product_map s') /\ map fst (product_map s') = map fst (product_map s).
Proof.
  intros HQ. revert s. induction revs as [|r revs IH]; intros s H Hs; simpl in H.
  - injection H as <-. split; [exact Hs | reflexivity].
  - inv_bind H. rename a into s1.
    apply process_review_step in Ha as (_ & _ & _ & Hstep).
    assert (H1 : Forall Q (product_map s1) /\
                 map fst (product_map s1) = map fst (product_map s)).
    { destruct Hstep as [_ _ _ Epm _ _ | _ _ _ _ _ Epm _ _ | r' _ _ _ _ _ _ Epm _ _];
        [rewrite Epm; split; [exact Hs | reflexivity] ..|].
      split; [|exact (pm_update_keys _ _ _ _ Epm)].
      exact (pm_update_entry _ _ _ _ _ Hs (HQ r') Epm). }
    destruct H1 as [H1 K1]. destruct (IH _ H H1) as [H2 K2].
    split; [exact H2 | rewrite K2; exact K1].
Qed.

Lemma process_file_introduces flt s f s1 :
  process_file flt s f = Ok s1 ->
  ((forall k, ~ introduces k f) /\ s1 = s) \/
  exists data revs info s0,
    snd f = Some data /\ truthy data = true /\
    extract_reviews_from_json data (fst f) = Ok (revs, info) /\
    revs <> [] /\
    track_product info (length revs) s = Ok s0 /\
    foldM (process_review flt (pi_product_id info)) revs s0 = Ok s1.
Proof.
  unfold process_file, introduces. intros H.
  destruct (snd f) as [data|] eqn:Ef.
  - destruct (truthy data) eqn:Et.
    + destruct (extract_reviews_from_json data (fst f)) as [[revs info]|e] eqn:Ex;
        cbn [bind] in H; [|discriminate].
      destruct revs as [|r revs].
      * injection H as <-. left. split; [|reflexivity].
        intros k (data' & revs' & info' & [= <-] & _ & Ex' & Hne & _).
        rewrite Ex in Ex'. injection Ex' as <- _. destruct (Hne eq_refl).
      * inv_bind H. right. exists data, (r :: revs), info, a.
        repeat split; auto; discriminate.
    + injection H as <-. left. split; [|reflexivity].
      intros k (data' & revs' & info' & [= <-] & Et' & _). congruence.
  - injection H as <-. left. split; [|reflexivity].
    intros k (data' & revs' & info' & E & _). discriminate E.
Qed.

(** Every product is named by the first of the files read so far that
    gave reviews for it, and every product these files gave reviews for
    is in the map. *)
Definition names_settled (done : list file) (s : merger) : Prop :=
  Forall (fun e => product_id (snd e) = fst e /\ named_by_first done (snd e))
         (product_map s) /\
  (forall g k, In g done -> introduces k g -> In k (map fst (product_map s))).

Lemma process_file_names flt done s f s1 :
  names_settled done s ->
  process_file flt s f = Ok s1 ->
  names_settled (done ++ [f]) s1.
Proof.
  intros [Hent Hhas] H.
  assert (Hmore : Forall (fun e => product_id (snd e) = fst e /\
                                   named_by_first (done ++ [f]) (snd e)) (product_map s)).
  { eapply Forall_impl; [exact Hent|]. intros e [E N]. split; [exact E|].
    apply named_by_first_more; exact N. }
  apply process_file_introduces in H
    as [[Hno ->] | (data & revs & info & s0 & Ef & Et & Ex & Hne & Ht & Hloop)].
  - split; [exact Hmore|]. intros g k Hg Hk.
    apply in_app_or in Hg as [Hg | [<- | []]]; [exact (Hhas g k Hg Hk)|].
    destruct (Hno k Hk).
  - apply track_product_Ok in Ht as (_ & _ & _ & Epm & _).
    assert (H0 : Forall (fun e => product_id (snd e) = fst e /\
                                  named_by_first (done ++ [f]) (snd e))
                        (with_product info (product_map s))).
    { unfold with_product.
      destruct (pm_has (pi_product_id info) (product_map s)) eqn:Eh; [exact Hmore|].
      apply Forall_app; split; [exact Hmore|]. constructor; [|constructor].
      split; [reflexivity|]. cbn [snd].
      exists done, f, [], data, revs, info. repeat split; auto.
      apply Forall_forall. intros g Hg Hk.
      apply list_elem_of_In in Hg.
      apply (Hhas g _ Hg) in Hk. apply pm_has_In in Hk.
      cbn [new_product product_id] in Hk. congruence. }
    assert (H1 : Forall (fun e => product_id (snd e) = fst e /\
                                  named_by_first (done ++ [f]) (snd e))
                        (product_map s0))
      by (refine (pm_update_entry _ _ _ _ _ H0 _ Epm); intros p Hp; exact Hp).
    destruct (review_loop_entries
                (fun e => product_id (snd e) = fst e /\
                          named_by_first (done ++ [f]) (snd e))
                flt (pi_product_id info) revs s0 s1 (fun r p Hp => Hp) Hloop H1)
      as [H2 K2].
    split; [exact H2|]. intros g k Hg Hk.
    rewrite K2, (pm_update_keys _ _ _ _ Epm).
    apply in_app_or in Hg as [Hg | [<- | []]].
    + destruct (with_product_keys info (product_map s)) as (ks & -> & _).
      apply in_or_app; left. exact (Hhas g k Hg Hk).
    + destruct Hk as (data' & revs' & info' & Ef' & _ & Ex' & _ & <-).
      rewrite Ef in Ef'. injection Ef' as <-. rewrite Ex in Ex'. injection Ex' as _ <-.
      apply with_product_has.
Qed.

Lemma run_names flt rest :
  forall done s s',
    names_settled done s ->
    foldM (process_file flt) rest s = Ok s' ->
    names_settled (done ++ rest) s'.
Proof.
  induction rest as [|f rest IH]; intros done s s' Hs H; simpl in H.
  - injection H as <-. rewrite app_nil_r. exact Hs.
  - inv_bind H. rename a into s1.
    pose proof (IH _ _ _ (process_file_names _ _ _ _ _ Hs Ha) H) as H1.
    rewrite <- app_assoc in H1. exact H1.
Qed.

(** X19. A product keeps the name and the address of the first file
    that gave reviews for it: every product of the output has the name and
    the address resolved for a file of the input that was read, gave at
    least one review and resolved to the id of the product, and no earlier
    file of the input gave reviews for that id. Later files for the same
    product change neither. *)
Theorem product_named_by_first_file files flt self out :
  merge_files files flt = Ok (self, out) ->
  Forall (named_by_first files) (products out).
Proof.
  intros H. apply merged_products in H as (self0 & Hrun & _ & _ & -> & _).
  assert (Hinit : names_settled [] init).
  { split; [constructor|]. intros g k []. }
  destruct (run_names _ _ _ _ _ Hinit Hrun) as [Hall _]. cbn [app] in Hall.
  apply Forall_forall. intros p Hp.
  apply list_elem_of_In, in_map_iff in Hp as (e & <- & He).
  rewrite Forall_forall in Hall.
  exact (proj2 (Hall e (proj2 (list_elem_of_In _ _) He))).
Qed.

(** ** The reviews loaded *)

Lemma process_file_loaded flt s f s1 :
  process_file flt s f = Ok s1 ->
  total_reviews_loaded s1 = total_reviews_loaded s + extracted_count f.
Proof.
  unfold process_file, extracted_count. intros H.
  destruct (snd f) as [data|]; [|injection H as <-; lia].
  destruct (truthy data); [|injection H as <-; lia].
  destruct (extract_reviews_from_json data (fst f)) as [[revs info]|e];
    cbn [bind] in H; [|discriminate].
  destruct revs as [|r revs]; [injection H as <-; simpl; lia|].
  inv_bind H. rename a into s0.
  apply track_product_Ok in Ha as (_ & _ & _ & _ & El & _).
  apply review_loop_counts in H as [E _]. rewrite E, El. reflexivity.
Qed.

Lemma run_loaded flt files :
  forall s s',
    foldM (process_file flt) files s = Ok s' ->
    total_reviews_loaded s' = total_reviews_loaded s + list_sum (map extracted_count files).
Proof.
  induction files as [|f files IH]; intros s s' H; simpl in H.
  - injection H as <-. simpl. lia.
  - inv_bind H. rename a into s1.
    rewrite (IH _ _ H), (process_file_loaded _ _ _ _ Ha). simpl. lia.
Qed.

(** X20. Every review extracted from a file that is read is counted
    and accounted for: the number of reviews loaded is the sum, over the
    input files, of the number of reviews extracted from the file, a file
    that could not be loaded or whose document is false counting for none;
    and each of them was accepted, dropped as a duplicate or filtered out. *)
Theorem loaded_reviews_accounted files flt self out :
  merge_files files flt = Ok (self, out) ->
  total_reviews_loaded self = list_sum (map extracted_count files) /\
  list_sum (map extracted_count files) =
    total_reviews out + total_duplicates_removed self + total_filtered_out self.
Proof.
  intros H.
  apply merge_files_Ok in H as (self0 & Hrun & Er & _ & _ & _ & El & Ed & Ef & Hout).
  apply build_combined_data_products in Hout as (_ & _ & Et & _).
  pose proof (run_loaded _ _ _ _ Hrun) as Hl. cbn [init total_reviews_loaded] in Hl.
  pose proof (run_counts _ _ _ Hrun) as Hc.
  rewrite El, Ed, Ef, Et, Er. split; lia.
Qed.

(** ** A review that is no object *)

Lemma stamp_loop_raises (base : string) (raw : list json) :
  Exists (fun r => is_object r = false) raw ->
  forall acc, foldM (stamp_review base) raw acc = Raise TypeError.
Proof.
  induction raw as [|r raw IH]; intros Hex acc.
  - apply Exists_nil in Hex. destruct Hex.
  - cbn [foldM]. destruct r as [| | | | | |d]; try reflexivity.
    cbn [stamp_review bind]. apply IH.
    apply Exists_cons in Hex as [Hex | Hex]; [discriminate Hex | exact Hex].
Qed.

(** X21. A review that is no object ends the merge: when the files
    before it merge and the document of the next file is true and holds,
    among the reviews collected from it, a value that is not an object, the
    merge of the whole list raises TypeError, whatever the files before it
    gave and whatever files follow. *)
Theorem non_object_review_ends_merge pre path data raw post flt self out :
  merge_files pre flt = Ok (self, out) ->
  truthy data = true ->
  collect_reviews data = Ok raw ->
  Exists (fun r => is_object r = false) raw ->
  merge_files (pre ++ (path, Some data) :: post) flt = Raise TypeError.
Proof.
  intros H Ht Hraw Hex.
  apply merge_files_Ok in H as (self0 & Hrun & _).
  unfold merge_files. rewrite foldM_app, Hrun. cbn [bind foldM].
  unfold process_file at 1. cbn [snd fst]. rewrite Ht.
  unfold extract_reviews_from_json. cbv zeta. rewrite Hraw. cbn [bind].
  rewrite (stamp_loop_raises _ _ Hex). reflexivity.
Qed.

(** ** The reviews of a products document *)

Lemma inherit_field_object (k : string) (p r r' : json) (d' : list (string * json)) :
  inherit_field k p r = Ok r' -> r' = JDict d' -> exists d, r = JDict d.
Proof.
  unfold inherit_field. intros H ->. inv_bind H. destruct a.
  - injection H as ->. eauto.
  - inv_bind H. destruct a.
    + inv_bind H. destruct r; try discriminate. eauto.
    + injection H as ->. eauto.
Qed.

Lemma inherit_field_spec (k : string) (p d d' : list (string * json)) :
  inherit_field k (JDict p) (JDict d) = Ok (JDict d') ->
  Dict.get k d' = match Dict.get k d with Some v => Some v | None => Dict.get k p end /\
  (forall k', k' <> k -> Dict.get k' d' = Dict.get k' d).
Proof.
  unfold inherit_field. cbn [py_in bind]. unfold Dict.has.
  destruct (Dict.get k d) as [v|] eqn:Ed.
  - intros [= <-]. rewrite Ed. split; [reflexivity | reflexivity].
  - destruct (Dict.get k p) as [x|] eqn:Ep; cbn [getitem bind].
    + rewrite Ep. cbn [bind setitem]. intros [= <-]. split.
      * apply get_set_same.
      * intros k' Hk. apply get_set_other; exact Hk.
    + intros [= <-]. rewrite Ed. split; reflexivity.
Qed.

Lemma in_context (pd : list (string * json)) (r r' : json) :
  (r1 <- inherit_field "product_id" (JDict pd) r;;
   inherit_field "product_name" (JDict pd) r1) = Ok r' ->
  (exists d', r' = JDict d') ->
  with_context pd r r'.
Proof.
  intros H [d' ->]. inv_bind H. rename a into r1.
  destruct (inherit_field_object _ _ _ _ _ H eq_refl) as [d1 ->].
  destruct (inherit_field_object _ _ _ _ _ Ha eq_refl) as [d ->].
  apply inherit_field_spec in Ha as [Hid Hid'].
  apply inherit_field_spec in H as [Hname Hname'].
  exists d, d'. split; [reflexivity|]. split; [reflexivity|]. split.
  - intros k [-> | ->].
    + rewrite Hname' by discriminate. exact Hid.
    + rewrite Hname, Hid' by discriminate. reflexivity.
  - intros k H1 H2. rewrite Hname', Hid' by assumption. reflexivity.
Qed.

Lemma product_reviews_spec (p : json) (l : list json) :
  product_reviews p = Ok l ->
  Forall (fun r => exists d, r = JDict d) l ->
  from_product p l.
Proof.
  unfold product_reviews, from_product. intros H Hall.
  destruct p as [| | | | s | ps | pd]; try discriminate.
  - cbn [py_in bind] in H. destruct (PyStr.contains "reviews" s);
      [discriminate | injection H as <-; reflexivity].
  - cbn [py_in bind] in H.
    destruct (existsb _ ps); [discriminate | injection H as <-; reflexivity].
  - cbn [py_in bind getitem] in H. unfold Dict.has in H.
    destruct (Dict.get "reviews" pd) as [rs|]; [|injection H as <-; reflexivity].
    cbn [bind] in H.
    destruct rs as [| | | | |rs|]; try (injection H as <-; reflexivity).
    revert l H Hall. induction rs as [|r rs IH]; intros l H Hall; simpl in H.
    + injection H as <-. constructor.
    + inv_bind H. rename a into r'. inv_bind H. rename a into l'. injection H as <-.
      apply Forall_cons_1 in Hall as [Hr' Hall].
      constructor; [exact (in_context _ _ _ Ha Hr') | exact (IH _ Ha0 Hall)].
Qed.

Lemma products_spec (ps : list json) (rss : list (list json)) :
  traverse product_reviews ps = Ok rss ->
  Forall (fun r => exists d, r = JDict d) (concat rss) ->
  Forall2 from_product ps rss.
Proof.
  revert rss. induction ps as [|p ps IH]; intros rss H Hall; simpl in H.
  - injection H as <-. constructor.
  - inv_bind H. rename a into l. inv_bind H. rename a into rss'. injection H as <-.
    simpl in Hall. apply Forall_app in Hall as [Hl Hall].
    constructor; [exact (product_reviews_spec _ _ Ha Hl) | exact (IH _ Ha0 Hall)].
Qed.

(** X22. The reviews of a products document: when the document has a
    [products] array, extraction returns, product after product and in
    their order, the elements of the [reviews] array of every product that
    is an object with such an array, and nothing for the other products.
    Each review is an object that got its [source_file] and, where it had no
    [product_id] or no [product_name], that of its product when the
    product has one; its own id or name is never replaced and no other
    field is touched. *)
Theorem products_document_reviews d ps path revs info :
  extract_reviews_from_json (JDict d) path = Ok (revs, info) ->
  Dict.get "products" d = Some (JList ps) ->
  exists rss,
    revs = map (stamped (OsPath.basename path)) (concat rss) /\
    Forall2 from_product ps rss.
Proof.
  intros H Hps.
  destruct (extract_collected _ _ _ _ H) as (raw & Hraw & -> & Hall).
  cbn [collect_reviews] in Hraw. rewrite Hps in Hraw.
  inv_bind Hraw. rename a into rss. injection Hraw as <-.
  exists rss. split; [reflexivity | exact (products_spec _ _ Ha Hall)].
Qed.

(** ** What a merge keeps of a review *)








End Merger.

(** ** The theorems on the sample inputs *)

Lemma accepted_texts_unique_sample :
  exists self out,
    merge_files plain sample_files None = Ok (self, out) /\
    NoDup (map (review_key plain) (all_reviews self)) /\
    NoDup (map (review_key plain) (output_reviews out)) /\
    (forall r, In r (all_reviews self) ->
               review_key plain r ∈ seen_review_texts self) /\
    (forall r seen candidate,
        review_key plain r ∈ seen ->
        normalize plain candidate = review_key plain r ->
        is_duplicate_review plain seen candidate = (true, seen)).
Proof.
  destruct (merge_files plain sample_files None) as [[self out]|e] eqn:E.
  - exists self, out. split; [reflexivity|].
    exact (accepted_texts_unique plain sample_files None self out E).
  - vm_compute in E. discriminate E.
Defined.

Lemma accepted_raw_length_sample :
  exists self out,
    merge_files plain sample_files None = Ok (self, out) /\
    Forall (fun r => truthy (text_of r) = true /\
                     10 <= String.length (py_str plain (text_of r)))
           (all_reviews self) /\
    Forall (fun r => truthy (text_of r) = true /\
                     10 <= String.length (py_str plain (text_of r)))
           (output_reviews out) /\
    (forall seen candidate,
        String.length (py_str plain candidate) < 10 ->
        is_duplicate_review plain seen candidate = (true, seen)).
Proof.
  destruct (merge_files plain sample_files None) as [[self out]|e] eqn:E.
  - exists self, out. split; [reflexivity|].
    exact (accepted_raw_length plain sample_files None self out E).
  - vm_compute in E. discriminate E.
Defined.

(** A text of two letters and eight blanks is accepted: its normalized
    text has two characters. *)
Lemma padded_text_accepted :
  exists self out,
    merge_files plain [padded_file] None = Ok (self, out) /\
    map (review_key plain) (all_reviews self) = ["ok"] /\
    map (review_key plain) (output_reviews out) = ["ok"] /\
    map (fun r => String.length (review_key plain r)) (output_reviews out) = [2].
Proof.
  eexists _, _. split; [vm_compute; reflexivity|].
  split; [reflexivity|]. split; reflexivity.
Defined.

Lemma well_typed_run_returns_sample :
  Forall (fun f => well_typed_file f = true) sample_files /\
  (exists self out, merge_files plain sample_files (Some "positive") = Ok (self, out)) /\
  (forall self f,
      snd f = None \/
      (exists data, snd f = Some data /\ truthy data = false) \/
      (exists data info, snd f = Some data /\
                         extract_reviews_from_json plain data (fst f) = Ok ([], info)) ->
      process_file plain (Some "positive") self f = Ok self).
Proof.
  assert (H : Forall (fun f => well_typed_file f = true) sample_files)
    by (repeat constructor).
  split; [exact H|].
  exact (well_typed_run_returns plain sample_files (Some "positive") H).
Defined.

(** The run does raise on some input: a number where a review is
    expected ends it with TypeError, after two files were merged and
    before the last one is read, and no document is returned. *)
Lemma number_in_array_raises :
  merge_files plain (sample_files ++ [number_file; zero_file]) None = Raise TypeError.
Proof. vm_compute; reflexivity. Defined.

Lemma filter_respected_sample :
  exists self out,
    merge_files plain sample_files (Some "positive") = Ok (self, out) /\
    Forall (has_sentiment "positive") (all_reviews self) /\
    Forall (has_sentiment "positive") (output_reviews out) /\
    total_reviews_loaded self =
      length (all_reviews self) + total_duplicates_removed self + total_filtered_out self /\
    (forall pid self0 d s,
        sentiment_of (JDict d) = JStr s ->
        PyStr.lower s <> PyStr.lower "positive" ->
        fst (is_duplicate_review plain (seen_review_texts self0) (text_of (JDict d)))
        = false ->
        exists self1,
          process_review plain (Some "positive") pid self0 (JDict d) = Ok self1 /\
          all_reviews self1 = all_reviews self0 /\
          product_map self1 = product_map self0 /\
          total_duplicates_removed self1 = total_duplicates_removed self0 /\
          total_filtered_out self1 = S (total_filtered_out self0)).
Proof.
  destruct (merge_files plain sample_files (Some "positive")) as [[self out]|e] eqn:E.
  - exists self, out. split; [reflexivity|].
    apply (filter_respected plain sample_files "positive" self out); [discriminate|].
    exact E.
  - vm_compute in E. discriminate E.
Defined.

(** Under the filter "positive" a review written with the sentiment
    "Positive" is in the output with the sentiment as it was written, not
    in lowercase; and a review whose sentiment is null is not counted as
    filtered out: it ends the run with AttributeError. *)
Lemma capital_sentiment_kept :
  (exists self out,
      merge_files plain sample_files (Some "positive") = Ok (self, out) /\
      map sentiment_of (all_reviews self) = [JStr "Positive"; JStr "positive"] /\
      map sentiment_of (output_reviews out) = [JStr "Positive"; JStr "positive"]) /\
  merge_files plain [null_sentiment_file] (Some "positive") = Raise AttributeError.
Proof.
  split; [|vm_compute; reflexivity].
  eexists _, _. split; [vm_compute; reflexivity|]. split; reflexivity.
Defined.

Lemma ratings_checked_sample :
  exists self out,
    merge_files plain sample_files None = Ok (self, out) /\
    Forall (accepted_from plain sample_files) (all_reviews self) /\
    Forall (accepted_from plain sample_files) (output_reviews out) /\
    (forall d, Dict.get "rating" d = Some (JFloat 1060) ->
               sanitize_rating plain (JDict d) = Ok (JDict (Dict.set "rating" JNull d))).
Proof.
  destruct (merge_files plain sample_files None) as [[self out]|e] eqn:E.
  - exists self, out. split; [reflexivity|].
    exact (ratings_checked plain sample_files None self out E).
  - vm_compute in E. discriminate E.
Defined.

Lemma products_identified_sample :
  exists self out,
    merge_files plain sample_files None = Ok (self, out) /\
    Forall (fun p => is_Some (product_id p)) (products out) /\
    NoDup (map product_id (products out)) /\
    NoDup (output_reviews out) /\
    (forall r, In r (all_reviews self) ->
       exists p, In p (products out) /\ In r (reviews p) /\
                 forall q, In q (products out) -> In r (reviews q) -> q = p) /\
    (forall data source_file revs info,
        extract_reviews_from_json plain data source_file = Ok (revs, info) ->
        is_Some (pi_product_id info)).
Proof.
  destruct (merge_files plain sample_files None) as [[self out]|e] eqn:E.
  - exists self, out. split; [reflexivity|].
    exact (products_identified plain sample_files None self out E).
  - vm_compute in E. discriminate E.
Defined.

(** ** The further theorems on the sample inputs *)

Lemma products_list_their_files_sample :
  exists self out,
    merge_files plain sample_files None = Ok (self, out) /\
    Forall (fun p => source_files p <> [] /\
                     NoDup (source_files p) /\
                     Forall (input_name sample_files) (source_files p)) (products out).
Proof.
  destruct (merge_files plain sample_files None) as [[self out]|e] eqn:E.
  - exists self, out. split; [reflexivity|].
    exact (products_list_their_files plain sample_files None self out E).
  - vm_compute in E. discriminate E.
Defined.

Lemma reviews_name_their_file_sample :
  exists self out,
    merge_files plain sample_files None = Ok (self, out) /\
    Forall (fun p =>
              Forall (fun r => exists name,
                          source_of r = Some (JStr name) /\
                          In name (source_files p) /\
                          input_name sample_files name) (reviews p)) (products out).
Proof.
  destruct (merge_files plain sample_files None) as [[self out]|e] eqn:E.
  - exists self, out. split; [reflexivity|].
    exact (reviews_name_their_file plain sample_files None self out E).
  - vm_compute in E. discriminate E.
Defined.

Lemma ratings_in_range_sample :
  exists self out,
    merge_files plain sample_files None = Ok (self, out) /\
    Forall rating_in_range (all_reviews self) /\
    Forall rating_in_range (output_reviews out).
Proof.
  destruct (merge_files plain sample_files None) as [[self out]|e] eqn:E.
  - exists self, out. split; [reflexivity|].
    exact (ratings_in_range plain sample_files None self out E).
  - vm_compute in E. discriminate E.
Defined.

Lemma metadata_counts_sample :
  exists self out,
    merge_files plain sample_files (Some "negative") = Ok (self, out) /\
    total_products out = length (products out) /\
    total_files_merged out = length (products out) /\
    total_files_merged out <= length sample_files /\
    total_reviews out = length (output_reviews out).
Proof.
  destruct (merge_files plain sample_files (Some "negative")) as [[self out]|e] eqn:E.
  - exists self, out. split; [reflexivity|].
    exact (metadata_counts plain sample_files (Some "negative") self out E).
  - vm_compute in E. discriminate E.
Defined.

Lemma more_files_only_add_sample :
  exists self out self2 out2,
    merge_files plain [kitchen_file] None = Ok (self, out) /\
    merge_files plain ([kitchen_file] ++ sample_files) None = Ok (self2, out2) /\
    (exists l, all_reviews self2 = all_reviews self ++ l) /\
    (exists ps, map product_id (products out2) = map product_id (products out) ++ ps) /\
    seen_review_texts self ⊆ seen_review_texts self2 /\
    total_reviews_loaded self <= total_reviews_loaded self2 /\
    total_duplicates_removed self <= total_duplicates_removed self2 /\
    total_filtered_out self <= total_filtered_out self2.
Proof.
  destruct (merge_files plain [kitchen_file] None) as [[self out]|e] eqn:E;
    [|vm_compute in E; discriminate E].
  destruct (merge_files plain ([kitchen_file] ++ sample_files) None)
    as [[self2 out2]|e] eqn:E2; [|vm_compute in E2; discriminate E2].
  exists self, out, self2, out2. split; [reflexivity|]. split; [reflexivity|].
  exact (more_files_only_add plain [kitchen_file] sample_files None self out self2 out2 E E2).
Defined.

Lemma filter_selects_sample :
  exists sf outf sn outn,
    merge_files plain sample_files (Some "positive") = Ok (sf, outf) /\
    merge_files plain sample_files None = Ok (sn, outn) /\
    all_reviews sf = List.filter (matches_filter "positive") (all_reviews sn) /\
    Forall2 (product_filtered "positive") (products outf) (products outn) /\
    seen_review_texts sf = seen_review_texts sn /\
    total_reviews_loaded sf = total_reviews_loaded sn /\
    total_duplicates_removed sf = total_duplicates_removed sn /\
    total_filtered_out sf + length (all_reviews sf) = length (all_reviews sn).
Proof.
  destruct (merge_files plain sample_files (Some "positive")) as [[sf outf]|e] eqn:E;
    [|vm_compute in E; discriminate E].
  destruct (merge_files plain sample_files None) as [[sn outn]|e] eqn:E2;
    [|vm_compute in E2; discriminate E2].
  exists sf, outf, sn, outn. split; [reflexivity|]. split; [reflexivity|].
  apply (filter_selects plain sample_files "positive" sf outf sn outn);
    [discriminate | exact E | exact E2].
Defined.

Lemma unfiltered_merge_keeps_every_text_sample :
  exists self out,
    merge_files plain sample_files None = Ok (self, out) /\
    candidate plain sample_files repeated_review /\
    too_short plain (text_of repeated_review) = false /\
    In (review_key plain repeated_review) (map (review_key plain) (all_reviews self)) /\
    In (review_key plain repeated_review) (map (review_key plain) (output_reviews out)).
Proof.
  assert (Hc : candidate plain sample_files repeated_review).
  { eexists _, _, _, _. split; [right; left; reflexivity|].
    split; [reflexivity|]. split; [vm_compute; reflexivity|].
    right; left; reflexivity. }
  destruct (merge_files plain sample_files None) as [[self out]|e] eqn:E.
  - exists self, out. split; [reflexivity|]. split; [exact Hc|]. split; [reflexivity|].
    exact (unfiltered_merge_keeps_every_text plain sample_files self out repeated_review
             E Hc eq_refl).
  - vm_compute in E. discriminate E.
Defined.

Lemma sentiment_counts_sample :
  exists self out,
    merge_files plain sample_files None = Ok (self, out) /\
    (forall k, count_of k (sentiment_distribution (stats out)) =
               length (List.filter (fun r => String.eqb k (sentiment_name r))
                                   (all_reviews self))) /\
    total_count (sentiment_distribution (stats out)) = total_reviews out /\
    (exists others,
        map fst (sentiment_distribution (stats out)) =
        ["positive"; "negative"; "neutral"; "unknown"] ++ others) /\
    NoDup (map fst (sentiment_distribution (stats out))).
Proof.
  destruct (merge_files plain sample_files None) as [[self out]|e] eqn:E.
  - exists self, out. split; [reflexivity|].
    exact (sentiment_counts plain sample_files None self out E).
  - vm_compute in E. discriminate E.
Defined.

Lemma duplicate_check_ignores_case_and_blanks_sample :
  10 <= String.length "Great blender" /\
  PyStr.lower "GREAT BLENDER" = PyStr.lower "Great blender" /\
  is_duplicate_review plain
    (snd (is_duplicate_review plain ∅ (JStr "Great blender")))
    (JStr (String.append "  " (String.append "GREAT BLENDER" " "))) =
  (true, snd (is_duplicate_review plain ∅ (JStr "Great blender"))).
Proof.
  split; [simpl; lia|]. split; [reflexivity|].
  apply (duplicate_check_ignores_case_and_blanks plain ∅ "Great blender" "GREAT BLENDER"
           "  " " "); [simpl; lia | reflexivity | reflexivity | reflexivity].
Defined.

Lemma file_name_id_sample :
  exists ds,
    search_id "walmart_12345678_reviews.json" = Some ds /\
    all_digits ds = true /\ 8 <= String.length ds /\
    exists pre post,
      "walmart_12345678_reviews.json" =
      String.append pre (String "_" (String.append ds (String "_" post))).
Proof.
  destruct (file_name_id "walmart_12345678_reviews.json") as [Hsound Hcomplete].
  destruct (Hcomplete "walmart" "12345678" "reviews.json") as [ds Hds];
    [reflexivity | simpl; lia | reflexivity |].
  exists ds. split; [exact Hds | exact (Hsound ds Hds)].
Defined.

Lemma identity_resolution_sample :
  exists revs info,
    extract_reviews_from_json plain grouped_document "data/walmart_reviews_mugs.json"
      = Ok (revs, info) /\
    no_id (pi_product_id (document_info plain grouped_document
                            "data/walmart_reviews_mugs.json")) = true /\
    first_review_id plain revs = Some "555" /\
    pi_product_id info = Some "555".
Proof.
  destruct (extract_reviews_from_json plain grouped_document "data/walmart_reviews_mugs.json")
    as [[revs info]|e] eqn:E; [|vm_compute in E; discriminate E].
  exists revs, info. split; [reflexivity|].
  assert (Hno : no_id (pi_product_id (document_info plain grouped_document
                                        "data/walmart_reviews_mugs.json")) = true)
    by reflexivity.
  assert (Hfirst : first_review_id plain revs = Some "555")
    by (vm_compute in E; injection E as <- _; reflexivity).
  split; [exact Hno|]. split; [exact Hfirst|].
  destruct (identity_resolution plain _ _ _ _ E) as (_ & Hreview & _).
  exact (proj1 (Hreview Hno "555" Hfirst)).
Defined.

Lemma csv_columns_sample :
  exists fields,
    csv_fields elements noted_reviews = Ok (Some fields) /\
    NoDup fields /\
    (forall f, In f fields <->
               exists d, In (JDict d) noted_reviews /\ In f (Dict.keys d)) /\
    exists others,
      fields = List.filter (fun f => existsb (String.eqb f) fields) preferred_order ++ others /\
      Forall (fun f => ~ In f preferred_order) others.
Proof.
  destruct (csv_fields elements noted_reviews) as [[fields|]|e] eqn:E;
    [|vm_compute in E; discriminate E|vm_compute in E; discriminate E].
  exists fields. split; [reflexivity|].
  exact (csv_columns elements noted_reviews fields (fun X => Permutation_refl (elements X)) E).
Defined.

Lemma csv_of_merge_sample :
  exists self out,
    merge_files plain sample_files None = Ok (self, out) /\
    (all_reviews self = [] -> csv_table elements (all_reviews self) = Ok None) /\
    (all_reviews self <> [] ->
     exists fields rows,
       csv_table elements (all_reviews self) = Ok (Some (fields, rows)) /\
       In "review_text" fields /\ In "source_file" fields /\
       length rows = length (all_reviews self) /\
       Forall (fun row => length row = length fields) rows).
Proof.
  destruct (merge_files plain sample_files None) as [[self out]|e] eqn:E.
  - exists self, out. split; [reflexivity|].
    exact (csv_of_merge plain elements sample_files None self out (fun X => Permutation_refl (elements X)) E).
  - vm_compute in E. discriminate E.
Defined.

Lemma averages_computed_sample :
  exists self out,
    merge_files plain sample_files None = Ok (self, out) /\
    average_rating (stats out) =
      rounded plain 2 (mean (rating_values (all_reviews self))) /\
    average_confidence (stats out) =
      rounded plain 4 (mean (float_values plain "confidence" (all_reviews self))) /\
    average_score (stats out) =
      rounded plain 4 (mean (float_values plain "score" (all_reviews self))) /\
    (forall n l,
        rounded plain n (mean l) = None <->
        l = [] \/
        PrimFloat.eqb (PrimFloat.div (fsum l) (float_of_nat (length l))) 0 = true).
Proof.
  destruct (merge_files plain sample_files None) as [[self out]|e] eqn:E.
  - exists self, out. split; [reflexivity|].
    exact (averages_computed plain sample_files None self out E).
  - vm_compute in E. discriminate E.
Defined.

Lemma extraction_keeps_reviews_sample :
  exists revs info raw,
    extract_reviews_from_json plain grouped_document "data/walmart_reviews_mugs.json"
      = Ok (revs, info) /\
    collect_reviews grouped_document = Ok raw /\
    revs = map (stamped "walmart_reviews_mugs.json") raw /\
    length raw = 2.
Proof.
  destruct (extract_reviews_from_json plain grouped_document "data/walmart_reviews_mugs.json")
    as [[revs info]|e] eqn:E; [|vm_compute in E; discriminate E].
  destruct (extraction_keeps_reviews plain _ _ _ _ E) as (raw & Hraw & Hrevs & _ & _ & _ & Hg & _).
  exists revs, info, raw. split; [reflexivity|]. split; [exact Hraw|].
  split; [exact Hrevs|].
  assert (Hr : raw = group grouped_reviews "positive" ++ group grouped_reviews "negative" ++
                     group grouped_reviews "neutral" ++ group grouped_reviews "all")
    by (eapply Hg; [reflexivity | intros ps H; discriminate H | reflexivity]).
  rewrite Hr. reflexivity.
Defined.

Lemma reviews_filed_by_file_sample :
  exists self out,
    merge_files plain sample_files None = Ok (self, out) /\
    Forall (filed_by_file plain sample_files) (products out).
Proof.
  destruct (merge_files plain sample_files None) as [[self out]|e] eqn:E.
  - exists self, out. split; [reflexivity|].
    exact (reviews_filed_by_file plain sample_files None self out E).
  - vm_compute in E. discriminate E.
Defined.

Lemma verified_purchases_counted_sample :
  exists self out,
    merge_files plain sample_files None = Ok (self, out) /\
    verified_purchases (stats out) = length (List.filter is_verified (all_reviews self)) /\
    verified_purchases (stats out) <= total_reviews out /\
    (total_reviews out = 0 -> verified_percentage (stats out) = JInt 0) /\
    (total_reviews out <> 0 ->
     verified_percentage (stats out) =
       JFloat (round_to plain
                 (PrimFloat.mul
                    (PrimFloat.div (float_of_nat (verified_purchases (stats out)))
                                   (float_of_nat (total_reviews out))) 100) 2)).
Proof.
  destruct (merge_files plain sample_files None) as [[self out]|e] eqn:E.
  - exists self, out. split; [reflexivity|].
    exact (verified_purchases_counted plain sample_files None self out E).
  - vm_compute in E. discriminate E.
Defined.

Lemma product_named_by_first_file_sample :
  exists self out,
    merge_files plain (sample_files ++ [zero_file]) None = Ok (self, out) /\
    Forall (named_by_first plain (sample_files ++ [zero_file])) (products out).
Proof.
  destruct (merge_files plain (sample_files ++ [zero_file]) None) as [[self out]|e] eqn:E.
  - exists self, out. split; [reflexivity|].
    exact (product_named_by_first_file plain (sample_files ++ [zero_file]) None self out E).
  - vm_compute in E. discriminate E.
Defined.

Lemma loaded_reviews_accounted_sample :
  exists self out,
    merge_files plain sample_files (Some "positive") = Ok (self, out) /\
    total_reviews_loaded self = list_sum (map (extracted_count plain) sample_files) /\
    list_sum (map (extracted_count plain) sample_files) =
      total_reviews out + total_duplicates_removed self + total_filtered_out self.
Proof.
  destruct (merge_files plain sample_files (Some "positive")) as [[self out]|e] eqn:E.
  - exists self, out. split; [reflexivity|].
    exact (loaded_reviews_accounted plain sample_files (Some "positive") self out E).
  - vm_compute in E. discriminate E.
Defined.

Lemma non_object_review_ends_merge_sample :
  (exists self out, merge_files plain [kitchen_file] None = Ok (self, out)) /\
  merge_files plain
    ([kitchen_file] ++ ("reviews_12345678_e.json", Some text_document) :: sample_files)
    None = Raise TypeError.
Proof.
  destruct (merge_files plain [kitchen_file] None) as [[self out]|e] eqn:E;
    [|vm_compute in E; discriminate E].
  split; [exists self, out; reflexivity|].
  apply (non_object_review_ends_merge plain [kitchen_file] "reviews_12345678_e.json"
           text_document [JStr "Nice mug, would buy it again"] sample_files None self out);
    [exact E | reflexivity | reflexivity | constructor; reflexivity].
Defined.

Lemma products_document_reviews_sample :
  exists revs info rss,
    extract_reviews_from_json plain products_document "combined.json" = Ok (revs, info) /\
    revs = map (stamped "combined.json") (concat rss) /\
    Forall2 from_product listed_products rss /\
    length revs = 2.
Proof.
  destruct (extract_reviews_from_json plain products_document "combined.json")
    as [[revs info]|e] eqn:E; [|vm_compute in E; discriminate E].
  destruct (products_document_reviews plain _ listed_products _ _ _ E eq_refl)
    as (rss & Hrevs & Hall).
  exists revs, info, rss. split; [reflexivity|]. split; [exact Hrevs|].
  split; [exact Hall|].
  vm_compute in E. injection E as <- _. reflexivity.
Defined.

